(** * Contract preview generation of the token builder

    A shallow embedding of [generateContractPreview] and of the pieces of
    the [TokenBuilder] component around it
    (src/components/tokens/TokenBuilder.tsx): the form state it reads, the
    building-block toggle, the tranche table and its summary, the
    templates and the handlers of the templates tab, the inputs and the
    checkboxes of the builder tab, the badges of the cards, and
    [saveToken] up to its first request to the store.

    Conventions of the embedding.
    - A JavaScript [number] is an IEEE 754 binary64 value, taken from the
      standard library's [spec_float]; arithmetic is [SFmul], [SFadd],
      [SFdiv] at precision 53, and [Number_toString] follows
      Number::toString of ECMA-262 (shortest round-trip digits).
    - A JavaScript string is a [string] whose characters are read as code
      units below 256; the templates themselves are plain ASCII.
    - Arrays are lists.  [includes], [join], [map], [filter] and [reduce]
      are the list functions of the same meaning.
    - [new Date(s).getTime()] is a parameter of the development: which
      strings an engine recognises as dates is engine-defined.  So are
      [parseInt] and [parseFloat] in the handlers of the numeric inputs,
      and the readings of the clock in [handleSelectTemplate].
    - The form has the type that TypeScript infers for [tokenForm] from
      its initial value: every field is present and has its declared
      type.  Two places of the component write a value outside that
      type.  [handleSelectToken] builds a form without [totalSupply]: it
      is embedded apart, with the form it builds ([HeldForm]) and the
      tranche summary as it is rendered on such a form; the handlers of
      the inputs are embedded on complete forms.  The [decimals] input,
      which stores the typed text, is not embedded.
    - A handler is a function from the state before the event to the
      state after it; a handler that can throw returns an [option]. *)

From Stdlib Require Import ZArith List String Ascii Bool Lia.
From Stdlib Require Import SpecFloat DecimalString.
Import ListNotations.
Open Scope string_scope.
Open Scope Z_scope.

(** ** Runtime primitives *)

Module JS.

(** *** Numbers *)

Definition number : Type := spec_float.
Definition prec : Z := 53.
Definition emax : Z := 1024.

Definition NaN : number := S754_nan.
Definition Number_ofZ (z : Z) : number := binary_normalize prec emax z 0 false.
Definition mul (x y : number) : number := SFmul prec emax x y.
Definition add (x y : number) : number := SFadd prec emax x y.
Definition div (x y : number) : number := SFdiv prec emax x y.


(** [x === y] on numbers: false as soon as one side is NaN, true on the
    two zeros. *)
Definition strictEquals (x y : number) : bool := SFeqb x y.

(** ToBoolean on a number: [0], [-0] and [NaN] are falsy. *)
Definition truthyNumber (x : number) : bool :=
  match x with
  | S754_zero _ | S754_nan => false
  | _ => true
  end.

(** Whether a number is a mathematical integer. *)
Definition isIntegral (x : number) : bool :=
  match x with
  | S754_zero _ => true
  | S754_finite _ m e => (0 <=? e) || (Z.pos m mod 2 ^ (- e) =? 0)
  | _ => false
  end.


(** Math.max: [-Infinity] without argument, NaN as soon as one argument
    is NaN; [+0] counts as larger than [-0]. *)
Definition isNaN (x : number) : bool :=
  match x with
  | S754_nan => true
  | _ => false
  end.

Definition max2 (highest n : number) : number :=
  if isNaN highest || isNaN n then NaN
  else
    match n, highest with
    | S754_zero false, S754_zero true => n
    | _, _ => if SFltb highest n then n else highest
    end.

Definition Math_max (l : list number) : number :=
  fold_left max2 l (S754_infinity true).

(** *** Number::toString, radix 10 *)

Definition decimalDigits (n : Z) : string :=
  NilZero.string_of_uint (N.to_uint (Z.to_N n)).

Fixpoint repeatZero (n : nat) : string :=
  match n with
  | O => EmptyString
  | S n' => String "0" (repeatZero n')
  end.

(** Comparison of the decimal [s * 10^p] with the rational [X / D]. *)
Definition decCompare (s p X D : Z) : comparison :=
  (s * 10 ^ Z.max p 0 * D ?= X * 10 ^ Z.max (- p) 0).

(** The set of reals that round to [m * 2^e], a finite number in
    canonical form (a mantissa of 53 bits, or the exponent -1074): from
    [lo / den] to [hi / den], end points included when the mantissa is
    even.  The gap below a power of two is half the gap above it. *)
Record interval : Type :=
  { lo : Z; hi : Z; val : Z; den : Z; closed : bool }.

Definition roundingInterval (m : positive) (e : Z) : interval :=
  let sh := Z.max (- e) 0 in
  let V := Z.pos m * 2 ^ (e + sh + 2) in
  let up := 2 ^ (e + sh + 1) in
  let down :=
    if Pos.eqb m (2 ^ 52) && (-1074 <? e) then 2 ^ (e + sh) else up in
  {| lo := V - down; hi := V + up; val := V; den := 2 ^ (sh + 2);
     closed := Z.even (Z.pos m) |}.

Definition inInterval (i : interval) (s p : Z) : bool :=
  match decCompare s p (lo i) (den i), decCompare s p (hi i) (den i) with
  | Gt, Lt => true
  | Eq, _ | _, Eq => closed i
  | _, _ => false
  end.

(** The least [n], from [start] on, with [val / den < 10^n]. *)
Fixpoint decadeFrom (fuel : nat) (start : Z) (i : interval) : Z :=
  match fuel with
  | O => start
  | S fuel' =>
      match decCompare 1 start (val i) (den i) with
      | Gt => start
      | _ => decadeFrom fuel' (start + 1) i
      end
  end.

(** [m * 2^e] lies in [2^(b-1), 2^b) for [b] its bit length plus [e]; a
    lower estimate of its decimal exponent starts the search. *)
Definition decade (m : positive) (e : Z) (i : interval) : Z :=
  let b := Z.pos (digits2_pos m) + e in
  decadeFrom 8 ((b - 1) * 30103 / 100000 - 1) i.

Definition floorScaled (i : interval) (p : Z) : Z :=
  (val i * 10 ^ Z.max (- p) 0) / (den i * 10 ^ Z.max p 0).

(** Of [s * 10^p] and [(s+1) * 10^p], is the first one the closer to the
    value?  The even one on a tie. *)
Definition closerIsLow (i : interval) (s p : Z) : bool :=
  let PN := 10 ^ Z.max p 0 in
  let PD := 10 ^ Z.max (- p) 0 in
  let dl := val i * PD - s * PN * den i in
  let dh := (s + 1) * PN * den i - val i * PD in
  match dl ?= dh with
  | Lt => true
  | Gt => false
  | Eq => Z.even s
  end.

(** The digits [s] and their number [k], for [k] as small as possible. *)
Fixpoint shortest (fuel : nat) (k n : Z) (i : interval) : Z * Z :=
  let p := n - k in
  let s := floorScaled i p in
  let okl := inInterval i s p in
  let okh := inInterval i (s + 1) p in
  let pick :=
    if okl && okh then (if closerIsLow i s p then s else s + 1)
    else if okl then s else s + 1 in
  match fuel with
  | O => (pick, k)
  | S fuel' => if okl || okh then (pick, k) else shortest fuel' (k + 1) n i
  end.

Definition exponentPart (n : Z) : string :=
  let e := n - 1 in
  "e" ++ (if e <? 0 then "-" else "+") ++ decimalDigits (Z.abs e).

Definition formatDigits (s k n : Z) : string :=
  let ds := decimalDigits s in
  if (k <=? n) && (n <=? 21) then ds ++ repeatZero (Z.to_nat (n - k))
  else if (0 <? n) && (n <=? 21) then
    substring 0 (Z.to_nat n) ds ++ "." ++
    substring (Z.to_nat n) (Z.to_nat (k - n)) ds
  else if (-6 <? n) && (n <=? 0) then
    "0." ++ repeatZero (Z.to_nat (- n)) ++ ds
  else if k =? 1 then ds ++ exponentPart n
  else
    substring 0 1 ds ++ "." ++ substring 1 (Z.to_nat (k - 1)) ds ++
    exponentPart n.

Definition toStringPositive (m : positive) (e : Z) : string :=
  let i := roundingInterval m e in
  let n := decade m e i in
  let '(s, k) := shortest 16 1 n i in
  if (k =? 1) && (s =? 10) then formatDigits 1 1 (n + 1)
  else formatDigits s k n.

Definition Number_toString (x : number) : string :=
  match x with
  | S754_nan => "NaN"
  | S754_zero _ => "0"
  | S754_infinity s => if s then "-Infinity" else "Infinity"
  | S754_finite s m e =>
      (if s then "-" else EmptyString) ++ toStringPositive m e
  end.

(** *** Strings and arrays *)

(** ToBoolean on an array, as on any object: always true. *)
Definition truthyArray {A : Type} (l : list A) : bool := true.

(** ToBoolean on a string: only the empty string is falsy. *)
Definition truthyString (s : string) : bool :=
  match s with
  | EmptyString => false
  | String _ _ => true
  end.

(** The class [\s] on code units below 256: TAB, LF, VT, FF, CR, SPACE
    and NO-BREAK SPACE. *)
Definition isWhiteSpace (c : ascii) : bool :=
  let n := nat_of_ascii c in
  ((9 <=? n) && (n <=? 13))%nat || (n =? 32)%nat || (n =? 160)%nat.

(** [s.replace(/\s+/g, r)]: every maximal run of white space is replaced
    by one copy of [r].  [inRun] tells that the previous character was
    white space, so the run has been replaced already. *)
Fixpoint replaceRuns (r : string) (inRun : bool) (s : string) : string :=
  match s with
  | EmptyString => EmptyString
  | String c s' =>
      if isWhiteSpace c then
        if inRun then replaceRuns r true s' else r ++ replaceRuns r true s'
      else String c (replaceRuns r false s')
  end.

Definition replaceWhiteSpace (r s : string) : string := replaceRuns r false s.

Definition includes (l : list string) (x : string) : bool :=
  existsb (String.eqb x) l.

Definition join (sep : string) (l : list string) : string :=
  String.concat sep l.

(** [s.includes(sub)] on strings: [sub] starts at some position of [s]. *)
Fixpoint stringIncludes (s sub : string) : bool :=
  String.prefix sub s ||
  match s with
  | EmptyString => false
  | String _ s' => stringIncludes s' sub
  end.

(** [x || 0] on numbers. *)
Definition orZero (x : number) : number :=
  if truthyNumber x then x else Number_ofZ 0.

(** What a checkbox hands to [onCheckedChange]: a boolean or the string
    [indeterminate], which is truthy. *)
Inductive CheckedState : Type :=
  | Checked (b : bool)
  | Indeterminate.

Definition truthyChecked (checked : CheckedState) : bool :=
  match checked with
  | Checked b => b
  | Indeterminate => true
  end.

(** *** Completions

    A call returns a value or throws.  [generateContractPreview] has no
    [throw] statement and calls nothing that throws on its declared
    types; the two error kinds are the ones the specification names. *)

Inductive ErrorKind : Type :=
  | UnsupportedStandardKind
  | DuplicateTrancheIdError.

Inductive completion (A : Type) : Type :=
  | Normal (v : A)
  | Throw (e : ErrorKind).

Arguments Normal {A} v.
Arguments Throw {A} e.

End JS.

(** ** The form state *)

Definition nl : string := String (ascii_of_nat 10) EmptyString.
Definition dq : string := String (ascii_of_nat 34) EmptyString.

(** A template literal, one list element per source line. *)
Definition lines (l : list string) : string := JS.join nl l.

Module Tranche.
Record t : Type :=
  { id : JS.number; name : string; value : JS.number;
    interestRate : JS.number }.
End Tranche.

Module Blocks.
Record t : Type :=
  { compliance : list string; features : list string;
    governance : list string }.
End Blocks.

Module Metadata.
Record t : Type :=
  { description : string; category : string; product : string;
    issuanceDate : string; maturityDate : string;
    tranches : list Tranche.t; whitelistEnabled : bool;
    jurisdictionRestrictions : list string; conversionRate : JS.number }.
End Metadata.

Module TokenForm.
Record t : Type :=
  { name : string; symbol : string; decimals : JS.number;
    standard : string; totalSupply : JS.number;
    blocks : Blocks.t; metadata : Metadata.t }.
End TokenForm.

(** A row of the [tokens] table, without its two time stamps. *)
Module Token.
Record t : Type :=
  { id : string; project_id : string; name : string; symbol : string;
    decimals : JS.number; standard : string; blocks : Blocks.t;
    metadata : Metadata.t; status : string; contract_preview : string }.
End Token.

(** The [useState] variables of the component that the modelled functions
    read: [generateContractPreview] reads [tokenForm] only, [saveToken]
    reads [tokenForm], [selectedToken] and [currentProjectId]. *)
Record BuilderState : Type :=
  { currentProjectId : string; activeTab : string;
    selectedToken : option Token.t; isCreating : bool; isSaving : bool;
    selectedCategory : string; selectedProduct : string;
    projectName : string; tokenForm : TokenForm.t }.

Definition TOKEN_STANDARDS : list (string * string) :=
  [ ("ERC-20", "ERC-20 (Fungible Token)");
    ("ERC-721", "ERC-721 (Non-Fungible Token)");
    ("ERC-1155", "ERC-1155 (Multi Token)");
    ("ERC-1400", "ERC-1400 (Security Token)");
    ("ERC-3525", "ERC-3525 (Semi-Fungible Token)");
    ("ERC-4626", "ERC-4626 (Tokenized Vault)") ].

(** ** The templates of [generateContractPreview] *)

(** [name.replace(/\s+/g, r)] with the empty string for [r]: the contract
    name. *)
Definition contractName (name : string) : string :=
  JS.replaceWhiteSpace EmptyString name.

(** [metadata.whitelistEnabled ? ... : ...] *)
Definition whitelistFlag (metadata : Metadata.t) : string :=
  if Metadata.whitelistEnabled metadata
  then "bool private _whitelistEnabled = true;"
  else "bool private _whitelistEnabled = false;".

Definition jurisdictionStatement (j : string) : string :=
  "_restrictedJurisdictions[" ++ dq ++ j ++ dq ++ "] = true;".

(** [metadata.jurisdictionRestrictions.map(...).join("\n        ")] *)
Definition jurisdictionInit (metadata : Metadata.t) : string :=
  JS.join (nl ++ "        ")
    (map jurisdictionStatement (Metadata.jurisdictionRestrictions metadata)).

(** [tranche.interestRate * 100], the last argument of a tranche
    statement. *)
Definition basisPointsArgument (tranche : Tranche.t) : JS.number :=
  JS.mul (Tranche.interestRate tranche) (JS.Number_ofZ 100).

Definition trancheStatement (tranche : Tranche.t) : string :=
  "        _createTranche(" ++ JS.Number_toString (Tranche.id tranche) ++
  ", " ++ dq ++ Tranche.name tranche ++ dq ++ ", " ++
  JS.Number_toString (Tranche.value tranche) ++ ", " ++
  JS.Number_toString (basisPointsArgument tranche) ++ ");".

(** [metadata.tranches.map(...).join("\n")] *)
Definition trancheInit (metadata : Metadata.t) : string :=
  JS.join nl (map trancheStatement (Metadata.tranches metadata)).

(** [metadata.conversionRate || 100] *)
Definition conversionRateOr100 (metadata : Metadata.t) : JS.number :=
  if JS.truthyNumber (Metadata.conversionRate metadata)
  then Metadata.conversionRate metadata
  else JS.Number_ofZ 100.

Section Generator.

(** [new Date(s).getTime()]: milliseconds since the epoch, or NaN for a
    string the engine does not recognise. *)
Variable Date_getTime : string -> JS.number.

(** [date ? `${new Date(date).getTime() / 1000}` : fallback] *)
Definition epochSecondsOr (date fallback : string) : string :=
  if JS.truthyString date
  then JS.Number_toString (JS.div (Date_getTime date) (JS.Number_ofZ 1000))
  else fallback.

Definition erc20Skeleton
  (name symbol : string) (totalSupply decimals : JS.number) : string :=
  lines [
    "// SPDX-License-Identifier: MIT";
    "pragma solidity ^0.8.0;";
    EmptyString;
    "import " ++ dq ++ "@openzeppelin/contracts/token/ERC20/ERC20.sol" ++ dq ++
      ";";
    "import " ++ dq ++ "@openzeppelin/contracts/access/Ownable.sol" ++ dq ++
      ";";
    EmptyString;
    "contract " ++ contractName name ++
      " is ERC20, Ownable {";
    "    constructor() ERC20(" ++ dq ++ name ++ dq ++ ", " ++ dq ++ symbol ++
      dq ++ ") {";
    "        // Initial setup";
    "        _mint(msg.sender, " ++ JS.Number_toString totalSupply ++
      " * 10**" ++ JS.Number_toString decimals ++ ");";
    "    }";
    EmptyString
  ].

Definition kycFragment : string :=
  lines [
    EmptyString;
    "    // KYC Implementation";
    "    mapping(address => bool) private _kycApproved;";
    "    ";
    "    function setKycStatus(address account, bool status) external onlyOwner {";
    "        _kycApproved[account] = status;";
    "    }";
    "    ";
    "    function _beforeTokenTransfer(address from, address to, uint256 amount) internal override {";
    "        super._beforeTokenTransfer(from, to, amount);";
    "        require(from == address(0) || _kycApproved[from], " ++ dq ++
      "KYC not approved for sender" ++ dq ++ ");";
    "        require(to == address(0) || _kycApproved[to], " ++ dq ++
      "KYC not approved for recipient" ++ dq ++ ");";
    "    }";
    EmptyString
  ].

Definition dividendsFragment : string :=
  lines [
    EmptyString;
    "    // Dividend Distribution";
    "    function distributeTokenDividends(uint256 amount) external onlyOwner {";
    "        // Dividend distribution logic";
    "    }";
    EmptyString
  ].

Definition erc1400Skeleton
  (name symbol : string) (totalSupply decimals : JS.number) : string :=
  lines [
    "// SPDX-License-Identifier: MIT";
    "pragma solidity ^0.8.0;";
    EmptyString;
    "import " ++ dq ++ "@openzeppelin/contracts/token/ERC20/ERC20.sol" ++ dq ++
      ";";
    "import " ++ dq ++ "@openzeppelin/contracts/access/Ownable.sol" ++ dq ++
      ";";
    EmptyString;
    "contract " ++ contractName name ++
      " is ERC20, Ownable {";
    "    // ERC-1400 Security Token Implementation";
    "    constructor() ERC20(" ++ dq ++ name ++ dq ++ ", " ++ dq ++ symbol ++
      dq ++ ") {";
    "        // Initial setup";
    "        _mint(msg.sender, " ++ JS.Number_toString totalSupply ++
      " * 10**" ++ JS.Number_toString decimals ++ ");";
    "    }";
    EmptyString
  ].

Definition erc1400ComplianceFragment (metadata : Metadata.t) : string :=
  lines [
    EmptyString;
    "    // Compliance Controls";
    "    mapping(address => bool) private _whitelisted;";
    "    " ++ whitelistFlag metadata;
    "    ";
    "    function setWhitelistStatus(address account, bool status) external onlyOwner {";
    "        _whitelisted[account] = status;";
    "    }";
    "    ";
    "    function setWhitelistEnabled(bool enabled) external onlyOwner {";
    "        _whitelistEnabled = enabled;";
    "    }";
    "    ";
    "    function _beforeTokenTransfer(address from, address to, uint256 amount) internal override {";
    "        super._beforeTokenTransfer(from, to, amount);";
    "        if (_whitelistEnabled) {";
    "            require(from == address(0) || _whitelisted[from], " ++ dq ++
      "Sender not whitelisted" ++ dq ++ ");";
    "            require(to == address(0) || _whitelisted[to], " ++ dq ++
      "Recipient not whitelisted" ++ dq ++ ");";
    "        }";
    "    }";
    EmptyString
  ].

Definition jurisdictionFragment (metadata : Metadata.t) : string :=
  lines [
    EmptyString;
    "    // Jurisdiction Restrictions";
    "    mapping(string => bool) private _restrictedJurisdictions;";
    "    ";
    "    constructor() {";
    "        " ++ jurisdictionInit metadata;
    "    }";
    "    ";
    "    function setJurisdictionRestriction(string memory jurisdiction, bool restricted) external onlyOwner {";
    "        _restrictedJurisdictions[jurisdiction] = restricted;";
    "    }";
    "    ";
    "    function isJurisdictionRestricted(string memory jurisdiction) public view returns (bool) {";
    "        return _restrictedJurisdictions[jurisdiction];";
    "    }";
    EmptyString
  ].

Definition erc3525Prologue
  (name symbol : string) (totalSupply decimals : JS.number)
  (metadata : Metadata.t) : list string :=
  [
    "// SPDX-License-Identifier: MIT";
    "pragma solidity ^0.8.0;";
    EmptyString;
    "import " ++ dq ++
      "@openzeppelin/contracts/token/ERC721/extensions/ERC721Enumerable.sol" ++
      dq ++ ";";
    "import " ++ dq ++ "@openzeppelin/contracts/access/Ownable.sol" ++ dq ++
      ";";
    EmptyString;
    "contract " ++ contractName name ++
      " is ERC721Enumerable, Ownable {";
    "    // ERC-3525 Semi-Fungible Token Implementation for Structured Products";
    "    ";
    "    // Token details";
    "    string private _name = " ++ dq ++ name ++ dq ++ ";";
    "    string private _symbol = " ++ dq ++ symbol ++ dq ++ ";";
    "    uint8 private _decimals = " ++ JS.Number_toString decimals ++ ";";
    "    uint256 private _totalSupply = " ++ JS.Number_toString totalSupply ++
      ";";
    "    ";
    "    // Tranche/Slot structure";
    "    struct Tranche {";
    "        uint256 slotId;";
    "        string name;";
    "        uint256 value;";
    "        uint256 interestRate; // Basis points (1% = 100)";
    "    }";
    "    ";
    "    // Mapping from slot ID to tranche details";
    "    mapping(uint256 => Tranche) private _tranches;";
    "    ";
    "    // Mapping from token ID to slot ID";
    "    mapping(uint256 => uint256) private _tokenSlots;";
    "    ";
    "    // Mapping from token ID to value";
    "    mapping(uint256 => uint256) private _tokenValues;";
    "    ";
    "    // Issuance and maturity dates";
    "    uint256 private _issuanceDate = " ++
      epochSecondsOr (Metadata.issuanceDate metadata) "block.timestamp" ++
      ";";
    "    uint256 private _maturityDate = " ++
      epochSecondsOr (Metadata.maturityDate metadata) "block.timestamp + 157680000" ++
      "; // Default: 5 years";
    "    ";
    "    // Conversion rate to ERC-20";
    "    uint256 private _conversionRate = " ++
      JS.Number_toString (conversionRateOr100 metadata) ++ ";";
    "    ";
    "    // Events";
    "    event SlotCreated(uint256 indexed slotId, string name, uint256 value, uint256 interestRate);";
    "    event TokenMinted(address indexed to, uint256 indexed tokenId, uint256 indexed slotId, uint256 value);";
    "    ";
    "    constructor() ERC721(" ++ dq ++ name ++ dq ++ ", " ++ dq ++ symbol ++
      dq ++ ") {";
    "        // Initialize tranches"
  ].

Definition erc3525Epilogue : list string :=
  [
    "    }";
    "    ";
    "    function _createTranche(uint256 slotId, string memory name, uint256 value, uint256 interestRate) internal {";
    "        require(_tranches[slotId].slotId == 0, " ++ dq ++
      "Tranche already exists" ++ dq ++ ");";
    "        _tranches[slotId] = Tranche(slotId, name, value, interestRate);";
    "        emit SlotCreated(slotId, name, value, interestRate);";
    "    }";
    "    ";
    "    function mintToken(address to, uint256 slotId, uint256 value) external onlyOwner {";
    "        require(_tranches[slotId].slotId != 0, " ++ dq ++
      "Tranche does not exist" ++ dq ++ ");";
    "        require(value > 0, " ++ dq ++ "Value must be greater than 0" ++
      dq ++ ");";
    "        ";
    "        uint256 tokenId = totalSupply() + 1;";
    "        _mint(to, tokenId);";
    "        _tokenSlots[tokenId] = slotId;";
    "        _tokenValues[tokenId] = value;";
    "        ";
    "        emit TokenMinted(to, tokenId, slotId, value);";
    "    }";
    "    ";
    "    function getTokenSlot(uint256 tokenId) external view returns (uint256) {";
    "        require(_exists(tokenId), " ++ dq ++ "Token does not exist" ++ dq ++
      ");";
    "        return _tokenSlots[tokenId];";
    "    }";
    "    ";
    "    function getTokenValue(uint256 tokenId) external view returns (uint256) {";
    "        require(_exists(tokenId), " ++ dq ++ "Token does not exist" ++ dq ++
      ");";
    "        return _tokenValues[tokenId];";
    "    }";
    "    ";
    "    function getTrancheDetails(uint256 slotId) external view returns (string memory, uint256, uint256) {";
    "        require(_tranches[slotId].slotId != 0, " ++ dq ++
      "Tranche does not exist" ++ dq ++ ");";
    "        Tranche memory tranche = _tranches[slotId];";
    "        return (tranche.name, tranche.value, tranche.interestRate);";
    "    }";
    "    ";
    "    function getMaturityDate() external view returns (uint256) {";
    "        return _maturityDate;";
    "    }";
    "    ";
    "    function getIssuanceDate() external view returns (uint256) {";
    "        return _issuanceDate;";
    "    }";
    "    ";
    "    function getConversionRate() external view returns (uint256) {";
    "        return _conversionRate;";
    "    }";
    EmptyString
  ].

Definition erc3525Skeleton
  (name symbol : string) (totalSupply decimals : JS.number)
  (metadata : Metadata.t) : string :=
  lines (erc3525Prologue name symbol totalSupply decimals metadata ++
         trancheInit metadata ::
         erc3525Epilogue).

Definition erc3525ComplianceFragment (metadata : Metadata.t) : string :=
  lines [
    EmptyString;
    "    // Compliance Controls";
    "    mapping(address => bool) private _whitelisted;";
    "    " ++ whitelistFlag metadata;
    "    ";
    "    function setWhitelistStatus(address account, bool status) external onlyOwner {";
    "        _whitelisted[account] = status;";
    "    }";
    "    ";
    "    function setWhitelistEnabled(bool enabled) external onlyOwner {";
    "        _whitelistEnabled = enabled;";
    "    }";
    "    ";
    "    function _beforeTokenTransfer(address from, address to, uint256 tokenId) internal override {";
    "        super._beforeTokenTransfer(from, to, tokenId);";
    "        if (_whitelistEnabled) {";
    "            require(from == address(0) || _whitelisted[from], " ++ dq ++
      "Sender not whitelisted" ++ dq ++ ");";
    "            require(to == address(0) || _whitelisted[to], " ++ dq ++
      "Recipient not whitelisted" ++ dq ++ ");";
    "        }";
    "    }";
    EmptyString
  ].

(** ** [generateContractPreview] *)

Definition generateContractPreview (st : BuilderState)
  : JS.completion string :=
  let name := TokenForm.name (tokenForm st) in
  let symbol := TokenForm.symbol (tokenForm st) in
  let standard := TokenForm.standard (tokenForm st) in
  let blocks := TokenForm.blocks (tokenForm st) in
  let metadata := TokenForm.metadata (tokenForm st) in
  let totalSupply := TokenForm.totalSupply (tokenForm st) in
  let decimals := TokenForm.decimals (tokenForm st) in
  let preview := EmptyString in
  let preview :=
    if String.eqb standard "ERC-20" then
      let preview := erc20Skeleton name symbol totalSupply decimals in
      (* Add compliance features *)
      let preview :=
        if JS.includes (Blocks.compliance blocks) "KYC"
        then preview ++ kycFragment else preview in
      (* Add features *)
      let preview :=
        if JS.includes (Blocks.features blocks) "Dividends"
        then preview ++ dividendsFragment else preview in
      preview ++ "}"
    else if String.eqb standard "ERC-1400" then
      let preview := erc1400Skeleton name symbol totalSupply decimals in
      (* Add compliance features *)
      let preview :=
        if (0 <? List.length (Blocks.compliance blocks))%nat
        then preview ++ erc1400ComplianceFragment metadata else preview in
      (* Add jurisdiction restrictions if any *)
      let preview :=
        if JS.truthyArray (Metadata.jurisdictionRestrictions metadata)
           && (0 <? List.length
                      (Metadata.jurisdictionRestrictions metadata))%nat
        then preview ++ jurisdictionFragment metadata else preview in
      preview ++ "}"
    else if String.eqb standard "ERC-3525" then
      let preview :=
        erc3525Skeleton name symbol totalSupply decimals metadata in
      (* Add compliance features *)
      let preview :=
        if (0 <? List.length (Blocks.compliance blocks))%nat
        then preview ++ erc3525ComplianceFragment metadata else preview in
      preview ++ "}"
    else preview in
  JS.Normal preview.

(** The preview pane: the text of [generateContractPreview()], or a
    placeholder when that text is empty. *)
Definition previewPane (st : BuilderState) : JS.completion string :=
  match generateContractPreview st with
  | JS.Normal preview =>
      JS.Normal (if JS.truthyString preview then preview
                 else "// No preview available")
  | JS.Throw e => JS.Throw e
  end.

(** ** The draft and its fragments

    The text is assembled from a skeleton, the fragments appended under a
    condition and the closing brace.  [composeDraft] names these parts;
    [generateContractPreview_fullText] below shows that their
    concatenation is the text the generator returns. *)

Inductive FragmentId : Type :=
  | Erc20Kyc
  | Erc20Dividends
  | Erc1400ComplianceControls
  | Erc1400JurisdictionRestrictions
  | Erc3525ComplianceControls.

Record ContractDraft : Type :=
  { headerText : string;
    bodyFragments : list (FragmentId * string);
    footerText : string }.

Definition fullText (d : ContractDraft) : string :=
  headerText d ++ String.concat EmptyString (map snd (bodyFragments d)) ++
  footerText d.

Definition includedFragmentIds (d : ContractDraft) : list FragmentId :=
  map fst (bodyFragments d).

Definition fragmentIf (b : bool) (i : FragmentId) (text : string)
  : list (FragmentId * string) :=
  if b then [(i, text)] else [].

Definition composeDraft (form : TokenForm.t) : ContractDraft :=
  let blocks := TokenForm.blocks form in
  let metadata := TokenForm.metadata form in
  if String.eqb (TokenForm.standard form) "ERC-20" then
    {| headerText :=
         erc20Skeleton (TokenForm.name form) (TokenForm.symbol form)
           (TokenForm.totalSupply form) (TokenForm.decimals form);
       bodyFragments :=
         (fragmentIf (JS.includes (Blocks.compliance blocks) "KYC")
            Erc20Kyc kycFragment ++
          fragmentIf (JS.includes (Blocks.features blocks) "Dividends")
            Erc20Dividends dividendsFragment)%list;
       footerText := "}" |}
  else if String.eqb (TokenForm.standard form) "ERC-1400" then
    {| headerText :=
         erc1400Skeleton (TokenForm.name form) (TokenForm.symbol form)
           (TokenForm.totalSupply form) (TokenForm.decimals form);
       bodyFragments :=
         (fragmentIf (0 <? List.length (Blocks.compliance blocks))%nat
            Erc1400ComplianceControls (erc1400ComplianceFragment metadata) ++
          fragmentIf
            (0 <? List.length (Metadata.jurisdictionRestrictions metadata))%nat
            Erc1400JurisdictionRestrictions
            (jurisdictionFragment metadata))%list;
       footerText := "}" |}
  else if String.eqb (TokenForm.standard form) "ERC-3525" then
    {| headerText :=
         erc3525Skeleton (TokenForm.name form) (TokenForm.symbol form)
           (TokenForm.totalSupply form) (TokenForm.decimals form) metadata;
       bodyFragments :=
         fragmentIf (0 <? List.length (Blocks.compliance blocks))%nat
           Erc3525ComplianceControls (erc3525ComplianceFragment metadata);
       footerText := "}" |}
  else
    {| headerText := EmptyString; bodyFragments := [];
       footerText := EmptyString |}.

End Generator.

(** ** Building-block toggle *)

Inductive BlockType : Type := Compliance | Features | Governance.

Definition getBlocks (blockType : BlockType) (blocks : Blocks.t)
  : list string :=
  match blockType with
  | Compliance => Blocks.compliance blocks
  | Features => Blocks.features blocks
  | Governance => Blocks.governance blocks
  end.

Definition setBlocks (blockType : BlockType) (l : list string)
  (blocks : Blocks.t) : Blocks.t :=
  match blockType with
  | Compliance =>
      {| Blocks.compliance := l; Blocks.features := Blocks.features blocks;
         Blocks.governance := Blocks.governance blocks |}
  | Features =>
      {| Blocks.compliance := Blocks.compliance blocks; Blocks.features := l;
         Blocks.governance := Blocks.governance blocks |}
  | Governance =>
      {| Blocks.compliance := Blocks.compliance blocks;
         Blocks.features := Blocks.features blocks; Blocks.governance := l |}
  end.

Definition withBlocks (blocks : Blocks.t) (form : TokenForm.t)
  : TokenForm.t :=
  {| TokenForm.name := TokenForm.name form;
     TokenForm.symbol := TokenForm.symbol form;
     TokenForm.decimals := TokenForm.decimals form;
     TokenForm.standard := TokenForm.standard form;
     TokenForm.totalSupply := TokenForm.totalSupply form;
     TokenForm.blocks := blocks;
     TokenForm.metadata := TokenForm.metadata form |}.

(** [setTokenForm]: the other state variables are kept. *)
Definition setTokenForm (f : TokenForm.t -> TokenForm.t) (st : BuilderState)
  : BuilderState :=
  {| currentProjectId := currentProjectId st; activeTab := activeTab st;
     selectedToken := selectedToken st; isCreating := isCreating st;
     isSaving := isSaving st; selectedCategory := selectedCategory st;
     selectedProduct := selectedProduct st; projectName := projectName st;
     tokenForm := f (tokenForm st) |}.

(** The branch of [handleBlockToggle] that adds:
    [blocks[blockType] = [...blocks[blockType], blockId]]. *)
Definition addBlock (blockType : BlockType) (blockId : string)
  (form : TokenForm.t) : TokenForm.t :=
  let blocks := TokenForm.blocks form in
  withBlocks
    (setBlocks blockType (getBlocks blockType blocks ++ [blockId])%list blocks)
    form.

(** The branch that removes:
    [blocks[blockType].filter((id) => id !== blockId)]. *)
Definition removeBlock (blockType : BlockType) (blockId : string)
  (form : TokenForm.t) : TokenForm.t :=
  let blocks := TokenForm.blocks form in
  withBlocks
    (setBlocks blockType
       (filter (fun id => negb (String.eqb id blockId))
          (getBlocks blockType blocks)) blocks)
    form.

Definition handleBlockToggle (blockType : BlockType) (blockId : string)
  (st : BuilderState) : BuilderState :=
  setTokenForm
    (fun prev =>
       if JS.includes (getBlocks blockType (TokenForm.blocks prev)) blockId
       then removeBlock blockType blockId prev
       else addBlock blockType blockId prev)
    st.

(** ** Tranche table *)

Definition withTranchesOf (tranches : list Tranche.t) (form : TokenForm.t)
  : TokenForm.t :=
  let metadata := TokenForm.metadata form in
  {| TokenForm.name := TokenForm.name form;
     TokenForm.symbol := TokenForm.symbol form;
     TokenForm.decimals := TokenForm.decimals form;
     TokenForm.standard := TokenForm.standard form;
     TokenForm.totalSupply := TokenForm.totalSupply form;
     TokenForm.blocks := TokenForm.blocks form;
     TokenForm.metadata :=
       {| Metadata.description := Metadata.description metadata;
          Metadata.category := Metadata.category metadata;
          Metadata.product := Metadata.product metadata;
          Metadata.issuanceDate := Metadata.issuanceDate metadata;
          Metadata.maturityDate := Metadata.maturityDate metadata;
          Metadata.tranches := tranches;
          Metadata.whitelistEnabled := Metadata.whitelistEnabled metadata;
          Metadata.jurisdictionRestrictions :=
            Metadata.jurisdictionRestrictions metadata;
          Metadata.conversionRate := Metadata.conversionRate metadata |} |}.

(** The id given by the Add Tranche button:
    [tranches.length > 0 ? Math.max(...tranches.map((t) => t.id)) + 1 : 1]. *)
Definition newId (tranches : list Tranche.t) : JS.number :=
  if (0 <? List.length tranches)%nat
  then JS.add (JS.Math_max (map Tranche.id tranches)) (JS.Number_ofZ 1)
  else JS.Number_ofZ 1.

(** The Add Tranche button: a tranche named after its id, with value 0
    and rate 0, is appended. *)
Definition addTranche (st : BuilderState) : BuilderState :=
  let id := newId (Metadata.tranches (TokenForm.metadata (tokenForm st))) in
  setTokenForm
    (fun prev =>
       withTranchesOf
         (Metadata.tranches (TokenForm.metadata prev) ++
          [ {| Tranche.id := id;
               Tranche.name := "Tranche " ++ JS.Number_toString id;
               Tranche.value := JS.Number_ofZ 0;
               Tranche.interestRate := JS.Number_ofZ 0 |} ])%list
         prev)
    st.

(** [tranches.filter((_, i) => i !== index)] *)
Fixpoint removeAt {A : Type} (index : nat) (l : list A) : list A :=
  match l with
  | [] => []
  | x :: l' =>
      match index with
      | O => l'
      | S index' => x :: removeAt index' l'
      end
  end.

(** The delete button of the row at [index]. *)
Definition deleteTranche (index : nat) (st : BuilderState) : BuilderState :=
  let updatedTranches :=
    removeAt index (Metadata.tranches (TokenForm.metadata (tokenForm st))) in
  setTokenForm (withTranchesOf updatedTranches) st.

(** ** Tranche summary *)

(** [tranches.reduce((sum, t) => sum + t.value, 0)] *)
Definition trancheTotal (tranches : list Tranche.t) : JS.number :=
  fold_left (fun sum t => JS.add sum (Tranche.value t)) tranches
    (JS.Number_ofZ 0).

(** [reduce(...) === tokenForm.totalSupply] *)
Definition trancheSumMatches (form : TokenForm.t) : bool :=
  JS.strictEquals
    (trancheTotal (Metadata.tranches (TokenForm.metadata form)))
    (TokenForm.totalSupply form).

Inductive SummaryLabel : Type :=
  | MatchesTotalSupply
  | DoesntMatchTotalSupply (totalSupply : JS.number).

Record TrancheSummary : Type :=
  { totalValue : JS.number; className : string; label : SummaryLabel }.

(** The summary line under the tranche table, on a form that has its
    total supply; it is rendered only when there is a tranche.  The class
    is chosen with [!==], the label with [===].  The condition under
    which the tranche section itself is displayed, and the form that has
    no total supply, come with [renderTrancheSummary] below. *)
Definition trancheSummary (form : TokenForm.t) : option TrancheSummary :=
  let tranches := Metadata.tranches (TokenForm.metadata form) in
  if (0 <? List.length tranches)%nat then
    Some
      {| totalValue := trancheTotal tranches;
         className :=
           if negb (JS.strictEquals (trancheTotal tranches)
                      (TokenForm.totalSupply form))
           then "text-red-500" else "text-green-500";
         label :=
           if trancheSumMatches form then MatchesTotalSupply
           else DoesntMatchTotalSupply (TokenForm.totalSupply form) |}
  else None.

(** ** [saveToken] *)

(** The columns written by [saveToken], the time stamps left out. *)
Record TokenColumns : Type :=
  { col_name : string; col_symbol : string; col_decimals : JS.number;
    col_standard : string; col_blocks : Blocks.t;
    col_metadata : Metadata.t; col_contract_preview : string }.

(** What [saveToken] does up to its first request to the store: it shows
    the validation toast and returns, or it updates the selected row, or
    it inserts a new row with status DRAFT; an exception thrown on the way
    is caught and shown as an error toast. *)
Inductive SaveRequest : Type :=
  | ValidationErrorToast
  | UpdateToken (id : string) (columns : TokenColumns)
  | InsertToken (project_id : string) (columns : TokenColumns)
  | SaveErrorToast.

Section Save.

Variable Date_getTime : string -> JS.number.

Definition saveToken (st : BuilderState) : SaveRequest :=
  let form := tokenForm st in
  if negb (JS.truthyString (TokenForm.name form))
     || negb (JS.truthyString (TokenForm.symbol form))
     || negb (JS.truthyString (TokenForm.standard form))
  then ValidationErrorToast
  else
    match generateContractPreview Date_getTime st with
    | JS.Throw _ => SaveErrorToast
    | JS.Normal contractPreview =>
        let columns :=
          {| col_name := TokenForm.name form;
             col_symbol := TokenForm.symbol form;
             col_decimals := TokenForm.decimals form;
             col_standard := TokenForm.standard form;
             col_blocks := TokenForm.blocks form;
             col_metadata := TokenForm.metadata form;
             col_contract_preview := contractPreview |} in
        match selectedToken st with
        | Some token => UpdateToken (Token.id token) columns
        | None => InsertToken (currentProjectId st) columns
        end
    end.

End Save.

(** ** Products and templates *)

Definition PRODUCT_CATEGORIES : list (string * list string) :=
  [ ("Traditional Assets",
     ["Structured Products"; "Equity"; "Commodities"; "Funds, ETFs, ETPs";
      "Bonds"; "Quantitative Investment Strategies"]);
    ("Alternative Assets",
     ["Private Equity"; "Private Debt"; "Real Estate"; "Energy";
      "Infrastructure"; "Collectibles & all other assets"]);
    ("Digital Assets", ["Digital Tokenised Fund"]) ].

(** A template; its [icon], an element that is only displayed, is left
    out. *)
Module TokenTemplate.
Record t : Type :=
  { name : string; description : string; category : string;
    standard : string; defaultBlocks : Blocks.t }.
End TokenTemplate.

Definition TOKEN_TEMPLATES : list TokenTemplate.t :=
  [ {| TokenTemplate.name := "Equity Token";
       TokenTemplate.description :=
         "Standard equity token with voting rights and dividends";
       TokenTemplate.category := "Equity";
       TokenTemplate.standard := "ERC-1400";
       TokenTemplate.defaultBlocks :=
         {| Blocks.compliance := ["KYC"; "AML"; "Accredited Investors Only"];
            Blocks.features :=
              ["Voting"; "Dividends"; "Transfer Restrictions"];
            Blocks.governance := ["Board Approval"] |} |};
    {| TokenTemplate.name := "Real Estate Token";
       TokenTemplate.description :=
         "Token representing fractional ownership of real estate";
       TokenTemplate.category := "Real Estate";
       TokenTemplate.standard := "ERC-1400";
       TokenTemplate.defaultBlocks :=
         {| Blocks.compliance := ["KYC"; "AML"; "Accredited Investors Only"];
            Blocks.features :=
              ["Rental Income"; "Transfer Restrictions"; "Redemption Rights"];
            Blocks.governance := ["Manager Approval"] |} |};
    {| TokenTemplate.name := "Bond Token";
       TokenTemplate.description :=
         "Fixed income security with regular coupon payments";
       TokenTemplate.category := "Bonds";
       TokenTemplate.standard := "ERC-20";
       TokenTemplate.defaultBlocks :=
         {| Blocks.compliance := ["KYC"; "AML"];
            Blocks.features :=
              ["Fixed Interest"; "Maturity Date"; "Early Redemption"];
            Blocks.governance := ["Issuer Control"] |} |};
    {| TokenTemplate.name := "Fund Token";
       TokenTemplate.description :=
         "Token representing shares in an investment fund";
       TokenTemplate.category := "Funds, ETFs, ETPs";
       TokenTemplate.standard := "ERC-4626";
       TokenTemplate.defaultBlocks :=
         {| Blocks.compliance := ["KYC"; "AML"; "Investor Qualification"];
            Blocks.features :=
              ["NAV Calculation"; "Redemption Windows"; "Management Fee"];
            Blocks.governance := ["Fund Manager Control"] |} |};
    {| TokenTemplate.name := "Structured Product Token";
       TokenTemplate.description :=
         "Complex financial product with conditional returns and multiple tranches";
       TokenTemplate.category := "Structured Products";
       TokenTemplate.standard := "ERC-3525";
       TokenTemplate.defaultBlocks :=
         {| Blocks.compliance :=
              ["KYC"; "AML"; "Sophisticated Investors Only";
               "Jurisdiction Restrictions"];
            Blocks.features :=
              ["Conditional Returns"; "Barrier Levels";
               "Underlying Asset Linkage"; "Tranche Structure";
               "Maturity Date"];
            Blocks.governance := ["Issuer Control"] |} |};
    {| TokenTemplate.name := "Credit Linked Note";
       TokenTemplate.description :=
         "Structured product linked to credit performance of underlying assets";
       TokenTemplate.category := "Structured Products";
       TokenTemplate.standard := "ERC-3525";
       TokenTemplate.defaultBlocks :=
         {| Blocks.compliance :=
              ["KYC"; "AML"; "Accredited Investors Only";
               "Jurisdiction Restrictions"];
            Blocks.features :=
              ["Tranche Structure"; "Interest Rate"; "Maturity Date";
               "Credit Event Triggers"];
            Blocks.governance := ["Issuer Control"] |} |} ].

(** ** The state setters *)

Definition setActiveTab (tab : string) (st : BuilderState) : BuilderState :=
  {| currentProjectId := currentProjectId st; activeTab := tab;
     selectedToken := selectedToken st; isCreating := isCreating st;
     isSaving := isSaving st; selectedCategory := selectedCategory st;
     selectedProduct := selectedProduct st; projectName := projectName st;
     tokenForm := tokenForm st |}.

Definition setSelectedToken (token : option Token.t) (st : BuilderState)
  : BuilderState :=
  {| currentProjectId := currentProjectId st; activeTab := activeTab st;
     selectedToken := token; isCreating := isCreating st;
     isSaving := isSaving st; selectedCategory := selectedCategory st;
     selectedProduct := selectedProduct st; projectName := projectName st;
     tokenForm := tokenForm st |}.

Definition setIsCreating (creating : bool) (st : BuilderState)
  : BuilderState :=
  {| currentProjectId := currentProjectId st; activeTab := activeTab st;
     selectedToken := selectedToken st; isCreating := creating;
     isSaving := isSaving st; selectedCategory := selectedCategory st;
     selectedProduct := selectedProduct st; projectName := projectName st;
     tokenForm := tokenForm st |}.

Definition setSelectedCategory (category : string) (st : BuilderState)
  : BuilderState :=
  {| currentProjectId := currentProjectId st; activeTab := activeTab st;
     selectedToken := selectedToken st; isCreating := isCreating st;
     isSaving := isSaving st; selectedCategory := category;
     selectedProduct := selectedProduct st; projectName := projectName st;
     tokenForm := tokenForm st |}.

Definition setSelectedProduct (product : string) (st : BuilderState)
  : BuilderState :=
  {| currentProjectId := currentProjectId st; activeTab := activeTab st;
     selectedToken := selectedToken st; isCreating := isCreating st;
     isSaving := isSaving st; selectedCategory := selectedCategory st;
     selectedProduct := product; projectName := projectName st;
     tokenForm := tokenForm st |}.

(** [{ ...prev, name: value }] and its like, one per field of the form
    that a handler writes. *)
Definition withName (value : string) (form : TokenForm.t) : TokenForm.t :=
  {| TokenForm.name := value;
     TokenForm.symbol := TokenForm.symbol form;
     TokenForm.decimals := TokenForm.decimals form;
     TokenForm.standard := TokenForm.standard form;
     TokenForm.totalSupply := TokenForm.totalSupply form;
     TokenForm.blocks := TokenForm.blocks form;
     TokenForm.metadata := TokenForm.metadata form |}.

Definition withSymbol (value : string) (form : TokenForm.t) : TokenForm.t :=
  {| TokenForm.name := TokenForm.name form;
     TokenForm.symbol := value;
     TokenForm.decimals := TokenForm.decimals form;
     TokenForm.standard := TokenForm.standard form;
     TokenForm.totalSupply := TokenForm.totalSupply form;
     TokenForm.blocks := TokenForm.blocks form;
     TokenForm.metadata := TokenForm.metadata form |}.

Definition withStandard (value : string) (form : TokenForm.t)
  : TokenForm.t :=
  {| TokenForm.name := TokenForm.name form;
     TokenForm.symbol := TokenForm.symbol form;
     TokenForm.decimals := TokenForm.decimals form;
     TokenForm.standard := value;
     TokenForm.totalSupply := TokenForm.totalSupply form;
     TokenForm.blocks := TokenForm.blocks form;
     TokenForm.metadata := TokenForm.metadata form |}.

Definition withTotalSupply (value : JS.number) (form : TokenForm.t)
  : TokenForm.t :=
  {| TokenForm.name := TokenForm.name form;
     TokenForm.symbol := TokenForm.symbol form;
     TokenForm.decimals := TokenForm.decimals form;
     TokenForm.standard := TokenForm.standard form;
     TokenForm.totalSupply := value;
     TokenForm.blocks := TokenForm.blocks form;
     TokenForm.metadata := TokenForm.metadata form |}.

(** [{ ...prev, metadata: { ...prev.metadata, field: value } }] *)
Definition withMetadata (f : Metadata.t -> Metadata.t) (form : TokenForm.t)
  : TokenForm.t :=
  {| TokenForm.name := TokenForm.name form;
     TokenForm.symbol := TokenForm.symbol form;
     TokenForm.decimals := TokenForm.decimals form;
     TokenForm.standard := TokenForm.standard form;
     TokenForm.totalSupply := TokenForm.totalSupply form;
     TokenForm.blocks := TokenForm.blocks form;
     TokenForm.metadata := f (TokenForm.metadata form) |}.

Definition withCategoryAndProduct (category product : string)
  (metadata : Metadata.t) : Metadata.t :=
  {| Metadata.description := Metadata.description metadata;
     Metadata.category := category;
     Metadata.product := product;
     Metadata.issuanceDate := Metadata.issuanceDate metadata;
     Metadata.maturityDate := Metadata.maturityDate metadata;
     Metadata.tranches := Metadata.tranches metadata;
     Metadata.whitelistEnabled := Metadata.whitelistEnabled metadata;
     Metadata.jurisdictionRestrictions :=
       Metadata.jurisdictionRestrictions metadata;
     Metadata.conversionRate := Metadata.conversionRate metadata |}.

Definition withIssuanceDate (value : string) (metadata : Metadata.t)
  : Metadata.t :=
  {| Metadata.description := Metadata.description metadata;
     Metadata.category := Metadata.category metadata;
     Metadata.product := Metadata.product metadata;
     Metadata.issuanceDate := value;
     Metadata.maturityDate := Metadata.maturityDate metadata;
     Metadata.tranches := Metadata.tranches metadata;
     Metadata.whitelistEnabled := Metadata.whitelistEnabled metadata;
     Metadata.jurisdictionRestrictions :=
       Metadata.jurisdictionRestrictions metadata;
     Metadata.conversionRate := Metadata.conversionRate metadata |}.

Definition withMaturityDate (value : string) (metadata : Metadata.t)
  : Metadata.t :=
  {| Metadata.description := Metadata.description metadata;
     Metadata.category := Metadata.category metadata;
     Metadata.product := Metadata.product metadata;
     Metadata.issuanceDate := Metadata.issuanceDate metadata;
     Metadata.maturityDate := value;
     Metadata.tranches := Metadata.tranches metadata;
     Metadata.whitelistEnabled := Metadata.whitelistEnabled metadata;
     Metadata.jurisdictionRestrictions :=
       Metadata.jurisdictionRestrictions metadata;
     Metadata.conversionRate := Metadata.conversionRate metadata |}.

Definition withWhitelistEnabled (value : bool) (metadata : Metadata.t)
  : Metadata.t :=
  {| Metadata.description := Metadata.description metadata;
     Metadata.category := Metadata.category metadata;
     Metadata.product := Metadata.product metadata;
     Metadata.issuanceDate := Metadata.issuanceDate metadata;
     Metadata.maturityDate := Metadata.maturityDate metadata;
     Metadata.tranches := Metadata.tranches metadata;
     Metadata.whitelistEnabled := value;
     Metadata.jurisdictionRestrictions :=
       Metadata.jurisdictionRestrictions metadata;
     Metadata.conversionRate := Metadata.conversionRate metadata |}.

Definition withJurisdictionRestrictions (value : list string)
  (metadata : Metadata.t) : Metadata.t :=
  {| Metadata.description := Metadata.description metadata;
     Metadata.category := Metadata.category metadata;
     Metadata.product := Metadata.product metadata;
     Metadata.issuanceDate := Metadata.issuanceDate metadata;
     Metadata.maturityDate := Metadata.maturityDate metadata;
     Metadata.tranches := Metadata.tranches metadata;
     Metadata.whitelistEnabled := Metadata.whitelistEnabled metadata;
     Metadata.jurisdictionRestrictions := value;
     Metadata.conversionRate := Metadata.conversionRate metadata |}.

Definition withConversionRate (value : JS.number) (metadata : Metadata.t)
  : Metadata.t :=
  {| Metadata.description := Metadata.description metadata;
     Metadata.category := Metadata.category metadata;
     Metadata.product := Metadata.product metadata;
     Metadata.issuanceDate := Metadata.issuanceDate metadata;
     Metadata.maturityDate := Metadata.maturityDate metadata;
     Metadata.tranches := Metadata.tranches metadata;
     Metadata.whitelistEnabled := Metadata.whitelistEnabled metadata;
     Metadata.jurisdictionRestrictions :=
       Metadata.jurisdictionRestrictions metadata;
     Metadata.conversionRate := value |}.

(** ** Starting a token *)

(** [resetTokenForm]; [selectedTemplate], which it also resets, is a state
    variable that nothing reads. *)
Definition resetTokenForm (st : BuilderState) : BuilderState :=
  setSelectedProduct EmptyString
    (setSelectedCategory EmptyString
       (setTokenForm
          (fun _ =>
             {| TokenForm.name := EmptyString;
                TokenForm.symbol := EmptyString;
                TokenForm.decimals := JS.Number_ofZ 18;
                TokenForm.standard := "ERC-20";
                TokenForm.totalSupply := JS.Number_ofZ 1000000;
                TokenForm.blocks :=
                  {| Blocks.compliance := []; Blocks.features := [];
                     Blocks.governance := [] |};
                TokenForm.metadata :=
                  {| Metadata.description := EmptyString;
                     Metadata.category := EmptyString;
                     Metadata.product := EmptyString;
                     Metadata.issuanceDate := EmptyString;
                     Metadata.maturityDate := EmptyString;
                     Metadata.tranches := [];
                     Metadata.whitelistEnabled := true;
                     Metadata.jurisdictionRestrictions := [];
                     Metadata.conversionRate := JS.Number_ofZ 0 |} |})
          st)).

Definition handleCreateToken (st : BuilderState) : BuilderState :=
  resetTokenForm
    (setActiveTab "templates" (setIsCreating true (setSelectedToken None st))).

(** The two readings of the clock in [handleSelectTemplate]: the value of
    [new Date().toISOString().split("T")[0]], and the value of the same
    expression on the date five years on. *)
Record Clock : Type :=
  { isoToday : string; isoInFiveYears : string }.

Definition handleSelectTemplate (clock : Clock) (template : TokenTemplate.t)
  (st : BuilderState) : BuilderState :=
  (* Default tranches for structured products *)
  let defaultTranches :=
    if JS.stringIncludes (TokenTemplate.name template) "Structured Product"
       || JS.stringIncludes (TokenTemplate.name template) "Credit Linked"
    then
      [ {| Tranche.id := JS.Number_ofZ 1; Tranche.name := "Senior (AAA)";
           Tranche.value := JS.Number_ofZ 700000;
           Tranche.interestRate := JS.Number_ofZ 3 |};
        {| Tranche.id := JS.Number_ofZ 2; Tranche.name := "Mezzanine (BBB)";
           Tranche.value := JS.Number_ofZ 200000;
           Tranche.interestRate := JS.Number_ofZ 5 |};
        {| Tranche.id := JS.Number_ofZ 3; Tranche.name := "Junior (CCC)";
           Tranche.value := JS.Number_ofZ 100000;
           Tranche.interestRate := JS.Number_ofZ 8 |} ]
    else [] in
  (* Default name and symbol for Credit Linked Note *)
  let defaultName :=
    if String.eqb (TokenTemplate.name template) "Credit Linked Note"
    then "CreditLinkedNote2025" else EmptyString in
  let defaultSymbol :=
    if String.eqb (TokenTemplate.name template) "Credit Linked Note"
    then "CLN" else EmptyString in
  setActiveTab "builder"
    (setTokenForm
       (fun _ =>
          {| TokenForm.name := defaultName;
             TokenForm.symbol := defaultSymbol;
             TokenForm.decimals :=
               if String.eqb (TokenTemplate.standard template) "ERC-3525"
               then JS.Number_ofZ 0 else JS.Number_ofZ 18;
             TokenForm.standard := TokenTemplate.standard template;
             TokenForm.totalSupply := JS.Number_ofZ 1000000;
             TokenForm.blocks := TokenTemplate.defaultBlocks template;
             TokenForm.metadata :=
               {| Metadata.description := EmptyString;
                  Metadata.category := TokenTemplate.category template;
                  Metadata.product := TokenTemplate.name template;
                  Metadata.issuanceDate := isoToday clock;
                  Metadata.maturityDate := isoInFiveYears clock;
                  Metadata.tranches := defaultTranches;
                  Metadata.whitelistEnabled := true;
                  Metadata.jurisdictionRestrictions := [];
                  Metadata.conversionRate := JS.Number_ofZ 100 |} |})
       st).

Definition handleSelectCategory (category : string) (st : BuilderState)
  : BuilderState :=
  setSelectedProduct EmptyString (setSelectedCategory category st).

(** [handleSelectProduct]: a product with exactly one template gets that
    template at once. *)
Definition handleSelectProduct (clock : Clock) (product : string)
  (st : BuilderState) : BuilderState :=
  let st := setSelectedProduct product st in
  (* Find matching templates *)
  let matchingTemplates :=
    filter (fun template => String.eqb (TokenTemplate.category template) product)
      TOKEN_TEMPLATES in
  if (List.length matchingTemplates =? 1)%nat then
    match matchingTemplates with
    | template :: _ => handleSelectTemplate clock template st
    | [] => st
    end
  else st.

(** The Custom Template card. *)
Definition customTemplate (st : BuilderState) : BuilderState :=
  setActiveTab "builder"
    (setTokenForm
       (withMetadata
          (withCategoryAndProduct (selectedCategory st) (selectedProduct st)))
       st).

(** ** The inputs of the builder tab *)

(** [handleInputChange] writes [value], a string, under the key that is
    the [name] attribute of the input.  Two of the inputs wired to it
    belong to fields that are strings; they are the ones modelled.  (The
    third, [decimals], would leave the typed text itself in a field
    declared as a number.) *)
Inductive TextField : Type := NameField | SymbolField.

Definition handleInputChange (field : TextField) (value : string)
  (st : BuilderState) : BuilderState :=
  setTokenForm
    (fun prev =>
       match field with
       | NameField => withName value prev
       | SymbolField => withSymbol value prev
       end)
    st.

Definition handleStandardChange (value : string) (st : BuilderState)
  : BuilderState :=
  setTokenForm (fun prev => withStandard value prev) st.

(** [array[index].field = ...] on a copy of the array: the element at
    [index] is changed; reading a field of [undefined], when [index] is
    not an index of the array, throws. *)
Fixpoint updateAt {A : Type} (index : nat) (f : A -> A) (l : list A)
  {struct l} : option (list A) :=
  match l with
  | [] => None
  | x :: l' =>
      match index with
      | O => Some (f x :: l')
      | S index' => option_map (cons x) (updateAt index' f l')
      end
  end.

Definition withTrancheName (value : string) (tranche : Tranche.t)
  : Tranche.t :=
  {| Tranche.id := Tranche.id tranche; Tranche.name := value;
     Tranche.value := Tranche.value tranche;
     Tranche.interestRate := Tranche.interestRate tranche |}.

Definition withTrancheValue (value : JS.number) (tranche : Tranche.t)
  : Tranche.t :=
  {| Tranche.id := Tranche.id tranche; Tranche.name := Tranche.name tranche;
     Tranche.value := value;
     Tranche.interestRate := Tranche.interestRate tranche |}.

Definition withTrancheInterestRate (value : JS.number) (tranche : Tranche.t)
  : Tranche.t :=
  {| Tranche.id := Tranche.id tranche; Tranche.name := Tranche.name tranche;
     Tranche.value := Tranche.value tranche;
     Tranche.interestRate := value |}.

(** The handler of a cell of the tranche table at row [index]: [None]
    when it throws before it reaches [setTokenForm]. *)
Definition editTranche (index : nat) (f : Tranche.t -> Tranche.t)
  (st : BuilderState) : option BuilderState :=
  match
    updateAt index f (Metadata.tranches (TokenForm.metadata (tokenForm st)))
  with
  | Some updatedTranches =>
      Some (setTokenForm (withTranchesOf updatedTranches) st)
  | None => None
  end.

Section Inputs.

(** The global functions [parseInt] and [parseFloat] on strings. *)
Variable parseInt : string -> JS.number.
Variable parseFloat : string -> JS.number.

(** The Total Supply input: [parseInt(e.target.value) || 0]. *)
Definition totalSupplyInput (value : string) (st : BuilderState)
  : BuilderState :=
  setTokenForm
    (fun prev => withTotalSupply (JS.orZero (parseInt value)) prev) st.

(** The Conversion Rate input. *)
Definition conversionRateInput (value : string) (st : BuilderState)
  : BuilderState :=
  setTokenForm
    (fun prev =>
       withMetadata (withConversionRate (JS.orZero (parseInt value))) prev)
    st.

Definition trancheNameInput (index : nat) (value : string)
  (st : BuilderState) : option BuilderState :=
  editTranche index (withTrancheName value) st.

Definition trancheValueInput (index : nat) (value : string)
  (st : BuilderState) : option BuilderState :=
  editTranche index (withTrancheValue (JS.orZero (parseInt value))) st.

Definition trancheInterestRateInput (index : nat) (value : string)
  (st : BuilderState) : option BuilderState :=
  editTranche index
    (withTrancheInterestRate (JS.orZero (parseFloat value))) st.

End Inputs.

Definition issuanceDateInput (value : string) (st : BuilderState)
  : BuilderState :=
  setTokenForm (fun prev => withMetadata (withIssuanceDate value) prev) st.

Definition maturityDateInput (value : string) (st : BuilderState)
  : BuilderState :=
  setTokenForm (fun prev => withMetadata (withMaturityDate value) prev) st.

(** The whitelist checkbox: [whitelistEnabled: !!checked]. *)
Definition whitelistChecked (checked : JS.CheckedState) (st : BuilderState)
  : BuilderState :=
  setTokenForm
    (fun prev =>
       withMetadata (withWhitelistEnabled (JS.truthyChecked checked)) prev)
    st.

(** The regions offered as jurisdiction restrictions. *)
Definition REGIONS : list string :=
  ["US"; "EU"; "UK"; "APAC"; "LATAM"; "MENA"; "AFRICA"; "OTHER"].

(** The checkbox of a region: checking appends the region, unchecking
    filters it out. *)
Definition jurisdictionChecked (region : string) (checked : JS.CheckedState)
  (st : BuilderState) : BuilderState :=
  if JS.truthyChecked checked then
    setTokenForm
      (fun prev =>
         withMetadata
           (withJurisdictionRestrictions
              (Metadata.jurisdictionRestrictions (TokenForm.metadata prev) ++
               [region])%list)
           prev)
      st
  else
    setTokenForm
      (fun prev =>
         withMetadata
           (withJurisdictionRestrictions
              (filter (fun r => negb (String.eqb r region))
                 (Metadata.jurisdictionRestrictions
                    (TokenForm.metadata prev))))
           prev)
      st.

(** ** What the builder tab shows *)

(** The condition under which the conversion rate, the two dates and the
    tranche table are displayed. *)
Definition structuredSectionsShown (form : TokenForm.t) : bool :=
  String.eqb (TokenForm.standard form) "ERC-3525"
  || JS.stringIncludes (Metadata.product (TokenForm.metadata form))
       "Structured Product"
  || JS.stringIncludes (Metadata.product (TokenForm.metadata form))
       "Credit Linked".

(** The condition under which the whitelist checkbox and the region
    checkboxes are displayed. *)
Definition complianceSettingsShown (form : TokenForm.t) : bool :=
  String.eqb (TokenForm.standard form) "ERC-1400"
  || String.eqb (TokenForm.standard form) "ERC-3525"
  || JS.stringIncludes (Metadata.product (TokenForm.metadata form))
       "Structured Product"
  || JS.stringIncludes (Metadata.product (TokenForm.metadata form))
       "Credit Linked".

(** ** The badges of a card *)

(** A token card of the token list: every compliance block and the first
    two features get a badge; [+more] stands for the rest. *)
Definition tokenCardBadges (token : Token.t) : list string :=
  (Blocks.compliance (Token.blocks token) ++
   firstn 2 (Blocks.features (Token.blocks token)))%list.

Definition tokenCardMore (token : Token.t) : bool :=
  (2 <? List.length (Blocks.features (Token.blocks token)))%nat
  || (0 <? List.length (Blocks.governance (Token.blocks token)))%nat.

(** A template card: the first two compliance blocks and the first two
    features get a badge. *)
Definition templateCardBadges (template : TokenTemplate.t) : list string :=
  (firstn 2 (Blocks.compliance (TokenTemplate.defaultBlocks template)) ++
   firstn 2 (Blocks.features (TokenTemplate.defaultBlocks template)))%list.

Definition templateCardMore (template : TokenTemplate.t) : bool :=
  (4 <? List.length (Blocks.compliance (TokenTemplate.defaultBlocks template))
        + List.length (Blocks.features (TokenTemplate.defaultBlocks template))
        + List.length
            (Blocks.governance (TokenTemplate.defaultBlocks template)))%nat.

(** ** A session

    The events whose handlers are embedded above, each with what the
    browser hands to its handler, and the state after a sequence of them:
    every handler runs on the state that the one before it left.  A
    handler that throws leaves the state as it is.

    These are the New Token button, the cards and buttons of the
    templates tab, the tab triggers, and of the builder tab the name,
    symbol, standard, total-supply, conversion-rate and date inputs, the
    tranche table, the whitelist and region checkboxes and the
    building-block checkboxes.  Not among them: the Save button, which
    comes with [Step] below; a click on a token card and the Cancel
    button, which go through [handleSelectToken]; the [decimals] input;
    the delete dialog of a token card. *)

Inductive Event : Type :=
  | NewTokenButton
  | CategoryCard (category : string)
  | ProductButton (clock : Clock) (product : string)
  | TemplateCard (clock : Clock) (template : TokenTemplate.t)
  | CustomTemplateCard
  | TextInput (field : TextField) (value : string)
  | StandardSelect (value : string)
  | TotalSupplyInput (value : string)
  | ConversionRateInput (value : string)
  | IssuanceDateInput (value : string)
  | MaturityDateInput (value : string)
  | AddTrancheButton
  | TrancheNameInput (index : nat) (value : string)
  | TrancheValueInput (index : nat) (value : string)
  | TrancheInterestRateInput (index : nat) (value : string)
  | DeleteTrancheButton (index : nat)
  | WhitelistCheckbox (checked : JS.CheckedState)
  | RegionCheckbox (region : string) (checked : JS.CheckedState)
  | BlockCheckbox (blockType : BlockType) (blockId : string)
  | TabTrigger (tab : string).

Section Session.

Variable parseInt : string -> JS.number.
Variable parseFloat : string -> JS.number.

Definition orUnchanged (st : BuilderState) (result : option BuilderState)
  : BuilderState :=
  match result with
  | Some st' => st'
  | None => st
  end.

Definition handle (st : BuilderState) (event : Event) : BuilderState :=
  match event with
  | NewTokenButton => handleCreateToken st
  | CategoryCard category => handleSelectCategory category st
  | ProductButton clock product => handleSelectProduct clock product st
  | TemplateCard clock template => handleSelectTemplate clock template st
  | CustomTemplateCard => customTemplate st
  | TextInput field value => handleInputChange field value st
  | StandardSelect value => handleStandardChange value st
  | TotalSupplyInput value => totalSupplyInput parseInt value st
  | ConversionRateInput value => conversionRateInput parseInt value st
  | IssuanceDateInput value => issuanceDateInput value st
  | MaturityDateInput value => maturityDateInput value st
  | AddTrancheButton => addTranche st
  | TrancheNameInput index value =>
      orUnchanged st (trancheNameInput index value st)
  | TrancheValueInput index value =>
      orUnchanged st (trancheValueInput parseInt index value st)
  | TrancheInterestRateInput index value =>
      orUnchanged st (trancheInterestRateInput parseFloat index value st)
  | DeleteTrancheButton index => deleteTranche index st
  | WhitelistCheckbox checked => whitelistChecked checked st
  | RegionCheckbox region checked => jurisdictionChecked region checked st
  | BlockCheckbox blockType blockId => handleBlockToggle blockType blockId st
  | TabTrigger tab => setActiveTab tab st
  end.

Definition session (events : list Event) (st : BuilderState) : BuilderState :=
  fold_left handle events st.

End Session.

(** ** The Save button

    [saveToken] from its first request on.  [StoreAnswer] is what the
    store answers to that request: an error, or success, with the row read
    back by [select().single()] when the request is an insert.  The second
    request, the insert of a version row, has its result ignored.  The
    click is taken as one event: no other handler runs while the requests
    are awaited. *)

Inductive StoreAnswer : Type :=
  | StoreError
  | StoreSuccess (data : Token.t).

(** A session with clicks on the Save button among its events. *)
Inductive Step : Type :=
  | Ui (event : Event)
  | SaveButton (answer : StoreAnswer).

Section SaveButton.

Variable Date_getTime : string -> JS.number.

(** The state when [saveToken] has run to its end: [selectedToken] is
    the inserted row after an accepted insert, [isCreating] is false after
    an accepted request, and [isSaving] is false in any case. *)
Definition saveTokenCompletes (answer : StoreAnswer) (st : BuilderState)
  : BuilderState :=
  let st' :=
    match saveToken Date_getTime st with
    | ValidationErrorToast => st
    | SaveErrorToast => st
    | UpdateToken _ _ =>
        match answer with
        | StoreError => st
        | StoreSuccess _ => setIsCreating false st
        end
    | InsertToken _ _ =>
        match answer with
        | StoreError => st
        | StoreSuccess data =>
            setIsCreating false (setSelectedToken (Some data) st)
        end
    end in
  {| currentProjectId := currentProjectId st'; activeTab := activeTab st';
     selectedToken := selectedToken st'; isCreating := isCreating st';
     isSaving := false; selectedCategory := selectedCategory st';
     selectedProduct := selectedProduct st'; projectName := projectName st';
     tokenForm := tokenForm st' |}.

Variable parseInt : string -> JS.number.
Variable parseFloat : string -> JS.number.

Definition step (st : BuilderState) (s : Step) : BuilderState :=
  match s with
  | Ui event => handle parseInt parseFloat st event
  | SaveButton answer => saveTokenCompletes answer st
  end.

Definition sessionWithSaves (steps : list Step) (st : BuilderState)
  : BuilderState :=
  fold_left step steps st.

End SaveButton.

(** ** A token taken from the list

    [handleSelectToken] passes [setTokenForm] an object with six fields:
    the form it builds has no [totalSupply].  (A row of the store has
    none either: [saveToken] does not write it.) *)

Module SelectedForm.
Record t : Type :=
  { name : string; symbol : string; decimals : JS.number;
    standard : string; blocks : Blocks.t; metadata : Metadata.t }.
End SelectedForm.

(** The value of [tokenForm]: with all the fields of its declaration, or
    as [handleSelectToken] builds it. *)
Inductive HeldForm : Type :=
  | Complete (form : TokenForm.t)
  | WithoutTotalSupply (form : SelectedForm.t).

(** [handleSelectToken]: the state variables other than [tokenForm] after
    the call, and the new value of [tokenForm].  The row has its blocks
    and its metadata, which are objects, hence truthy: the alternatives of
    [token.blocks || ...] and [token.metadata || ...] are not taken. *)
Definition handleSelectToken (token : Token.t) (st : BuilderState)
  : BuilderState * HeldForm :=
  (setActiveTab "builder" (setSelectedToken (Some token) st),
   WithoutTotalSupply
     {| SelectedForm.name := Token.name token;
        SelectedForm.symbol := Token.symbol token;
        SelectedForm.decimals := Token.decimals token;
        SelectedForm.standard := Token.standard token;
        SelectedForm.blocks := Token.blocks token;
        SelectedForm.metadata := Token.metadata token |}).

(** What rendering the tranche summary comes to: the line is not part of
    what is displayed, or it is displayed, or an expression of it
    throws. *)
Inductive SummaryRender : Type :=
  | SummaryNotRendered
  | SummaryRendered (summary : TrancheSummary)
  | SummaryThrows.

(** The tranche summary as the builder tab renders it: inside the tranche
    section, which is displayed under the condition of
    [structuredSectionsShown], and only when there is a tranche.  On a
    form without [totalSupply], [reduce(...) !== tokenForm.totalSupply] is
    true and [reduce(...) === tokenForm.totalSupply] is false, so the label
    is the one that evaluates [tokenForm.totalSupply.toLocaleString()]:
    reading a property of [undefined] throws a TypeError. *)
Definition renderTrancheSummary (held : HeldForm) : SummaryRender :=
  match held with
  | Complete form =>
      if structuredSectionsShown form then
        match trancheSummary form with
        | Some summary => SummaryRendered summary
        | None => SummaryNotRendered
        end
      else SummaryNotRendered
  | WithoutTotalSupply form =>
      if String.eqb (SelectedForm.standard form) "ERC-3525"
         || JS.stringIncludes (Metadata.product (SelectedForm.metadata form))
              "Structured Product"
         || JS.stringIncludes (Metadata.product (SelectedForm.metadata form))
              "Credit Linked"
      then
        if (0 <? List.length
                   (Metadata.tranches (SelectedForm.metadata form)))%nat
        then SummaryThrows
        else SummaryNotRendered
      else SummaryNotRendered
  end.

(** ** A reference engine

    The closed examples below need one engine.  Its [Date] recognises the
    date-only form [YYYY-MM-DD], which is what the date inputs of the form
    and [toISOString().split("T")[0]] produce, and reads it as UTC
    midnight, as ECMA-262 prescribes for that form; any other string is an
    invalid date. *)

Module ReferenceEngine.

Definition digit (c : ascii) : option Z :=
  let n := Z.of_nat (nat_of_ascii c) in
  if (48 <=? n) && (n <=? 57) then Some (n - 48) else None.

Definition number2 (a b : ascii) : option Z :=
  match digit a, digit b with
  | Some x, Some y => Some (10 * x + y)
  | _, _ => None
  end.

Definition isLeapYear (y : Z) : bool :=
  (y mod 4 =? 0) && (negb (y mod 100 =? 0) || (y mod 400 =? 0)).

Definition daysInMonth (y m : Z) : Z :=
  if m =? 2 then (if isLeapYear y then 29 else 28)
  else if (m =? 4) || (m =? 6) || (m =? 9) || (m =? 11) then 30
  else 31.

(** Days from 1970-01-01 to the given day of the proleptic Gregorian
    calendar. *)
Definition daysFromCivil (y m d : Z) : Z :=
  let y' := if m <=? 2 then y - 1 else y in
  let era := y' / 400 in
  let yoe := y' - era * 400 in
  let doy := (153 * (if 2 <? m then m - 3 else m + 9) + 2) / 5 + d - 1 in
  let doe := yoe * 365 + yoe / 4 - yoe / 100 + doy in
  era * 146097 + doe - 719468.

Definition msPerDay : Z := 86400000.

Definition Date_getTime (s : string) : JS.number :=
  match s with
  | String y1 (String y2 (String y3 (String y4 (String "-"
      (String m1 (String m2 (String "-"
        (String d1 (String d2 EmptyString))))))))) =>
      match number2 y1 y2, number2 y3 y4, number2 m1 m2, number2 d1 d2 with
      | Some yh, Some yl, Some m, Some d =>
          let y := 100 * yh + yl in
          if (1 <=? m) && (m <=? 12) && (1 <=? d) && (d <=? daysInMonth y m)
          then JS.Number_ofZ (daysFromCivil y m d * msPerDay)
          else JS.NaN
      | _, _, _, _ => JS.NaN
      end
  | _ => JS.NaN
  end.

(** [parseInt] and [parseFloat] of ECMA-262, on strings of code units
    below 256; the mathematical value read is rounded to the nearest
    number, whatever the count of its digits. *)

Fixpoint skipWhiteSpace (s : string) : string :=
  match s with
  | String c s' => if JS.isWhiteSpace c then skipWhiteSpace s' else s
  | EmptyString => s
  end.

Definition hexDigit (c : ascii) : option Z :=
  let n := Z.of_nat (nat_of_ascii c) in
  if (48 <=? n) && (n <=? 57) then Some (n - 48)
  else if (97 <=? n) && (n <=? 102) then Some (n - 87)
  else if (65 <=? n) && (n <=? 70) then Some (n - 55)
  else None.

(** The digits at the start of [s]: their value after the digits read so
    far ([acc]), their count, and what follows them. *)
Fixpoint leadingDigits (digitOf : ascii -> option Z) (radix acc : Z)
  (count : nat) (s : string) : Z * nat * string :=
  match s with
  | String c s' =>
      match digitOf c with
      | Some d => leadingDigits digitOf radix (radix * acc + d) (S count) s'
      | None => (acc, count, s)
      end
  | EmptyString => (acc, count, s)
  end.

(** An optional sign: whether it is [-], and what follows it. *)
Definition leadingSign (s : string) : bool * string :=
  match s with
  | String "-" s' => (true, s')
  | String "+" s' => (false, s')
  | _ => (false, s)
  end.

Definition signed (negative : bool) (z : Z) : JS.number :=
  if z =? 0 then S754_zero negative
  else JS.Number_ofZ (if negative then - z else z).

Definition parseInt (s : string) : JS.number :=
  let (negative, s) := leadingSign (skipWhiteSpace s) in
  let '(mathInt, count, _) :=
    match s with
    | String "0" (String "x" s') | String "0" (String "X" s') =>
        leadingDigits hexDigit 16 0 O s'
    | _ => leadingDigits digit 10 0 O s
    end in
  match count with
  | O => JS.NaN
  | S _ => signed negative mathInt
  end.

(** The number nearest to [m * 10^e], for [0 < m]. *)
Definition decimalValue (negative : bool) (m e : Z) : JS.number :=
  if 0 <=? e then signed negative (m * 10 ^ e)
  else
    let '(q, e', l) :=
      SFdiv_core_binary JS.prec JS.emax m 0 (10 ^ (- e)) 0 in
    binary_round_aux JS.prec JS.emax negative q e' l.

(** The exponent part at the start of [s], 0 when there is none. *)
Definition exponentOf (s : string) : Z :=
  match s with
  | String "e" s' | String "E" s' =>
      let (negative, s'') := leadingSign s' in
      let '(e, count, _) := leadingDigits digit 10 0 O s'' in
      match count with
      | O => 0
      | S _ => if negative then - e else e
      end
  | _ => 0
  end.

Definition parseFloat (s : string) : JS.number :=
  let (negative, s) := leadingSign (skipWhiteSpace s) in
  if String.prefix "Infinity" s then S754_infinity negative
  else
    let '(whole, wholeCount, s) := leadingDigits digit 10 0 O s in
    let '(m, fractionCount, s) :=
      match s with
      | String "." s' => leadingDigits digit 10 whole O s'
      | _ => (whole, O, s)
      end in
    match wholeCount, fractionCount with
    | O, O => JS.NaN
    | _, _ =>
        if m =? 0 then S754_zero negative
        else decimalValue negative m (exponentOf s - Z.of_nat fractionCount)
    end.

End ReferenceEngine.

(** ** Notions used to state the properties *)

(** The text of the lines before, and after, one line of a template. *)
Fixpoint linesBefore (l : list string) : string :=
  match l with
  | [] => EmptyString
  | x :: l' => x ++ nl ++ linesBefore l'
  end.

Fixpoint linesAfter (l : list string) : string :=
  match l with
  | [] => EmptyString
  | x :: l' => nl ++ x ++ linesAfter l'
  end.

(** The ERC-3525 text up to the tranche statements, and from them on. *)
Definition textBeforeTranches (Date_getTime : string -> JS.number)
  (form : TokenForm.t) : string :=
  linesBefore
    (erc3525Prologue Date_getTime (TokenForm.name form)
       (TokenForm.symbol form) (TokenForm.totalSupply form)
       (TokenForm.decimals form) (TokenForm.metadata form)).

Definition textAfterTranches (form : TokenForm.t) : string :=
  linesAfter erc3525Epilogue ++
  (if (0 <? List.length (Blocks.compliance (TokenForm.blocks form)))%nat
   then erc3525ComplianceFragment (TokenForm.metadata form)
   else EmptyString) ++
  "}".

(** Equality of numbers as [===] sees it: NaN equals nothing, the two
    zeros are equal, any other number equals itself only. *)
Definition bothZero (x y : JS.number) : Prop :=
  match x, y with
  | S754_zero _, S754_zero _ => True
  | _, _ => False
  end.

Definition sameNumber (x y : JS.number) : Prop :=
  x <> JS.NaN /\ y <> JS.NaN /\ (x = y \/ bothZero x y).

(** The binary64 number of a positive integer below [2^53], in canonical
    form: the mantissa shifted up to 53 bits. *)
Definition shiftl_pos (m : positive) (k : Z) : positive :=
  match k with
  | Z.pos t => Pos.iter xO m t
  | _ => m
  end.

Definition canonical (N : positive) : spec_float :=
  let d := Z.pos (digits2_pos N) in
  S754_finite false (shiftl_pos N (53 - d)) (d - 53).

(** The sum of a list of integers. *)
Definition integerSum (values : list Z) : Z := fold_right Z.add 0 values.

(** The largest of a list of non-negative integers, 0 for the empty
    list. *)
Definition integerMax (values : list Z) : Z := fold_left Z.max values 0.

(** The characters kept when a string is filtered by [keep]. *)
Fixpoint filterString (keep : ascii -> bool) (s : string) : string :=
  match s with
  | EmptyString => EmptyString
  | String c s' =>
      if keep c then String c (filterString keep s') else filterString keep s'
  end.

Fixpoint forallString (p : ascii -> bool) (s : string) : bool :=
  match s with
  | EmptyString => true
  | String c s' => p c && forallString p s'
  end.

(** A character of a Solidity identifier: a letter, a digit, [_] or [$]. *)
Definition isIdentifierChar (c : ascii) : bool :=
  let n := nat_of_ascii c in
  (((65 <=? n) && (n <=? 90)) || ((97 <=? n) && (n <=? 122))
   || ((48 <=? n) && (n <=? 57)) || (n =? 95) || (n =? 36))%nat.


(** The tranches of the form of a state. *)
Definition tranchesOf (st : BuilderState) : list Tranche.t :=
  Metadata.tranches (TokenForm.metadata (tokenForm st)).

(** Tranche ids that are pairwise distinct integers from 1 to [bound]. *)
Definition idsWithin (bound : Z) (tranches : list Tranche.t) : Prop :=
  exists ids : list Z,
    map Tranche.id tranches = map JS.Number_ofZ ids /\
    NoDup ids /\
    Forall (fun z => 1 <= z <= bound) ids.

(** A number that is neither NaN nor the negative zero. *)
Definition storedNumber (x : JS.number) : Prop :=
  x <> JS.NaN /\ x <> S754_zero true.

(** The numbers of the form that an input writes: the total supply, the
    conversion rate, and the value and the rate of every tranche. *)
Definition numbersStored (form : TokenForm.t) : Prop :=
  storedNumber (TokenForm.totalSupply form) /\
  storedNumber (Metadata.conversionRate (TokenForm.metadata form)) /\
  Forall
    (fun t =>
       storedNumber (Tranche.value t) /\ storedNumber (Tranche.interestRate t))
    (Metadata.tranches (TokenForm.metadata form)).

(** What the handler of a cell of row [index] does to the tranches, when
    the cell writes [f row] for [row]: it throws when there is no such
    row; otherwise that row is rewritten and every other row is kept. *)
Definition rowEdited (index : nat) (f : Tranche.t -> Tranche.t)
  (st : BuilderState) (result : option BuilderState) : Prop :=
  match result with
  | None => (List.length (tranchesOf st) <= index)%nat
  | Some st' =>
      (index < List.length (tranchesOf st))%nat /\
      nth_error (tranchesOf st') index =
        option_map f (nth_error (tranchesOf st) index) /\
      (forall j : nat,
         j <> index ->
         nth_error (tranchesOf st') j = nth_error (tranchesOf st) j) /\
      map Tranche.id (tranchesOf st') = map Tranche.id (tranchesOf st) /\
      withTranchesOf (tranchesOf st) (tokenForm st') = tokenForm st
  end.

(** The building blocks of a token, all three kinds. *)
Definition allBlocks (blocks : Blocks.t) : list string :=
  (Blocks.compliance blocks ++ Blocks.features blocks ++
   Blocks.governance blocks)%list.

(** The row of the store that holds the columns as [saveToken] has
    written them, under the id, the project and the status that the store
    keeps for it. *)
Definition storedRow (id project_id status : string) (columns : TokenColumns)
  : Token.t :=
  {| Token.id := id; Token.project_id := project_id;
     Token.name := col_name columns; Token.symbol := col_symbol columns;
     Token.decimals := col_decimals columns;
     Token.standard := col_standard columns;
     Token.blocks := col_blocks columns;
     Token.metadata := col_metadata columns; Token.status := status;
     Token.contract_preview := col_contract_preview columns |}.

(** The restricted regions of the form of a state. *)
Definition restrictionsOf (st : BuilderState) : list string :=
  Metadata.jurisdictionRestrictions (TokenForm.metadata (tokenForm st)).

(** ** Example states *)

(** The initial value of [tokenForm]. *)
Definition initialMetadata : Metadata.t :=
  {| Metadata.description := EmptyString; Metadata.category := EmptyString;
     Metadata.product := EmptyString; Metadata.issuanceDate := EmptyString;
     Metadata.maturityDate := EmptyString; Metadata.tranches := [];
     Metadata.whitelistEnabled := true;
     Metadata.jurisdictionRestrictions := [];
     Metadata.conversionRate := JS.Number_ofZ 0 |}.

Definition noBlocks : Blocks.t :=
  {| Blocks.compliance := []; Blocks.features := [];
     Blocks.governance := [] |}.

Definition formWith (name symbol standard : string) (decimals : Z)
  (blocks : Blocks.t) (metadata : Metadata.t) : TokenForm.t :=
  {| TokenForm.name := name; TokenForm.symbol := symbol;
     TokenForm.decimals := JS.Number_ofZ decimals;
     TokenForm.standard := standard;
     TokenForm.totalSupply := JS.Number_ofZ 1000000;
     TokenForm.blocks := blocks; TokenForm.metadata := metadata |}.

Definition initialForm : TokenForm.t :=
  formWith EmptyString EmptyString "ERC-20" 18 noBlocks initialMetadata.

(** The component right after mounting, with the given form. *)
Definition stateWith (tab : string) (form : TokenForm.t) : BuilderState :=
  {| currentProjectId := "project-1"; activeTab := tab;
     selectedToken := None; isCreating := false; isSaving := false;
     selectedCategory := EmptyString; selectedProduct := EmptyString;
     projectName := EmptyString; tokenForm := form |}.

Definition withTranches (tranches : list Tranche.t) (dates : string * string)
  (conversionRate : Z) : Metadata.t :=
  {| Metadata.description := EmptyString;
     Metadata.category := "Structured Products";
     Metadata.product := "Credit Linked Note";
     Metadata.issuanceDate := fst dates; Metadata.maturityDate := snd dates;
     Metadata.tranches := tranches; Metadata.whitelistEnabled := true;
     Metadata.jurisdictionRestrictions := [];
     Metadata.conversionRate := JS.Number_ofZ conversionRate |}.

Definition tranche (id : Z) (name : string) (value : Z)
  (interestRate : JS.number) : Tranche.t :=
  {| Tranche.id := JS.Number_ofZ id; Tranche.name := name;
     Tranche.value := JS.Number_ofZ value;
     Tranche.interestRate := interestRate |}.

(** The default tranches of [handleSelectTemplate]. *)
Definition senior : Tranche.t :=
  tranche 1 "Senior (AAA)" 700000 (JS.Number_ofZ 3).
Definition mezzanine : Tranche.t :=
  tranche 2 "Mezzanine (BBB)" 200000 (JS.Number_ofZ 5).
Definition junior : Tranche.t :=
  tranche 3 "Junior (CCC)" 100000 (JS.Number_ofZ 8).

Definition creditLinkedNoteBlocks : Blocks.t :=
  {| Blocks.compliance :=
       ["KYC"; "AML"; "Accredited Investors Only";
        "Jurisdiction Restrictions"];
     Blocks.features :=
       ["Tranche Structure"; "Interest Rate"; "Maturity Date";
        "Credit Event Triggers"];
     Blocks.governance := ["Issuer Control"] |}.

(** The form after choosing the Credit Linked Note template on
    2025-01-01, with the tranches in the given order. *)
Definition creditLinkedNote (tranches : list Tranche.t) : TokenForm.t :=
  formWith "CreditLinkedNote2025" "CLN" "ERC-3525" 0 creditLinkedNoteBlocks
    (withTranches tranches ("2025-01-01", "2030-01-01") 100).

Definition state_erc9999 : BuilderState :=
  stateWith "builder"
    (formWith "Token" "TKN" "ERC-9999" 18 noBlocks initialMetadata).

Definition state_erc721 : BuilderState :=
  stateWith "builder"
    (formWith "Token" "TKN" "ERC-721" 18 noBlocks initialMetadata).

Definition state_duplicate_ids : BuilderState :=
  stateWith "builder"
    (creditLinkedNote
       [tranche 2 "A" 600000 (JS.Number_ofZ 3);
        tranche 2 "B" 400000 (JS.Number_ofZ 5)]).

Definition state_tranches_123 : BuilderState :=
  stateWith "builder" (creditLinkedNote [senior; mezzanine; junior]).

Definition state_tranches_312 : BuilderState :=
  stateWith "builder" (creditLinkedNote [junior; senior; mezzanine]).

Definition state_erc1400_jurisdiction : BuilderState :=
  stateWith "builder"
    (formWith "Token" "TKN" "ERC-1400" 18 noBlocks
       {| Metadata.description := EmptyString;
          Metadata.category := EmptyString; Metadata.product := EmptyString;
          Metadata.issuanceDate := EmptyString;
          Metadata.maturityDate := EmptyString; Metadata.tranches := [];
          Metadata.whitelistEnabled := true;
          Metadata.jurisdictionRestrictions := ["US"];
          Metadata.conversionRate := JS.Number_ofZ 0 |}).

Definition state_erc20_plain : BuilderState :=
  stateWith "builder"
    (formWith "Token" "TKN" "ERC-20" 18 noBlocks initialMetadata).


(** Two tranches of 2^53 and 1 against a total supply of 2^53. *)
Definition state_rounded_sum : BuilderState :=
  stateWith "builder"
    (withTotalSupply (JS.Number_ofZ (2 ^ 53))
       (creditLinkedNote
          [tranche 1 "A" (2 ^ 53) (JS.Number_ofZ 3);
           tranche 2 "B" 1 (JS.Number_ofZ 5)])).

(** The columns that [saveToken] writes for the Credit Linked Note with
    its three default tranches. *)
Definition savedCreditLinkedNote : TokenColumns :=
  match saveToken ReferenceEngine.Date_getTime state_tranches_123 with
  | InsertToken _ columns | UpdateToken _ columns => columns
  | ValidationErrorToast | SaveErrorToast =>
      {| col_name := EmptyString; col_symbol := EmptyString;
         col_decimals := JS.Number_ofZ 0; col_standard := EmptyString;
         col_blocks := noBlocks; col_metadata := initialMetadata;
         col_contract_preview := EmptyString |}
  end.

(** The clock on 2025-01-01. *)
Definition referenceClock : Clock :=
  {| isoToday := "2025-01-01"; isoInFiveYears := "2030-01-01" |}.

(** The built-in templates, by their place in [TOKEN_TEMPLATES]. *)
Definition builtInTemplate (index : nat) : TokenTemplate.t :=
  nth index TOKEN_TEMPLATES
    {| TokenTemplate.name := EmptyString;
       TokenTemplate.description := EmptyString;
       TokenTemplate.category := EmptyString;
       TokenTemplate.standard := EmptyString;
       TokenTemplate.defaultBlocks := noBlocks |}.

Definition equityToken : TokenTemplate.t := builtInTemplate 0.
Definition fundToken : TokenTemplate.t := builtInTemplate 3.
Definition creditLinkedNoteTemplate : TokenTemplate.t := builtInTemplate 5.

Definition state_erc1400_plain : BuilderState :=
  stateWith "builder"
    (formWith "Token" "TKN" "ERC-1400" 18 noBlocks initialMetadata).

(** The New Token button, pressed on a state with a stale form. *)
Definition state_new_token : BuilderState :=
  handleCreateToken state_duplicate_ids.

(** A product without a template of its own, opened through the Custom
    Template card: the standard is still ERC-20. *)
Definition state_custom_structured : BuilderState :=
  customTemplate
    (handleSelectProduct referenceClock "Structured Products"
       (handleSelectCategory "Traditional Assets" state_new_token)).

(** Blocks that share with the blocks of the Credit Linked Note the three
    facts that the text reads. *)
Definition otherBlocks : Blocks.t :=
  {| Blocks.compliance := ["KYC"]; Blocks.features := ["Voting"];
     Blocks.governance := ["DAO Governance"; "Multi-Signature"] |}.

(** A session on the Credit Linked Note template: a fourth tranche is
    added and filled in, the second one is deleted, a fifth one is added;
    then come inputs that are no numbers. *)
Definition exampleSession : list Event :=
  [ CategoryCard "Traditional Assets";
    ProductButton referenceClock "Structured Products";
    TemplateCard referenceClock creditLinkedNoteTemplate;
    AddTrancheButton;
    TrancheNameInput 3 "Equity";
    TrancheValueInput 0 "650000";
    TrancheValueInput 3 "50000 units";
    TrancheInterestRateInput 3 "12.5";
    DeleteTrancheButton 1;
    AddTrancheButton;
    TrancheNameInput 9 "no such row";
    TotalSupplyInput "abc";
    ConversionRateInput "-0";
    RegionCheckbox "US" (JS.Checked true);
    BlockCheckbox Governance "DAO Governance" ].

(** * Properties *)

(** ** Strings and lists *)

Lemma string_app_assoc (a b c : string) : (a ++ b) ++ c = a ++ b ++ c.
Proof.
  induction a as [| x a IH]; simpl.
  - reflexivity.
  - now rewrite IH.
Qed.

Lemma string_app_empty_r (a : string) : a ++ EmptyString = a.
Proof.
  induction a as [| x a IH]; simpl.
  - reflexivity.
  - now rewrite IH.
Qed.

Lemma lines_cons (x : string) (l : list string) :
  lines (x :: l) = x ++ linesAfter l.
Proof.
  revert x; induction l as [| y l IH]; intro x.
  - cbn. now rewrite string_app_empty_r.
  - change (lines (x :: y :: l)) with (x ++ nl ++ lines (y :: l)).
    rewrite IH. reflexivity.
Qed.

Lemma lines_cons_nonempty (x : string) (l : list string) :
  l <> [] -> lines (x :: l) = x ++ nl ++ lines l.
Proof.
  destruct l as [| y l]; [congruence | reflexivity].
Qed.

Lemma lines_split (before : list string) (x : string) (after : list string) :
  lines (before ++ x :: after)%list =
  linesBefore before ++ x ++ linesAfter after.
Proof.
  induction before as [| y before IH]; cbn [app linesBefore].
  - apply lines_cons.
  - rewrite lines_cons_nonempty by (destruct before; discriminate).
    rewrite IH, !string_app_assoc. reflexivity.
Qed.

Lemma includes_In (l : list string) (x : string) :
  JS.includes l x = true <-> In x l.
Proof.
  unfold JS.includes. rewrite existsb_exists. split.
  - intros (y & Hy & E). apply String.eqb_eq in E. now subst.
  - intro H. exists x. split; [assumption | apply String.eqb_refl].
Qed.

Lemma nonempty_incl {A : Type} (l l' : list A) :
  incl l l' -> (0 <? List.length l)%nat = true ->
  (0 <? List.length l')%nat = true.
Proof.
  intros Hincl Hl. destruct l as [| a l]; [discriminate |].
  destruct l' as [| b l']; [| reflexivity].
  destruct (Hincl a (or_introl eq_refl)).
Qed.

(** ** The generator and the draft *)

Section GeneratorFacts.

Variable Date_getTime : string -> JS.number.

Lemma fragmentIf_ids (b : bool) (i : FragmentId) (text : string) :
  map fst (fragmentIf b i text) = if b then [i] else [].
Proof. now destruct b. Qed.

(** The text returned is the concatenation of the parts of the draft. *)
Lemma generateContractPreview_fullText (st : BuilderState) :
  generateContractPreview Date_getTime st =
  JS.Normal (fullText (composeDraft Date_getTime (tokenForm st))).
Proof.
  unfold generateContractPreview, composeDraft. cbv zeta.
  destruct (String.eqb (TokenForm.standard (tokenForm st)) "ERC-20").
  { unfold fullText. cbn [headerText bodyFragments footerText].
    destruct (JS.includes _ "KYC"), (JS.includes _ "Dividends");
      cbn [fragmentIf app map snd String.concat];
      repeat rewrite string_app_assoc; reflexivity. }
  destruct (String.eqb (TokenForm.standard (tokenForm st)) "ERC-1400").
  { unfold fullText, JS.truthyArray.
    cbn [headerText bodyFragments footerText andb].
    destruct (0 <? List.length (Blocks.compliance _))%nat,
             (0 <? List.length (Metadata.jurisdictionRestrictions _))%nat;
      cbn [fragmentIf app map snd String.concat];
      repeat rewrite string_app_assoc; reflexivity. }
  destruct (String.eqb (TokenForm.standard (tokenForm st)) "ERC-3525").
  { unfold fullText. cbn [headerText bodyFragments footerText].
    destruct (0 <? List.length (Blocks.compliance _))%nat;
      cbn [fragmentIf app map snd String.concat];
      repeat rewrite string_app_assoc; reflexivity. }
  reflexivity.
Qed.

Lemma generateContractPreview_returns (st : BuilderState) :
  exists text, generateContractPreview Date_getTime st = JS.Normal text.
Proof.
  eexists. apply generateContractPreview_fullText.
Qed.

(** A standard without a template: nothing is assigned to [preview]. *)
Lemma untemplated_standard (form : TokenForm.t) :
  TokenForm.standard form <> "ERC-20" ->
  TokenForm.standard form <> "ERC-1400" ->
  TokenForm.standard form <> "ERC-3525" ->
  composeDraft Date_getTime form =
  {| headerText := EmptyString; bodyFragments := [];
     footerText := EmptyString |}.
Proof.
  intros H20 H1400 H3525. unfold composeDraft.
  apply String.eqb_neq in H20, H1400, H3525.
  now rewrite H20, H1400, H3525.
Qed.

(** The ERC-3525 text around the tranche statements. *)
Lemma erc3525_preview_shape (st : BuilderState) :
  TokenForm.standard (tokenForm st) = "ERC-3525" ->
  generateContractPreview Date_getTime st =
  JS.Normal
    (textBeforeTranches Date_getTime (tokenForm st) ++
     trancheInit (TokenForm.metadata (tokenForm st)) ++
     textAfterTranches (tokenForm st)).
Proof.
  intro Hstd. unfold generateContractPreview. cbv zeta. rewrite Hstd.
  change (String.eqb "ERC-3525" "ERC-20") with false.
  change (String.eqb "ERC-3525" "ERC-1400") with false.
  change (String.eqb "ERC-3525" "ERC-3525") with true.
  cbv iota. unfold erc3525Skeleton, textBeforeTranches, textAfterTranches.
  rewrite lines_split.
  destruct (0 <? List.length (Blocks.compliance _))%nat;
    repeat rewrite string_app_assoc; reflexivity.
Qed.

End GeneratorFacts.

(** ** Numbers *)

Lemma compare_cont_Eq_iff (m1 m2 : positive) :
  Pos.compare_cont Eq m1 m2 = Eq <-> m1 = m2.
Proof. apply Pos.compare_eq_iff. Qed.

Lemma SFcompare_finite_Eq (s1 s2 : bool) (m1 m2 : positive) (e1 e2 : Z) :
  SFcompare (S754_finite s1 m1 e1) (S754_finite s2 m2 e2) = Some Eq <->
  s1 = s2 /\ m1 = m2 /\ e1 = e2.
Proof.
  cbn. destruct s1, s2; split.
  - intro H. injection H as H. destruct (Z.compare_spec e1 e2) as [E | L | G];
      try discriminate.
    destruct (Pos.compare_cont Eq m1 m2) eqn:C; try discriminate.
    apply compare_cont_Eq_iff in C. auto.
  - intros (_ & -> & ->). rewrite Z.compare_refl.
    now rewrite (proj2 (compare_cont_Eq_iff m2 m2) eq_refl).
  - discriminate.
  - intros (E & _). discriminate.
  - discriminate.
  - intros (E & _). discriminate.
  - intro H. injection H as H. destruct (Z.compare_spec e1 e2) as [E | L | G];
      try discriminate.
    apply compare_cont_Eq_iff in H. auto.
  - intros (_ & -> & ->). rewrite Z.compare_refl.
    now rewrite (proj2 (compare_cont_Eq_iff m2 m2) eq_refl).
Qed.

(** [===] on numbers decides [sameNumber]. *)
Lemma strictEquals_iff (x y : JS.number) :
  JS.strictEquals x y = true <-> sameNumber x y.
Proof.
  unfold JS.strictEquals, SFeqb, sameNumber, JS.NaN.
  destruct x as [sx | sx | | sx mx ex], y as [sy | sy | | sy my ey].
  16: {
    destruct (SFcompare (S754_finite sx mx ex) (S754_finite sy my ey))
      as [c |] eqn:C.
    - destruct c.
      + apply SFcompare_finite_Eq in C. destruct C as (-> & -> & ->).
        split; [| reflexivity]. intros _.
        repeat split; try discriminate. now left.
      + split; [discriminate |]. intros (_ & _ & [E | B]); [| destruct B].
        injection E as -> -> ->.
        rewrite (proj2 (SFcompare_finite_Eq sy sy my my ey ey)) in C
          by auto. discriminate.
      + split; [discriminate |]. intros (_ & _ & [E | B]); [| destruct B].
        injection E as -> -> ->.
        rewrite (proj2 (SFcompare_finite_Eq sy sy my my ey ey)) in C
          by auto. discriminate.
    - cbn in C. discriminate. }
  all: cbn; try destruct sx; try destruct sy; split;
    try discriminate;
    try (intros (Hx & Hy & [E | B]); [congruence | destruct B; reflexivity]);
    try (intros _; repeat split; try discriminate; (now left) || (now right)).
Qed.

(** *** Integers below [2^53] are exact *)

Lemma digits2_pos_size (p : positive) : digits2_pos p = Pos.size p.
Proof. induction p; cbn; congruence. Qed.

(** A positive number of [d] binary digits lies in [2^(d-1), 2^d). *)
Lemma digits2_bounds (p : positive) :
  2 ^ (Z.pos (digits2_pos p) - 1) <= Z.pos p < 2 ^ Z.pos (digits2_pos p).
Proof.
  rewrite digits2_pos_size.
  pose proof (Pos.size_gt p) as G. pose proof (Pos.size_le p) as L.
  apply Pos2Z.pos_lt_pos in G. apply Pos2Z.pos_le_pos in L.
  rewrite Pos2Z.inj_pow in G, L. change (Z.pos p~0) with (2 * Z.pos p) in L.
  split; [| exact G].
  replace (Z.pos (Pos.size p)) with (Z.succ (Z.pos (Pos.size p) - 1)) in L by lia.
  rewrite Z.pow_succ_r in L by lia. lia.
Qed.

Lemma digits2_unique (p : positive) (d : Z) :
  2 ^ (d - 1) <= Z.pos p < 2 ^ d -> Z.pos (digits2_pos p) = d.
Proof.
  intros [L U]. pose proof (digits2_bounds p) as [L' U'].
  assert (Hd : 0 < d).
  { destruct (Z.ltb_spec 0 d) as [Hpos | Hneg]; [lia |].
    destruct (Z.eq_dec d 0) as [-> | Hnz]; [cbn in U; lia |].
    rewrite Z.pow_neg_r in U by lia. lia. }
  destruct (Z.lt_trichotomy (Z.pos (digits2_pos p)) d) as [C | [C | C]];
    [| exact C |].
  - assert (E : 2 ^ Z.pos (digits2_pos p) <= 2 ^ (d - 1))
      by (apply Z.pow_le_mono_r; lia). lia.
  - assert (E : 2 ^ d <= 2 ^ (Z.pos (digits2_pos p) - 1))
      by (apply Z.pow_le_mono_r; lia). lia.
Qed.

Lemma iter_pos_iter {A} (f : A -> A) (p : positive) (x : A) :
  iter_pos f p x = Pos.iter f x p.
Proof.
  revert x. induction p as [p IH | p IH |]; intro x; cbn.
  - rewrite !IH. now rewrite <- !Pos.iter_swap.
  - now rewrite !IH.
  - reflexivity.
Qed.

Lemma pos_iter_xO (m k : positive) :
  Z.pos (Pos.iter xO m k) = Z.pos m * 2 ^ Z.pos k.
Proof.
  induction k as [| k IH] using Pos.peano_ind.
  - cbn. lia.
  - rewrite Pos.iter_succ. rewrite Pos2Z.inj_succ, Z.pow_succ_r by lia.
    change (Z.pos (Pos.iter xO m k)~0) with (2 * Z.pos (Pos.iter xO m k)). lia.
Qed.

Lemma shr_exact (m k : positive) :
  iter_pos shr_1 k {| shr_m := Z.pos (Pos.iter xO m k); shr_r := false; shr_s := false |}
  = {| shr_m := Z.pos m; shr_r := false; shr_s := false |}.
Proof.
  rewrite iter_pos_iter.
  induction k as [| k IH] using Pos.peano_ind.
  - reflexivity.
  - rewrite Pos.iter_succ. rewrite <- Pos.iter_swap. rewrite Pos.iter_succ_r.
    cbn [shr_1 orb]. rewrite Pos.iter_swap. exact IH.
Qed.

Lemma fexp_53 (d : Z) : -1021 <= d -> fexp 53 1024 d = d - 53.
Proof. intro H. unfold fexp, emin. lia. Qed.

Lemma shr_fexp_canonical (m : positive) (e : Z) :
  Z.pos (digits2_pos m) = 53 -> -1074 <= e ->
  shr_fexp 53 1024 (Z.pos m) e loc_Exact =
  ({| shr_m := Z.pos m; shr_r := false; shr_s := false |}, e).
Proof.
  intros Hd He. unfold shr_fexp. cbn [Zdigits2 shr_record_of_loc]. rewrite Hd.
  rewrite fexp_53 by lia. replace (53 + e - 53 - e) with 0 by lia.
  reflexivity.
Qed.

Lemma shr_fexp_shift (m k : positive) (e : Z) :
  Z.pos (digits2_pos m) = 53 -> -1074 <= e + Z.pos k ->
  shr_fexp 53 1024 (Z.pos (Pos.iter xO m k)) e loc_Exact =
  ({| shr_m := Z.pos m; shr_r := false; shr_s := false |}, e + Z.pos k).
Proof.
  intros Hd He. unfold shr_fexp. cbn [Zdigits2 shr_record_of_loc].
  assert (Hdk : Z.pos (digits2_pos (Pos.iter xO m k)) = 53 + Z.pos k).
  { apply digits2_unique. rewrite pos_iter_xO.
    pose proof (digits2_bounds m) as [L U]. rewrite Hd in L, U.
    replace (53 + Z.pos k - 1) with (52 + Z.pos k) by lia.
    rewrite !Z.pow_add_r by lia. change (53 - 1) with 52 in L. nia. }
  rewrite Hdk, fexp_53 by lia.
  replace (53 + Z.pos k + e - 53 - e) with (Z.pos k) by lia.
  cbn [shr]. now rewrite shr_exact.
Qed.

Lemma round_aux_canonical (s : bool) (m : positive) (e : Z) :
  Z.pos (digits2_pos m) = 53 -> -1074 <= e <= 971 ->
  binary_round_aux 53 1024 s (Z.pos m) e loc_Exact = S754_finite s m e.
Proof.
  intros Hd He. unfold binary_round_aux.
  rewrite shr_fexp_canonical by lia.
  cbn [shr_m loc_of_shr_record round_nearest_even].
  rewrite shr_fexp_canonical by lia. cbn [shr_m].
  destruct (Z.leb_spec e (1024 - 53)); [reflexivity | lia].
Qed.

Lemma round_aux_shift (s : bool) (m k : positive) (e : Z) :
  Z.pos (digits2_pos m) = 53 -> -1074 <= e + Z.pos k <= 971 ->
  binary_round_aux 53 1024 s (Z.pos (Pos.iter xO m k)) e loc_Exact =
  S754_finite s m (e + Z.pos k).
Proof.
  intros Hd He. unfold binary_round_aux.
  rewrite shr_fexp_shift by lia.
  cbn [shr_m loc_of_shr_record round_nearest_even].
  rewrite shr_fexp_canonical by lia. cbn [shr_m].
  destruct (Z.leb_spec (e + Z.pos k) (1024 - 53)); [reflexivity | lia].
Qed.

Lemma shiftl_pos_spec (m : positive) (k : Z) :
  0 <= k -> Z.pos (shiftl_pos m k) = Z.pos m * 2 ^ k.
Proof.
  intro Hk. destruct k as [| t | t]; cbn [shiftl_pos].
  - cbn. lia.
  - apply pos_iter_xO.
  - lia.
Qed.

Lemma digits2_scaled (N M : positive) (k : Z) :
  0 <= k -> Z.pos M = Z.pos N * 2 ^ k ->
  Z.pos (digits2_pos M) = Z.pos (digits2_pos N) + k.
Proof.
  intros Hk HM. apply digits2_unique. rewrite HM.
  pose proof (digits2_bounds N) as [L U].
  replace (Z.pos (digits2_pos N) + k - 1)
    with ((Z.pos (digits2_pos N) - 1) + k) by lia.
  rewrite !Z.pow_add_r by lia.
  assert (0 < 2 ^ k) by (apply Z.pow_pos_nonneg; lia). nia.
Qed.

Lemma digits2_53 (N : positive) :
  Z.pos N < 2 ^ 53 -> Z.pos (digits2_pos N) <= 53.
Proof.
  intro H. pose proof (digits2_bounds N) as [L _].
  destruct (Z.leb_spec (Z.pos (digits2_pos N)) 53) as [| G]; [assumption |].
  assert (2 ^ 53 <= 2 ^ (Z.pos (digits2_pos N) - 1))
    by (apply Z.pow_le_mono_r; lia). lia.
Qed.

Lemma round_aux_exact (s : bool) (M N : positive) (e : Z) :
  Z.pos M = Z.pos N * 2 ^ (- e) -> Z.pos N < 2 ^ 53 ->
  e <= Z.pos (digits2_pos N) - 53 ->
  binary_round_aux 53 1024 s (Z.pos M) e loc_Exact =
  S754_finite s (shiftl_pos N (53 - Z.pos (digits2_pos N)))
    (Z.pos (digits2_pos N) - 53).
Proof.
  intros HM HN He.
  pose proof (digits2_53 N HN) as Hd53.
  set (d := Z.pos (digits2_pos N)) in *.
  assert (Hd : 1 <= d) by (subst d; lia).
  assert (Hm : Z.pos (shiftl_pos N (53 - d)) = Z.pos N * 2 ^ (53 - d))
    by (apply shiftl_pos_spec; lia).
  assert (Hdm : Z.pos (digits2_pos (shiftl_pos N (53 - d))) = 53).
  { rewrite (digits2_scaled N _ (53 - d)) by (lia || assumption).
    subst d. lia. }
  destruct (d - 53 - e) as [| k | t] eqn:Hk; [| | lia].
  - assert (HMm : M = shiftl_pos N (53 - d)).
    { apply Pos2Z.inj. rewrite HM, Hm. f_equal. f_equal. lia. }
    rewrite HMm. replace e with (d - 53) by lia.
    apply round_aux_canonical; [assumption | lia].
  - assert (HMm : M = Pos.iter xO (shiftl_pos N (53 - d)) k).
    { apply Pos2Z.inj. rewrite pos_iter_xO, HM, Hm.
      rewrite <- Z.mul_assoc, <- Z.pow_add_r by lia. f_equal. f_equal. lia. }
    rewrite HMm, round_aux_shift by (assumption || lia).
    f_equal. lia.
Qed.

Lemma binary_round_exact (M N : positive) (e : Z) :
  e <= 0 -> Z.pos M = Z.pos N * 2 ^ (- e) -> Z.pos N < 2 ^ 53 ->
  binary_round 53 1024 false M e = canonical N.
Proof.
  intros He HM HN. unfold binary_round, canonical.
  pose proof (digits2_53 N HN) as Hd53.
  assert (HdM : Z.pos (digits2_pos M) = Z.pos (digits2_pos N) - e).
  { rewrite (digits2_scaled N M (- e)) by (lia || assumption). lia. }
  rewrite HdM.
  replace (Z.pos (digits2_pos N) - e + e) with (Z.pos (digits2_pos N))
    by lia.
  rewrite fexp_53 by lia. unfold shl_align.
  destruct (Z.pos (digits2_pos N) - 53 - e) as [| k | t] eqn:Hk.
  - apply round_aux_exact; [assumption | assumption | lia].
  - apply round_aux_exact; [assumption | assumption | lia].
  - (* the mantissa is shifted up to 53 bits *)
    apply round_aux_exact; [| assumption | lia].
    rewrite pos_iter_xO, HM, <- Z.mul_assoc, <- Z.pow_add_r by lia.
    f_equal. f_equal. lia.
Qed.

Lemma Number_ofZ_pos (N : positive) :
  Z.pos N < 2 ^ 53 -> JS.Number_ofZ (Z.pos N) = canonical N.
Proof.
  intro H. unfold JS.Number_ofZ, JS.prec, JS.emax. cbn [binary_normalize].
  apply binary_round_exact; [lia | cbn; lia | assumption].
Qed.

Lemma shl_align_fst (m : positive) (e ez : Z) :
  ez <= e -> Z.pos (fst (shl_align m e ez)) = Z.pos m * 2 ^ (e - ez).
Proof.
  intro H. unfold shl_align. destruct (ez - e) as [| k | t] eqn:Hk; cbn [fst].
  - replace (e - ez) with 0 by lia. cbn. lia.
  - lia.
  - rewrite pos_iter_xO. f_equal. f_equal. lia.
Qed.

Lemma add_canonical (a b : positive) :
  Z.pos a + Z.pos b < 2 ^ 53 ->
  JS.add (canonical a) (canonical b) = canonical (a + b).
Proof.
  intro H. unfold JS.add, JS.prec, JS.emax, canonical at 1 2. cbn [SFadd cond_Zopp].
  assert (Ha : Z.pos a < 2 ^ 53) by lia.
  assert (Hb : Z.pos b < 2 ^ 53) by lia.
  pose proof (digits2_53 a Ha) as Hda. pose proof (digits2_53 b Hb) as Hdb.
  set (da := Z.pos (digits2_pos a)) in *.
  set (db := Z.pos (digits2_pos b)) in *.
  assert (1 <= da) by (subst da; lia). assert (1 <= db) by (subst db; lia).
  set (ez := Z.min (da - 53) (db - 53)).
  assert (Hez : -52 <= ez <= 0) by (subst ez; lia).
  pose proof (shl_align_fst (shiftl_pos a (53 - da)) (da - 53) ez
                ltac:(subst ez; lia)) as Hx.
  pose proof (shl_align_fst (shiftl_pos b (53 - db)) (db - 53) ez
                ltac:(subst ez; lia)) as Hy.
  rewrite shiftl_pos_spec in Hx, Hy by lia.
  rewrite <- Z.mul_assoc, <- Z.pow_add_r in Hx, Hy by lia.
  replace (53 - da + (da - 53 - ez)) with (- ez) in Hx by lia.
  replace (53 - db + (db - 53 - ez)) with (- ez) in Hy by lia.
  set (X := fst (shl_align (shiftl_pos a (53 - da)) (da - 53) ez)) in *.
  set (Y := fst (shl_align (shiftl_pos b (53 - db)) (db - 53) ez)) in *.
  change (Z.pos X + Z.pos Y) with (Z.pos (X + Y)).
  cbn [binary_normalize].
  apply binary_round_exact; [lia | | lia].
  rewrite !Pos2Z.inj_add, Hx, Hy. lia.
Qed.

Lemma add_ofZ (a b : Z) :
  0 <= a -> 0 <= b -> a + b < 2 ^ 53 ->
  JS.add (JS.Number_ofZ a) (JS.Number_ofZ b) = JS.Number_ofZ (a + b).
Proof.
  intros Ha Hb H.
  destruct a as [| a | a]; [| | lia]; destruct b as [| b | b]; try lia.
  - reflexivity.
  - change (JS.Number_ofZ 0) with (S754_zero false). cbn [Z.add].
    rewrite Number_ofZ_pos by lia. reflexivity.
  - change (JS.Number_ofZ 0) with (S754_zero false). rewrite Z.add_0_r.
    rewrite Number_ofZ_pos by lia. reflexivity.
  - rewrite !Number_ofZ_pos by lia. change (Z.pos a + Z.pos b) with (Z.pos (a + b)).
    rewrite Number_ofZ_pos by (rewrite Pos2Z.inj_add; lia).
    apply add_canonical. lia.
Qed.

Lemma canonical_inj (a b : positive) :
  Z.pos a < 2 ^ 53 -> Z.pos b < 2 ^ 53 -> canonical a = canonical b -> a = b.
Proof.
  intros Ha Hb E. unfold canonical in E. cbv zeta in E.
  pose proof (digits2_53 a Ha) as Hda. pose proof (digits2_53 b Hb) as Hdb.
  remember (Z.pos (digits2_pos a)) as da eqn:Eda in *.
  remember (Z.pos (digits2_pos b)) as db eqn:Edb in *.
  assert (Ee : da - 53 = db - 53)
    by exact (f_equal (fun x => match x with
                                | S754_finite _ _ e => e
                                | _ => 0
                                end) E).
  assert (Em : shiftl_pos a (53 - da) = shiftl_pos b (53 - db))
    by exact (f_equal (fun x => match x with
                                | S754_finite _ m _ => m
                                | _ => xH
                                end) E).
  assert (Hd : db = da) by lia. rewrite Hd in Em.
  apply (f_equal Z.pos) in Em. rewrite !shiftl_pos_spec in Em by lia.
  assert (Hpow : 0 < 2 ^ (53 - da)) by (apply Z.pow_pos_nonneg; lia).
  apply Pos2Z.inj. apply Z.mul_reg_r in Em; [exact Em | lia].
Qed.

Lemma Number_ofZ_inj (a b : Z) :
  0 <= a < 2 ^ 53 -> 0 <= b < 2 ^ 53 -> JS.Number_ofZ a = JS.Number_ofZ b -> a = b.
Proof.
  intros Ha Hb E.
  destruct a as [| a | a]; [| | lia]; destruct b as [| b | b]; try lia.
  - rewrite Number_ofZ_pos in E by lia. discriminate E.
  - rewrite Number_ofZ_pos in E by lia. discriminate E.
  - rewrite !Number_ofZ_pos in E by lia. f_equal. apply canonical_inj; [lia | lia | exact E].
Qed.

Lemma digits2_mul (a b : positive) :
  Z.pos (digits2_pos a) + Z.pos (digits2_pos b) - 1
  <= Z.pos (digits2_pos (a * b)).
Proof.
  pose proof (digits2_bounds a) as [La _].
  pose proof (digits2_bounds b) as [Lb _].
  pose proof (digits2_bounds (a * b)) as [_ U].
  rewrite Pos2Z.inj_mul in U.
  set (da := Z.pos (digits2_pos a)) in *.
  set (db := Z.pos (digits2_pos b)) in *.
  set (dn := Z.pos (digits2_pos (a * b))) in *.
  assert (1 <= da) by (subst da; lia). assert (1 <= db) by (subst db; lia).
  assert (Hlow : 2 ^ (da + db - 2) <= Z.pos a * Z.pos b).
  { replace (da + db - 2) with ((da - 1) + (db - 1)) by lia.
    rewrite Z.pow_add_r by lia.
    apply Z.mul_le_mono_nonneg; try assumption;
      apply Z.pow_nonneg; lia. }
  assert (Hlt : 2 ^ (da + db - 2) < 2 ^ dn) by lia.
  apply Z.pow_lt_mono_r_iff in Hlt; subst dn; lia.
Qed.

Lemma mul_canonical (a b : positive) :
  Z.pos a * Z.pos b < 2 ^ 53 ->
  JS.mul (canonical a) (canonical b) = canonical (a * b).
Proof.
  intro H. unfold JS.mul, JS.prec, JS.emax, canonical at 1 2. cbn [SFmul xorb].
  assert (Ha : Z.pos a < 2 ^ 53) by nia.
  assert (Hb : Z.pos b < 2 ^ 53) by nia.
  pose proof (digits2_53 a Ha) as Hda. pose proof (digits2_53 b Hb) as Hdb.
  pose proof (digits2_mul a b) as Hdn.
  set (da := Z.pos (digits2_pos a)) in *.
  set (db := Z.pos (digits2_pos b)) in *.
  assert (1 <= da) by (subst da; lia). assert (1 <= db) by (subst db; lia).
  apply round_aux_exact.
  - rewrite !Pos2Z.inj_mul, !shiftl_pos_spec by lia.
    replace (- (da - 53 + (db - 53))) with ((53 - da) + (53 - db)) by lia.
    rewrite Z.pow_add_r by lia. ring.
  - rewrite Pos2Z.inj_mul. exact H.
  - lia.
Qed.

Lemma mul_ofZ (a b : Z) :
  0 <= a < 2 ^ 53 -> 0 <= b < 2 ^ 53 -> a * b < 2 ^ 53 ->
  JS.mul (JS.Number_ofZ a) (JS.Number_ofZ b) = JS.Number_ofZ (a * b).
Proof.
  intros Ha Hb H.
  destruct a as [| a | a]; [| | lia]; destruct b as [| b | b]; try lia.
  - reflexivity.
  - change (JS.Number_ofZ 0) with (S754_zero false).
    rewrite Number_ofZ_pos by lia. reflexivity.
  - change (JS.Number_ofZ 0) with (S754_zero false). rewrite Z.mul_0_r.
    rewrite Number_ofZ_pos by lia. reflexivity.
  - rewrite !Number_ofZ_pos by lia.
    change (Z.pos a * Z.pos b) with (Z.pos (a * b)).
    rewrite Number_ofZ_pos by (rewrite Pos2Z.inj_mul; lia).
    apply mul_canonical. lia.
Qed.

Lemma isIntegral_ofZ (n : Z) :
  0 <= n < 2 ^ 53 -> JS.isIntegral (JS.Number_ofZ n) = true.
Proof.
  intro H. destruct n as [| n | n]; [reflexivity | | lia].
  rewrite Number_ofZ_pos by lia. unfold canonical. cbv zeta.
  pose proof (digits2_53 n ltac:(lia)) as Hd.
  set (d := Z.pos (digits2_pos n)) in *.
  assert (1 <= d) by (subst d; lia).
  cbn [JS.isIntegral]. rewrite shiftl_pos_spec by lia.
  replace (- (d - 53)) with (53 - d) by lia.
  rewrite Z.mod_mul by (apply Z.pow_nonzero; lia).
  now rewrite Bool.orb_true_r.
Qed.

(** On integers below [2^53], [===] is equality of the integers. *)
Lemma strictEquals_ofZ (a b : Z) :
  0 <= a < 2 ^ 53 -> 0 <= b < 2 ^ 53 ->
  (JS.strictEquals (JS.Number_ofZ a) (JS.Number_ofZ b) = true <-> a = b).
Proof.
  intros Ha Hb. rewrite strictEquals_iff. split.
  - intros (_ & _ & [E | Z0]).
    + now apply Number_ofZ_inj.
    + destruct a as [| a | a]; [| | lia]; destruct b as [| b | b]; try lia.
      * rewrite Number_ofZ_pos in Z0 by lia. destruct Z0.
      * rewrite Number_ofZ_pos in Z0 by lia. destruct Z0.
      * rewrite !Number_ofZ_pos in Z0 by lia. destruct Z0.
  - intros <-. repeat split.
    + destruct a as [| a | a]; [discriminate | | lia].
      rewrite Number_ofZ_pos by lia. discriminate.
    + destruct a as [| a | a]; [discriminate | | lia].
      rewrite Number_ofZ_pos by lia. discriminate.
    + now left.
Qed.

(** The sum of the tranche values, accumulated in binary64, is the sum of
    the integers as long as that one stays below [2^53]. *)
Lemma trancheTotal_from (tranches : list Tranche.t) (values : list Z)
  (start : Z) :
  map Tranche.value tranches = map JS.Number_ofZ values ->
  Forall (Z.le 0) values -> 0 <= start ->
  start + integerSum values < 2 ^ 53 ->
  fold_left (fun sum t => JS.add sum (Tranche.value t)) tranches
    (JS.Number_ofZ start) =
  JS.Number_ofZ (start + integerSum values).
Proof.
  revert values start.
  induction tranches as [| t tranches IH]; intros values start Hmap Hpos Hs Hlt.
  - destruct values; [| discriminate]. cbn. now rewrite Z.add_0_r.
  - destruct values as [| v values]; [discriminate |].
    cbn [map] in Hmap. injection Hmap as Hv Hmap.
    cbn [integerSum fold_right] in Hlt. fold (integerSum values) in Hlt.
    inversion Hpos as [| ? ? Hv0 Hrest]; subst.
    assert (Hsum : 0 <= integerSum values).
    { clear - Hrest. induction Hrest; cbn; [lia |].
      fold (integerSum l). lia. }
    cbn [fold_left]. rewrite Hv, add_ofZ by lia.
    rewrite (IH values (start + v)) by (assumption || lia).
    cbn [integerSum fold_right]. fold (integerSum values).
    f_equal. lia.
Qed.

Lemma trancheTotal_integers (tranches : list Tranche.t) (values : list Z) :
  map Tranche.value tranches = map JS.Number_ofZ values ->
  Forall (Z.le 0) values -> integerSum values < 2 ^ 53 ->
  trancheTotal tranches = JS.Number_ofZ (integerSum values).
Proof.
  intros Hmap Hpos Hlt. unfold trancheTotal.
  now rewrite (trancheTotal_from tranches values 0) by (assumption || lia).
Qed.

(** *** Order and maximum of integers below [2^53] *)

Lemma compare_canonical (a b : positive) :
  Z.pos a < 2 ^ 53 -> Z.pos b < 2 ^ 53 ->
  SFcompare (canonical a) (canonical b) = Some (Z.pos a ?= Z.pos b).
Proof.
  intros Ha Hb. unfold canonical. cbv zeta. cbn [SFcompare].
  pose proof (digits2_53 a Ha) as Hda. pose proof (digits2_53 b Hb) as Hdb.
  pose proof (digits2_bounds a) as [La Ua].
  pose proof (digits2_bounds b) as [Lb Ub].
  set (da := Z.pos (digits2_pos a)) in *.
  set (db := Z.pos (digits2_pos b)) in *.
  f_equal.
  destruct (Z.compare_spec (da - 53) (db - 53)) as [E | L | G].
  - assert (Hd : da = db) by lia. rewrite Hd.
    change ((Z.pos (shiftl_pos a (53 - db)) ?= Z.pos (shiftl_pos b (53 - db)))
            = (Z.pos a ?= Z.pos b)).
    rewrite !shiftl_pos_spec by lia.
    symmetry. apply Zmult_compare_compat_r.
    apply Z.lt_gt, Z.pow_pos_nonneg; lia.
  - symmetry. apply Z.compare_lt_iff.
    assert (2 ^ da <= 2 ^ (db - 1)) by (apply Z.pow_le_mono_r; lia). lia.
  - symmetry. apply Z.compare_gt_iff.
    assert (2 ^ db <= 2 ^ (da - 1)) by (apply Z.pow_le_mono_r; lia). lia.
Qed.

Lemma ltb_ofZ (a b : Z) :
  0 <= a < 2 ^ 53 -> 0 <= b < 2 ^ 53 ->
  SFltb (JS.Number_ofZ a) (JS.Number_ofZ b) = (a <? b).
Proof.
  intros Ha Hb. unfold SFltb, Z.ltb.
  destruct a as [| a | a]; [| | lia]; destruct b as [| b | b]; try lia.
  - reflexivity.
  - rewrite Number_ofZ_pos by lia. reflexivity.
  - rewrite Number_ofZ_pos by lia. reflexivity.
  - rewrite !Number_ofZ_pos, compare_canonical by lia. reflexivity.
Qed.

Lemma ofZ_not_NaN (a : Z) :
  0 <= a < 2 ^ 53 -> JS.isNaN (JS.Number_ofZ a) = false.
Proof.
  intro Ha. destruct a as [| a | a]; [reflexivity | | lia].
  now rewrite Number_ofZ_pos by lia.
Qed.

Lemma ofZ_not_negative_zero (a : Z) :
  0 <= a < 2 ^ 53 -> JS.Number_ofZ a <> S754_zero true.
Proof.
  intro Ha. destruct a as [| a | a]; [discriminate | | lia].
  rewrite Number_ofZ_pos by lia. discriminate.
Qed.

Lemma max2_ofZ (a b : Z) :
  0 <= a < 2 ^ 53 -> 0 <= b < 2 ^ 53 ->
  JS.max2 (JS.Number_ofZ a) (JS.Number_ofZ b) = JS.Number_ofZ (Z.max a b).
Proof.
  intros Ha Hb. unfold JS.max2.
  rewrite !ofZ_not_NaN by assumption. cbn [orb].
  pose proof (ofZ_not_negative_zero a Ha) as Hz.
  assert (E : (if SFltb (JS.Number_ofZ a) (JS.Number_ofZ b)
               then JS.Number_ofZ b else JS.Number_ofZ a)
              = JS.Number_ofZ (Z.max a b)).
  { rewrite ltb_ofZ by assumption.
    destruct (Z.ltb_spec a b); f_equal; lia. }
  destruct (JS.Number_ofZ b) as [[|] | | |];
    destruct (JS.Number_ofZ a) as [[|] | | |]; try exact E; congruence.
Qed.

Lemma fold_max2_ofZ (values : list Z) (start : Z) :
  0 <= start < 2 ^ 53 ->
  Forall (fun z => 0 <= z < 2 ^ 53) values ->
  fold_left JS.max2 (map JS.Number_ofZ values) (JS.Number_ofZ start) =
  JS.Number_ofZ (fold_left Z.max values start).
Proof.
  intros Hs Hall. revert start Hs.
  induction Hall as [| z values Hz Hall IH]; intros start Hs.
  - reflexivity.
  - cbn [map fold_left]. rewrite max2_ofZ by assumption.
    apply IH. lia.
Qed.

(** [Math.max] over integers below [2^53], at least one of them. *)
Lemma Math_max_ofZ (values : list Z) :
  values <> [] -> Forall (fun z => 0 <= z < 2 ^ 53) values ->
  JS.Math_max (map JS.Number_ofZ values) = JS.Number_ofZ (integerMax values).
Proof.
  intros Hne Hall. destruct values as [| z values]; [congruence |].
  inversion Hall as [| ? ? Hz Hrest]; subst.
  unfold JS.Math_max, integerMax. cbn [map fold_left].
  assert (E : JS.max2 (S754_infinity true) (JS.Number_ofZ z)
              = JS.Number_ofZ z).
  { unfold JS.max2. rewrite ofZ_not_NaN by assumption. cbn [JS.isNaN orb].
    destruct z as [| z | z]; [reflexivity | | lia].
    rewrite Number_ofZ_pos by lia. reflexivity. }
  rewrite E, fold_max2_ofZ by assumption.
  f_equal. f_equal. lia.
Qed.

Lemma integerMax_bounds (values : list Z) (start bound : Z) :
  start <= bound -> Forall (fun z => 0 <= z <= bound) values ->
  start <= fold_left Z.max values start <= bound /\
  Forall (fun z => z <= fold_left Z.max values start) values.
Proof.
  intros Hs Hall. revert start Hs.
  induction Hall as [| z values Hz Hall IH]; intros start Hs.
  - cbn. split; [lia | constructor].
  - cbn [fold_left].
    destruct (IH (Z.max start z) ltac:(lia)) as ((L & U) & Hle).
    split; [lia |]. constructor; [lia | exact Hle].
Qed.


(** ** White space *)

Lemma replaceRuns_empty (inRun : bool) (s : string) :
  JS.replaceRuns EmptyString inRun s =
  filterString (fun c => negb (JS.isWhiteSpace c)) s.
Proof.
  revert inRun. induction s as [| c s IH]; intro inRun; cbn [JS.replaceRuns filterString].
  - reflexivity.
  - destruct (JS.isWhiteSpace c); cbn [negb].
    + destruct inRun; rewrite IH; reflexivity.
    + now rewrite IH.
Qed.

Lemma filterString_forall (keep : ascii -> bool) (s : string) :
  forallString keep (filterString keep s) = true.
Proof.
  induction s as [| c s IH]; cbn [filterString].
  - reflexivity.
  - destruct (keep c) eqn:K; [| assumption].
    cbn [forallString]. now rewrite K.
Qed.

(** ** Standards without a template *)

Section GeneratorProperties.

Variable Date_getTime : string -> JS.number.

(** C1, as the code has it.  A standard outside [TOKEN_STANDARDS] is not
    rejected: the generator returns the empty text, the draft has no
    fragment, and the preview pane shows its placeholder. *)
Theorem unknown_standard_empty_preview (st : BuilderState) :
  ~ In (TokenForm.standard (tokenForm st)) (map fst TOKEN_STANDARDS) ->
  generateContractPreview Date_getTime st = JS.Normal EmptyString /\
  includedFragmentIds (composeDraft Date_getTime (tokenForm st)) = [] /\
  previewPane Date_getTime st = JS.Normal "// No preview available".
Proof.
  intro Hout.
  assert (Hdraft : composeDraft Date_getTime (tokenForm st) =
                   {| headerText := EmptyString; bodyFragments := [];
                      footerText := EmptyString |}).
  { apply untemplated_standard; intro E; apply Hout; rewrite E; cbn; tauto. }
  assert (Hgen : generateContractPreview Date_getTime st =
                 JS.Normal EmptyString).
  { rewrite generateContractPreview_fullText, Hdraft. reflexivity. }
  split; [exact Hgen |]. split.
  - now rewrite Hdraft.
  - unfold previewPane. now rewrite Hgen.
Qed.

(** C10.  ERC-721, ERC-1155 and ERC-4626 are offered in [TOKEN_STANDARDS],
    and for each of them the generator returns the empty string: the draft
    has no skeleton and no fragment, and nothing is thrown. *)
Theorem listed_standard_without_template (st : BuilderState) :
  TokenForm.standard (tokenForm st) = "ERC-721" \/
  TokenForm.standard (tokenForm st) = "ERC-1155" \/
  TokenForm.standard (tokenForm st) = "ERC-4626" ->
  In (TokenForm.standard (tokenForm st)) (map fst TOKEN_STANDARDS) /\
  generateContractPreview Date_getTime st = JS.Normal EmptyString /\
  composeDraft Date_getTime (tokenForm st) =
  {| headerText := EmptyString; bodyFragments := [];
     footerText := EmptyString |}.
Proof.
  intro Hstd.
  assert (Hdraft : composeDraft Date_getTime (tokenForm st) =
                   {| headerText := EmptyString; bodyFragments := [];
                      footerText := EmptyString |}).
  { apply untemplated_standard; intro E; rewrite E in Hstd;
      destruct Hstd as [H | [H | H]]; discriminate H. }
  split; [| split].
  - destruct Hstd as [H | [H | H]]; rewrite H; cbn; tauto.
  - rewrite generateContractPreview_fullText, Hdraft. reflexivity.
  - exact Hdraft.
Qed.

(** ** Determinism *)

(** C3.  The generator reads [tokenForm] and nothing else of the
    component: two states with the same form give the same completion,
    with the same text, and the same fragment ids. *)
Theorem generation_is_deterministic (st1 st2 : BuilderState) :
  tokenForm st1 = tokenForm st2 ->
  generateContractPreview Date_getTime st1 =
  generateContractPreview Date_getTime st2 /\
  (exists text,
     generateContractPreview Date_getTime st1 = JS.Normal text /\
     generateContractPreview Date_getTime st2 = JS.Normal text) /\
  includedFragmentIds (composeDraft Date_getTime (tokenForm st1)) =
  includedFragmentIds (composeDraft Date_getTime (tokenForm st2)).
Proof.
  intro Hform.
  rewrite (generateContractPreview_fullText Date_getTime st1).
  rewrite (generateContractPreview_fullText Date_getTime st2).
  rewrite Hform. split; [reflexivity |]. split; [| reflexivity].
  eexists. split; reflexivity.
Qed.

(** ** The empty baseline *)

(** C4, as the code has it.  With the three block lists empty the text is
    the skeleton alone, header then footer, provided the ERC-1400 form
    lists no restricted jurisdiction: that fragment depends on the
    metadata, not on a block. *)
Theorem empty_blocks_skeleton_only (st : BuilderState) :
  Blocks.compliance (TokenForm.blocks (tokenForm st)) = [] ->
  Blocks.features (TokenForm.blocks (tokenForm st)) = [] ->
  Blocks.governance (TokenForm.blocks (tokenForm st)) = [] ->
  (TokenForm.standard (tokenForm st) = "ERC-1400" ->
   Metadata.jurisdictionRestrictions (TokenForm.metadata (tokenForm st))
   = []) ->
  bodyFragments (composeDraft Date_getTime (tokenForm st)) = [] /\
  generateContractPreview Date_getTime st =
  JS.Normal
    (headerText (composeDraft Date_getTime (tokenForm st)) ++
     footerText (composeDraft Date_getTime (tokenForm st))).
Proof.
  intros Hc Hf Hg Hj.
  assert (Hbody : bodyFragments (composeDraft Date_getTime (tokenForm st))
                  = []).
  { unfold composeDraft. cbv zeta. rewrite Hc, Hf.
    destruct (String.eqb_spec (TokenForm.standard (tokenForm st)) "ERC-20");
      [reflexivity |].
    destruct (String.eqb_spec (TokenForm.standard (tokenForm st)) "ERC-1400")
      as [E |]; [now rewrite (Hj E) |].
    destruct (String.eqb (TokenForm.standard (tokenForm st)) "ERC-3525");
      reflexivity. }
  split; [exact Hbody |].
  rewrite generateContractPreview_fullText. unfold fullText.
  rewrite Hbody. reflexivity.
Qed.

(** ** Monotonic inclusion *)

(** More blocks, the same standard and metadata: no fragment is lost. *)
Lemma includedFragmentIds_monotone (form form' : TokenForm.t) :
  TokenForm.standard form' = TokenForm.standard form ->
  TokenForm.metadata form' = TokenForm.metadata form ->
  incl (Blocks.compliance (TokenForm.blocks form))
       (Blocks.compliance (TokenForm.blocks form')) ->
  incl (Blocks.features (TokenForm.blocks form))
       (Blocks.features (TokenForm.blocks form')) ->
  incl (includedFragmentIds (composeDraft Date_getTime form))
       (includedFragmentIds (composeDraft Date_getTime form')).
Proof.
  intros Hstd Hmeta Hc Hf.
  unfold composeDraft, includedFragmentIds. cbv zeta. rewrite Hstd, Hmeta.
  destruct (String.eqb (TokenForm.standard form) "ERC-20").
  { cbn [bodyFragments]. rewrite !map_app, !fragmentIf_ids.
    apply incl_app.
    - destruct (JS.includes (Blocks.compliance (TokenForm.blocks form)) "KYC")
        eqn:K; [| apply incl_nil_l].
      apply includes_In in K. apply Hc, includes_In in K. rewrite K.
      apply incl_appl, incl_refl.
    - destruct (JS.includes (Blocks.features (TokenForm.blocks form))
                  "Dividends") eqn:K; [| apply incl_nil_l].
      apply includes_In in K. apply Hf, includes_In in K. rewrite K.
      apply incl_appr, incl_refl. }
  destruct (String.eqb (TokenForm.standard form) "ERC-1400").
  { cbn [bodyFragments]. rewrite !map_app, !fragmentIf_ids.
    apply incl_app; [| apply incl_appr, incl_refl].
    destruct (0 <? List.length (Blocks.compliance (TokenForm.blocks form)))%nat
      eqn:K; [| apply incl_nil_l].
    rewrite (nonempty_incl _ _ Hc K). apply incl_appl, incl_refl. }
  destruct (String.eqb (TokenForm.standard form) "ERC-3525").
  { cbn [bodyFragments]. rewrite !fragmentIf_ids.
    destruct (0 <? List.length (Blocks.compliance (TokenForm.blocks form)))%nat
      eqn:K; [| apply incl_nil_l].
    rewrite (nonempty_incl _ _ Hc K). apply incl_refl. }
  apply incl_refl.
Qed.

Lemma getBlocks_setBlocks (blockType : BlockType) (l : list string)
  (blocks : Blocks.t) :
  getBlocks blockType (setBlocks blockType l blocks) = l.
Proof. now destruct blockType. Qed.

Lemma addBlock_incl (kind blockType : BlockType) (blockId : string)
  (form : TokenForm.t) :
  incl (getBlocks kind (TokenForm.blocks form))
       (getBlocks kind (TokenForm.blocks (addBlock blockType blockId form))).
Proof.
  destruct kind, blockType; cbn;
    first [apply incl_refl | apply incl_appl, incl_refl].
Qed.

(** When the block is not selected yet, the toggle is [addBlock]. *)
Lemma handleBlockToggle_adds (blockType : BlockType) (blockId : string)
  (st : BuilderState) :
  JS.includes (getBlocks blockType (TokenForm.blocks (tokenForm st))) blockId
  = false ->
  tokenForm (handleBlockToggle blockType blockId st) =
  addBlock blockType blockId (tokenForm st).
Proof.
  intro H. unfold handleBlockToggle, setTokenForm. cbn [tokenForm].
  now rewrite H.
Qed.

(** C6.  Adding one more name to any of the three block lists, the
    standard and every other field unchanged, keeps every fragment that
    was included: the new [includedFragmentIds] contains the old one. *)
Theorem monotonic_inclusion (blockType : BlockType) (blockId : string)
  (form : TokenForm.t) :
  TokenForm.standard (addBlock blockType blockId form) =
  TokenForm.standard form /\
  incl (includedFragmentIds (composeDraft Date_getTime form))
       (includedFragmentIds
          (composeDraft Date_getTime (addBlock blockType blockId form))).
Proof.
  split; [reflexivity |].
  apply includedFragmentIds_monotone.
  - reflexivity.
  - reflexivity.
  - apply (addBlock_incl Compliance).
  - apply (addBlock_incl Features).
Qed.

(** ** Tranche statements *)

Lemma trancheStatement_slot (t : Tranche.t) :
  exists rest,
    trancheStatement t =
    "        _createTranche(" ++ JS.Number_toString (Tranche.id t) ++ ", " ++
    rest.
Proof.
  unfold trancheStatement. eexists.
  repeat rewrite string_app_assoc. reflexivity.
Qed.

Lemma trancheStatement_nth (tranches : list Tranche.t) (i : nat)
  (t : Tranche.t) :
  nth_error tranches i = Some t ->
  exists rest,
    nth_error (map trancheStatement tranches) i =
    Some ("        _createTranche(" ++ JS.Number_toString (Tranche.id t) ++
          ", " ++ rest).
Proof.
  intro H. destruct (trancheStatement_slot t) as (rest & E).
  exists rest. rewrite nth_error_map, H. cbn [option_map]. now rewrite E.
Qed.

(** C2, as the code has it.  Two tranches with one id are not rejected:
    the generator returns normally and the text holds one statement per
    tranche, the repeated id included, joined in list order. *)
Theorem duplicate_tranche_ids_are_rendered (st : BuilderState) :
  TokenForm.standard (tokenForm st) = "ERC-3525" ->
  ~ NoDup (map Tranche.id (Metadata.tranches (TokenForm.metadata (tokenForm st)))) ->
  generateContractPreview Date_getTime st =
  JS.Normal
    (textBeforeTranches Date_getTime (tokenForm st) ++
     JS.join nl
       (map trancheStatement
          (Metadata.tranches (TokenForm.metadata (tokenForm st)))) ++
     textAfterTranches (tokenForm st)) /\
  List.length
    (map trancheStatement
       (Metadata.tranches (TokenForm.metadata (tokenForm st)))) =
  List.length (Metadata.tranches (TokenForm.metadata (tokenForm st))).
Proof.
  intros Hstd _. split.
  - apply erc3525_preview_shape, Hstd.
  - apply length_map.
Qed.

(** C7, as the code has it.  With distinct ids there is one
    initialization statement per tranche, the i-th statement opens with
    the id of the i-th tranche as its slot key, and the statements follow
    the order of the input list. *)
Theorem tranche_statements_follow_list_order (st : BuilderState) :
  TokenForm.standard (tokenForm st) = "ERC-3525" ->
  NoDup (map Tranche.id (Metadata.tranches (TokenForm.metadata (tokenForm st)))) ->
  generateContractPreview Date_getTime st =
  JS.Normal
    (textBeforeTranches Date_getTime (tokenForm st) ++
     JS.join nl
       (map trancheStatement
          (Metadata.tranches (TokenForm.metadata (tokenForm st)))) ++
     textAfterTranches (tokenForm st)) /\
  List.length
    (map trancheStatement
       (Metadata.tranches (TokenForm.metadata (tokenForm st)))) =
  List.length (Metadata.tranches (TokenForm.metadata (tokenForm st))) /\
  forall (i : nat) (t : Tranche.t),
    nth_error (Metadata.tranches (TokenForm.metadata (tokenForm st))) i
    = Some t ->
    exists rest,
      nth_error
        (map trancheStatement
           (Metadata.tranches (TokenForm.metadata (tokenForm st)))) i =
      Some ("        _createTranche(" ++ JS.Number_toString (Tranche.id t) ++
            ", " ++ rest).
Proof.
  intros Hstd _. split; [| split].
  - apply erc3525_preview_shape, Hstd.
  - apply length_map.
  - intros i t. apply trancheStatement_nth.
Qed.

(** ** The tranche-sum check *)

Lemma saveToken_validation (st : BuilderState) :
  saveToken Date_getTime st = ValidationErrorToast <->
  TokenForm.name (tokenForm st) = EmptyString \/
  TokenForm.symbol (tokenForm st) = EmptyString \/
  TokenForm.standard (tokenForm st) = EmptyString.
Proof.
  unfold saveToken. cbv zeta.
  rewrite generateContractPreview_fullText.
  destruct (TokenForm.name (tokenForm st)) as [| c1 n];
    [cbn; split; auto |].
  destruct (TokenForm.symbol (tokenForm st)) as [| c2 s];
    [cbn; split; auto |].
  destruct (TokenForm.standard (tokenForm st)) as [| c3 d];
    [cbn; split; auto |].
  cbn [JS.truthyString negb orb].
  destruct (selectedToken st); split;
    solve [discriminate | intros [H | [H | H]]; discriminate H].
Qed.

Lemma saveToken_no_error_toast (st : BuilderState) :
  saveToken Date_getTime st <> SaveErrorToast.
Proof.
  unfold saveToken. cbv zeta.
  rewrite generateContractPreview_fullText.
  destruct (_ || _ || _); [discriminate |].
  destruct (selectedToken st); discriminate.
Qed.

(** The class of the summary line is green exactly when the sums match. *)
Lemma trancheSummary_class (form : TokenForm.t) (s : TrancheSummary) :
  trancheSummary form = Some s ->
  className s =
  if trancheSumMatches form then "text-green-500" else "text-red-500".
Proof.
  unfold trancheSummary. cbv zeta.
  destruct (0 <? List.length _)%nat; [| discriminate].
  intro H. injection H as <-. cbn [className].
  unfold trancheSumMatches. now destruct (JS.strictEquals _ _).
Qed.

(** C5, as the code has it.  The tranche-sum check is a label and a
    colour and nothing more.  On a form that has its total supply the
    summary line never throws: it is left out when the tranche section is
    not displayed or there is no tranche, and otherwise it shows the total
    of the values, in green with the label of a match when
    [trancheSumMatches] holds, in red with the other label when not.
    [trancheSumMatches] compares two binary64 numbers with [===]: the sum
    accumulated over the tranche values in list order, and [totalSupply].
    For non-negative integer values whose sum, like the supply, is below
    [2^53], that is equality of the integer sum and the supply.  Whatever
    the outcome, the generator returns its text, and [saveToken] raises no
    error and is stopped by its validation only for an empty name, symbol
    or standard. *)
Theorem tranche_sum_check_is_a_warning (st : BuilderState) :
  let form := tokenForm st in
  let tranches := Metadata.tranches (TokenForm.metadata form) in
  renderTrancheSummary (Complete form) =
    (if structuredSectionsShown form && (0 <? List.length tranches)%nat
     then
       SummaryRendered
         {| totalValue := trancheTotal tranches;
            className :=
              if trancheSumMatches form
              then "text-green-500" else "text-red-500";
            label :=
              if trancheSumMatches form then MatchesTotalSupply
              else DoesntMatchTotalSupply (TokenForm.totalSupply form) |}
     else SummaryNotRendered) /\
  (trancheSumMatches form = true <->
   sameNumber (trancheTotal tranches) (TokenForm.totalSupply form)) /\
  (trancheSumMatches form = false <->
   ~ sameNumber (trancheTotal tranches) (TokenForm.totalSupply form)) /\
  (forall (values : list Z) (supply : Z),
     map Tranche.value tranches = map JS.Number_ofZ values ->
     TokenForm.totalSupply form = JS.Number_ofZ supply ->
     Forall (Z.le 0) values -> integerSum values < 2 ^ 53 ->
     0 <= supply < 2 ^ 53 ->
     (trancheSumMatches form = true <-> integerSum values = supply)) /\
  (exists text, generateContractPreview Date_getTime st = JS.Normal text) /\
  saveToken Date_getTime st <> SaveErrorToast /\
  (saveToken Date_getTime st = ValidationErrorToast <->
   TokenForm.name form = EmptyString \/
   TokenForm.symbol form = EmptyString \/
   TokenForm.standard form = EmptyString).
Proof.
  cbv zeta.
  assert (Hiff := strictEquals_iff
    (trancheTotal (Metadata.tranches (TokenForm.metadata (tokenForm st))))
    (TokenForm.totalSupply (tokenForm st))).
  fold (trancheSumMatches (tokenForm st)) in Hiff.
  split.
  { unfold renderTrancheSummary, trancheSummary.
    destruct (structuredSectionsShown (tokenForm st)); [| reflexivity].
    cbn [andb]. destruct (0 <? List.length _)%nat; [| reflexivity].
    do 2 f_equal. unfold trancheSumMatches.
    now destruct (JS.strictEquals _ _). }
  split; [exact Hiff |]. split.
  { destruct (trancheSumMatches (tokenForm st)); split.
    - discriminate.
    - intro Hn. exfalso. apply Hn, Hiff. reflexivity.
    - intros _ Hs. apply Hiff in Hs. discriminate.
    - reflexivity. }
  split.
  { intros values supply Hvalues Hsupply Hpos Hlt Hrange.
    unfold trancheSumMatches.
    rewrite (trancheTotal_integers _ values Hvalues Hpos Hlt), Hsupply.
    apply strictEquals_ofZ; [| exact Hrange].
    split; [| exact Hlt].
    clear - Hpos. induction Hpos; cbn; [lia |].
    fold (integerSum l). lia. }
  split; [apply generateContractPreview_returns |].
  split; [apply saveToken_no_error_toast |].
  apply saveToken_validation.
Qed.

(** ** Basis points *)


(** X1.  A whole percentage [p] reaches the statement as the integer
    [p * 100], without any rounding error. *)
Lemma whole_percent_basis_points (t : Tranche.t) (p : Z) :
  0 <= p -> p * 100 < 2 ^ 53 ->
  Tranche.interestRate t = JS.Number_ofZ p ->
  basisPointsArgument t = JS.Number_ofZ (p * 100) /\
  JS.isIntegral (basisPointsArgument t) = true.
Proof.
  intros Hp Hlt Hrate.
  assert (E : basisPointsArgument t = JS.Number_ofZ (p * 100)).
  { unfold basisPointsArgument. rewrite Hrate.
    apply mul_ofZ; [lia | split; [lia | reflexivity] | assumption]. }
  split; [exact E |]. rewrite E. apply isIntegral_ofZ. lia.
Qed.

(** ** The contract name *)

(** The seventh line of a template, with the text before and after it. *)
Lemma lines_seventh (a b c d e f x : string) (rest : list string) :
  lines (a :: b :: c :: d :: e :: f :: x :: rest) =
  linesBefore [a; b; c; d; e; f] ++ x ++ linesAfter rest.
Proof. apply (lines_split [a; b; c; d; e; f] x rest). Qed.

(** Each skeleton declares the contract under [contractName name]. *)
Lemma erc20Skeleton_contract_line
  (name symbol : string) (totalSupply decimals : JS.number) :
  exists before after,
    erc20Skeleton name symbol totalSupply decimals =
    before ++ ("contract " ++ contractName name ++ " is ERC20, Ownable {") ++
    after.
Proof.
  unfold erc20Skeleton. do 2 eexists. apply lines_seventh.
Qed.

Lemma erc1400Skeleton_contract_line
  (name symbol : string) (totalSupply decimals : JS.number) :
  exists before after,
    erc1400Skeleton name symbol totalSupply decimals =
    before ++ ("contract " ++ contractName name ++ " is ERC20, Ownable {") ++
    after.
Proof.
  unfold erc1400Skeleton. do 2 eexists. apply lines_seventh.
Qed.

Lemma erc3525Skeleton_contract_line
  (name symbol : string) (totalSupply decimals : JS.number)
  (metadata : Metadata.t) :
  exists before after,
    erc3525Skeleton Date_getTime name symbol totalSupply decimals metadata =
    before ++
    ("contract " ++ contractName name ++ " is ERC721Enumerable, Ownable {") ++
    after.
Proof.
  unfold erc3525Skeleton, erc3525Prologue. cbn [app].
  do 2 eexists. apply lines_seventh.
Qed.

(** C9, as the code has it.  The contract name is the token name with its
    white space removed and every other character kept, in order; it
    holds no white space, so it is one contiguous word, and
    "Credit Linked Note 2025" becomes "CreditLinkedNote2025".  It is the
    name under which the ERC-20 and ERC-3525 skeletons declare the
    contract. *)
Theorem contract_name_strips_white_space (name : string) :
  contractName name =
  filterString (fun c => negb (JS.isWhiteSpace c)) name /\
  forallString (fun c => negb (JS.isWhiteSpace c)) (contractName name)
  = true /\
  contractName "Credit Linked Note 2025" = "CreditLinkedNote2025" /\
  (forall symbol totalSupply decimals,
     exists before after,
       erc20Skeleton name symbol totalSupply decimals =
       before ++
       ("contract " ++ contractName name ++ " is ERC20, Ownable {") ++
       after) /\
  (forall symbol totalSupply decimals metadata,
     exists before after,
       erc3525Skeleton Date_getTime name symbol totalSupply decimals metadata
       = before ++
         ("contract " ++ contractName name ++
          " is ERC721Enumerable, Ownable {") ++
         after).
Proof.
  assert (E : contractName name =
              filterString (fun c => negb (JS.isWhiteSpace c)) name)
    by apply replaceRuns_empty.
  split; [exact E |]. split; [| split; [| split]].
  - rewrite E. apply filterString_forall.
  - reflexivity.
  - intros. apply erc20Skeleton_contract_line.
  - intros. apply erc3525Skeleton_contract_line.
Qed.

(** ** What is saved *)

(** X2.  A form with a name, a symbol and a standard is sent to the store
    with the text of the generator as its [contract_preview]: as an update
    of the selected token, or else as a new row of the current project. *)
Theorem saveToken_stores_the_preview (st : BuilderState) :
  TokenForm.name (tokenForm st) <> EmptyString ->
  TokenForm.symbol (tokenForm st) <> EmptyString ->
  TokenForm.standard (tokenForm st) <> EmptyString ->
  exists columns,
    generateContractPreview Date_getTime st =
    JS.Normal (col_contract_preview columns) /\
    col_blocks columns = TokenForm.blocks (tokenForm st) /\
    col_metadata columns = TokenForm.metadata (tokenForm st) /\
    saveToken Date_getTime st =
    match selectedToken st with
    | Some token => UpdateToken (Token.id token) columns
    | None => InsertToken (currentProjectId st) columns
    end.
Proof.
  intros Hn Hs Hd. unfold saveToken. cbv zeta.
  destruct (TokenForm.name (tokenForm st)) as [| c1 n]; [congruence |].
  destruct (TokenForm.symbol (tokenForm st)) as [| c2 s]; [congruence |].
  destruct (TokenForm.standard (tokenForm st)) as [| c3 d]; [congruence |].
  cbn [JS.truthyString negb orb].
  destruct (generateContractPreview_returns Date_getTime st) as (text & E).
  rewrite E. eexists. split; [| split; [| split]].
  4: reflexivity.
  all: reflexivity.
Qed.

End GeneratorProperties.

(** ** The building-block toggle *)

Lemma filter_not_in (x : string) (l : list string) :
  ~ In x l -> filter (fun id => negb (String.eqb id x)) l = l.
Proof.
  induction l as [| y l IH]; intro H; cbn [filter].
  - reflexivity.
  - destruct (String.eqb_spec y x) as [-> | Hne].
    + exfalso. apply H. now left.
    + cbn [negb]. rewrite IH; [reflexivity |].
      intro Hin. apply H. now right.
Qed.

Lemma setBlocks_getBlocks (blockType : BlockType) (form : TokenForm.t) :
  withBlocks
    (setBlocks blockType (getBlocks blockType (TokenForm.blocks form))
       (TokenForm.blocks form)) form = form.
Proof.
  destruct form as [n s dec std ts [c f g] md]. now destruct blockType.
Qed.

(** X3.  Toggling a block that is not selected selects it, the other
    names kept in their order, and toggling it once more gives the form
    back. *)
Theorem handleBlockToggle_twice (blockType : BlockType) (blockId : string)
  (st : BuilderState) :
  JS.includes (getBlocks blockType (TokenForm.blocks (tokenForm st))) blockId
  = false ->
  getBlocks blockType
    (TokenForm.blocks (tokenForm (handleBlockToggle blockType blockId st)))
  = (getBlocks blockType (TokenForm.blocks (tokenForm st)) ++ [blockId])%list
  /\
  tokenForm
    (handleBlockToggle blockType blockId
       (handleBlockToggle blockType blockId st))
  = tokenForm st.
Proof.
  intro Hout.
  assert (Hnotin : ~ In blockId
                     (getBlocks blockType (TokenForm.blocks (tokenForm st)))).
  { intro Hin. apply includes_In in Hin. congruence. }
  rewrite (handleBlockToggle_adds blockType blockId st Hout).
  split.
  - unfold addBlock. cbn [withBlocks TokenForm.blocks].
    apply getBlocks_setBlocks.
  - unfold handleBlockToggle at 1. unfold setTokenForm. cbn [tokenForm].
    rewrite (handleBlockToggle_adds blockType blockId st Hout).
    assert (Hin : JS.includes
                    (getBlocks blockType
                       (TokenForm.blocks
                          (addBlock blockType blockId (tokenForm st))))
                    blockId = true).
    { apply includes_In. unfold addBlock.
      cbn [withBlocks TokenForm.blocks]. rewrite getBlocks_setBlocks.
      apply in_or_app. right. now left. }
    rewrite Hin. unfold removeBlock, addBlock.
    cbn [withBlocks TokenForm.blocks TokenForm.name TokenForm.symbol
         TokenForm.decimals TokenForm.standard TokenForm.totalSupply
         TokenForm.metadata].
    rewrite getBlocks_setBlocks, filter_app, (filter_not_in _ _ Hnotin).
    cbn [filter]. rewrite String.eqb_refl. cbn [negb]. rewrite app_nil_r.
    destruct (tokenForm st) as [n s dec std ts [c f g] md].
    now destruct blockType.
Qed.

(** ** Tranche ids *)

Lemma removeAt_firstn_skipn {A : Type} (index : nat) (l : list A) :
  removeAt index l = (firstn index l ++ skipn (S index) l)%list.
Proof.
  revert index. induction l as [| x l IH]; intro index.
  - now destruct index.
  - destruct index as [| index]; [reflexivity |].
    cbn [removeAt firstn skipn app]. now rewrite IH.
Qed.

Lemma In_removeAt {A : Type} (index : nat) (l : list A) (x : A) :
  In x (removeAt index l) -> In x l.
Proof.
  revert index. induction l as [| y l IH]; intros index Hin.
  - now destruct index.
  - destruct index as [| index]; [now right |].
    destruct Hin as [<- | Hin]; [now left |].
    right. eapply IH, Hin.
Qed.

Lemma NoDup_removeAt {A : Type} (index : nat) (l : list A) :
  NoDup l -> NoDup (removeAt index l).
Proof.
  revert index. induction l as [| x l IH]; intros index Hnd.
  - destruct index; constructor.
  - inversion Hnd as [| ? ? Hnotin Hrest]; subst.
    destruct index as [| index]; [exact Hrest |].
    cbn [removeAt]. constructor; [| now apply IH].
    intro Hin. apply Hnotin. eapply In_removeAt, Hin.
Qed.

Lemma map_removeAt {A B : Type} (f : A -> B) (index : nat) (l : list A) :
  map f (removeAt index l) = removeAt index (map f l).
Proof.
  revert index. induction l as [| x l IH]; intro index.
  - now destruct index.
  - destruct index as [| index]; [reflexivity |].
    cbn [removeAt map]. now rewrite IH.
Qed.

(** X5.  Deleting the row at [index] removes that tranche only: the
    others stay, in their order and with their ids, and distinct ids stay
    distinct. *)
Theorem deleteTranche_keeps_survivors (index : nat) (st : BuilderState) :
  Metadata.tranches (TokenForm.metadata (tokenForm (deleteTranche index st)))
  = (firstn index (Metadata.tranches (TokenForm.metadata (tokenForm st))) ++
     skipn (S index) (Metadata.tranches (TokenForm.metadata (tokenForm st))))
    %list /\
  (NoDup (map Tranche.id
            (Metadata.tranches (TokenForm.metadata (tokenForm st)))) ->
   NoDup (map Tranche.id
            (Metadata.tranches
               (TokenForm.metadata (tokenForm (deleteTranche index st)))))).
Proof.
  unfold deleteTranche, setTokenForm, withTranchesOf.
  cbn [tokenForm TokenForm.metadata Metadata.tranches]. split.
  - apply removeAt_firstn_skipn.
  - intro Hnd. rewrite map_removeAt. now apply NoDup_removeAt.
Qed.

(** X4.  The Add Tranche button on tranches whose ids are integers from 0
    to [2^53 - 2]: the tranches present are kept, the new one gets the
    largest id plus one (1 when there is none), which no tranche has yet,
    so distinct ids stay distinct. *)
Theorem addTranche_allocates_a_fresh_id (st : BuilderState) (ids : list Z) :
  map Tranche.id (Metadata.tranches (TokenForm.metadata (tokenForm st)))
  = map JS.Number_ofZ ids ->
  Forall (fun z => 0 <= z < 2 ^ 53 - 1) ids ->
  map Tranche.id
    (Metadata.tranches (TokenForm.metadata (tokenForm (addTranche st))))
  = map JS.Number_ofZ (ids ++ [integerMax ids + 1]) /\
  ~ In (integerMax ids + 1) ids /\
  (NoDup ids -> NoDup (ids ++ [integerMax ids + 1])).
Proof.
  intros Hids Hall.
  assert (Hall' : Forall (fun z => 0 <= z <= 2 ^ 53 - 2) ids).
  { eapply Forall_impl; [| exact Hall]. cbn beta. intros z Hz. lia. }
  destruct (integerMax_bounds ids 0 (2 ^ 53 - 2) ltac:(cbn; lia) Hall')
    as (Hmax & Hle).
  fold (integerMax ids) in Hmax, Hle.
  assert (Hfresh : ~ In (integerMax ids + 1) ids).
  { intro Hin. rewrite Forall_forall in Hle. apply Hle in Hin. lia. }
  split; [| split; [exact Hfresh |]].
  - unfold addTranche, setTokenForm, withTranchesOf.
    cbn [tokenForm TokenForm.metadata Metadata.tranches].
    rewrite !map_app, Hids. f_equal. cbn [map Tranche.id]. f_equal.
    unfold newId.
    destruct (Metadata.tranches (TokenForm.metadata (tokenForm st)))
      as [| t tranches] eqn:Ht.
    + destruct ids; [reflexivity | discriminate].
    + cbn [List.length Nat.ltb Nat.leb]. rewrite Hids.
      rewrite Math_max_ofZ.
      * apply add_ofZ; lia.
      * destruct ids; [discriminate | congruence].
      * eapply Forall_impl; [| exact Hall]. cbn beta. intros z Hz. lia.
  - intro Hnd. apply NoDup_app; [exact Hnd | repeat constructor; tauto |].
    intros z Hz [<- | []]. exact (Hfresh Hz).
Qed.

(** ** What the blocks and the metadata contribute to the text *)

Lemma nil_iff_length_ltb {A : Type} (l l' : list A) :
  (l = [] <-> l' = []) ->
  (0 <? List.length l)%nat = (0 <? List.length l')%nat.
Proof.
  intros [H1 H2]. destruct l, l'; try reflexivity.
  - now specialize (H1 eq_refl).
  - now specialize (H2 eq_refl).
Qed.

Section Relevance.

Variable Date_getTime : string -> JS.number.

(** X6.  The text reads three facts of the building blocks and nothing
    else: whether KYC is a compliance block, whether Dividends is a
    feature, and whether there is a compliance block at all.  Blocks that
    agree on these give the same text, whatever the standard; the
    governance blocks, in particular, never reach it. *)
Theorem preview_reads_three_facts_of_the_blocks
  (st : BuilderState) (blocks' : Blocks.t) :
  JS.includes (Blocks.compliance blocks') "KYC" =
    JS.includes (Blocks.compliance (TokenForm.blocks (tokenForm st))) "KYC" ->
  JS.includes (Blocks.features blocks') "Dividends" =
    JS.includes (Blocks.features (TokenForm.blocks (tokenForm st)))
      "Dividends" ->
  (Blocks.compliance blocks' = [] <->
   Blocks.compliance (TokenForm.blocks (tokenForm st)) = []) ->
  generateContractPreview Date_getTime (setTokenForm (withBlocks blocks') st)
  = generateContractPreview Date_getTime st.
Proof.
  intros Hkyc Hdiv Hnil.
  apply nil_iff_length_ltb in Hnil.
  unfold generateContractPreview, setTokenForm, withBlocks.
  cbn [tokenForm TokenForm.name TokenForm.symbol TokenForm.decimals
       TokenForm.standard TokenForm.totalSupply TokenForm.blocks
       TokenForm.metadata].
  now rewrite Hkyc, Hdiv, Hnil.
Qed.

(** X8.  Unless the standard is ERC-3525, the tranches, the two dates,
    the conversion rate, the description, the category and the product
    never reach the text: the metadata can be replaced by any other,
    provided that under ERC-1400 the whitelist flag and the restricted
    regions are kept. *)
Theorem metadata_outside_erc3525 (st : BuilderState) (metadata' : Metadata.t) :
  TokenForm.standard (tokenForm st) <> "ERC-3525" ->
  (TokenForm.standard (tokenForm st) = "ERC-1400" ->
   Metadata.whitelistEnabled metadata' =
     Metadata.whitelistEnabled (TokenForm.metadata (tokenForm st)) /\
   Metadata.jurisdictionRestrictions metadata' =
     Metadata.jurisdictionRestrictions (TokenForm.metadata (tokenForm st))) ->
  generateContractPreview Date_getTime
    (setTokenForm (withMetadata (fun _ => metadata')) st)
  = generateContractPreview Date_getTime st.
Proof.
  intros Hstd H1400.
  unfold generateContractPreview, setTokenForm, withMetadata.
  cbn [tokenForm TokenForm.name TokenForm.symbol TokenForm.decimals
       TokenForm.standard TokenForm.totalSupply TokenForm.blocks
       TokenForm.metadata].
  destruct (String.eqb_spec (TokenForm.standard (tokenForm st)) "ERC-3525")
    as [H | _]; [contradiction |].
  destruct (String.eqb_spec (TokenForm.standard (tokenForm st)) "ERC-1400")
    as [H | _]; [| reflexivity].
  destruct (H1400 H) as [Hw Hj].
  unfold erc1400ComplianceFragment, jurisdictionFragment, jurisdictionInit,
    whitelistFlag.
  now rewrite Hw, Hj.
Qed.

(** X9.  Unless the standard is ERC-1400, checking or unchecking a region
    leaves the text as it is: the restricted regions reach the ERC-1400
    text only. *)
Theorem regions_outside_erc1400
  (region : string) (checked : JS.CheckedState) (st : BuilderState) :
  TokenForm.standard (tokenForm st) <> "ERC-1400" ->
  generateContractPreview Date_getTime (jurisdictionChecked region checked st)
  = generateContractPreview Date_getTime st.
Proof.
  intros Hstd.
  unfold jurisdictionChecked.
  destruct (JS.truthyChecked checked);
    unfold generateContractPreview, setTokenForm, withMetadata,
      withJurisdictionRestrictions;
    cbn [tokenForm TokenForm.name TokenForm.symbol TokenForm.decimals
         TokenForm.standard TokenForm.totalSupply TokenForm.blocks
         TokenForm.metadata];
    destruct (String.eqb_spec (TokenForm.standard (tokenForm st)) "ERC-1400")
      as [H | _]; try contradiction; reflexivity.
Qed.

(** The text of a standard that has a template starts with the licence
    line. *)
Lemma templated_preview_starts (st : BuilderState) :
  TokenForm.standard (tokenForm st) = "ERC-20" \/
  TokenForm.standard (tokenForm st) = "ERC-1400" \/
  TokenForm.standard (tokenForm st) = "ERC-3525" ->
  exists rest,
    generateContractPreview Date_getTime st =
    JS.Normal ("// SPDX-License-Identifier: MIT" ++ rest).
Proof.
  intros Hstd. rewrite generateContractPreview_fullText.
  unfold composeDraft, fullText.
  destruct Hstd as [H | [H | H]]; rewrite H;
    cbn [String.eqb Ascii.eqb Bool.eqb headerText];
    unfold erc20Skeleton, erc1400Skeleton, erc3525Skeleton, erc3525Prologue;
    cbn [app]; rewrite lines_cons, string_app_assoc; eexists; reflexivity.
Qed.

(** X14.  The preview pane shows its placeholder exactly when the standard
    is none of ERC-20, ERC-1400 and ERC-3525; for these three it shows the
    generated text, which is never empty. *)
Theorem placeholder_iff_no_template (st : BuilderState) :
  previewPane Date_getTime st = JS.Normal "// No preview available"
  <->
  TokenForm.standard (tokenForm st) <> "ERC-20" /\
  TokenForm.standard (tokenForm st) <> "ERC-1400" /\
  TokenForm.standard (tokenForm st) <> "ERC-3525".
Proof.
  split.
  - intro Hpane.
    assert (Hno : forall rest,
               generateContractPreview Date_getTime st <>
               JS.Normal ("// SPDX-License-Identifier: MIT" ++ rest)).
    { intros rest Heq. unfold previewPane in Hpane. rewrite Heq in Hpane.
      cbn in Hpane. discriminate. }
    repeat split; intro H;
      destruct (templated_preview_starts st) as [rest Hrest]; try tauto;
      exact (Hno rest Hrest).
  - intros (H20 & H1400 & H3525). unfold previewPane.
    rewrite generateContractPreview_fullText.
    now rewrite (untemplated_standard Date_getTime _ H20 H1400 H3525).
Qed.

Lemma lines_fourth (a b c x : string) (rest : list string) :
  lines (a :: b :: c :: x :: rest) =
  linesBefore [a; b; c] ++ x ++ linesAfter rest.
Proof. apply (lines_split [a; b; c] x rest). Qed.

(** X23.  The whitelist checkbox rewrites one line of the text, the
    declaration of [_whitelistEnabled], when the standard is ERC-1400 or
    ERC-3525 and there is a compliance block: what comes before the line
    and what comes after it are kept.  In any other case it leaves the
    text as it is. *)
Theorem whitelist_checkbox_rewrites_one_line
  (checked : JS.CheckedState) (st : BuilderState) :
  let form := tokenForm st in
  let st' := whitelistChecked checked st in
  Metadata.whitelistEnabled (TokenForm.metadata (tokenForm st'))
  = JS.truthyChecked checked /\
  if (String.eqb (TokenForm.standard form) "ERC-1400"
      || String.eqb (TokenForm.standard form) "ERC-3525")
     && (0 <? List.length (Blocks.compliance (TokenForm.blocks form)))%nat
  then
    exists before after : string,
      generateContractPreview Date_getTime st =
      JS.Normal
        (before ++
         ("    " ++ whitelistFlag (TokenForm.metadata form)) ++ after) /\
      generateContractPreview Date_getTime st' =
      JS.Normal
        (before ++
         ("    " ++ whitelistFlag (TokenForm.metadata (tokenForm st'))) ++
         after)
  else
    generateContractPreview Date_getTime st'
    = generateContractPreview Date_getTime st.
Proof.
  cbv zeta. split; [reflexivity |].
  unfold generateContractPreview, whitelistChecked, setTokenForm,
    withMetadata, withWhitelistEnabled.
  cbn [tokenForm TokenForm.name TokenForm.symbol TokenForm.decimals
       TokenForm.standard TokenForm.totalSupply TokenForm.blocks
       TokenForm.metadata].
  destruct (String.eqb_spec (TokenForm.standard (tokenForm st)) "ERC-20")
    as [H20 | _].
  { rewrite H20. reflexivity. }
  destruct (String.eqb_spec (TokenForm.standard (tokenForm st)) "ERC-1400")
    as [H1400 | _].
  { cbn [orb andb].
    destruct (0 <? List.length _)%nat; [| reflexivity].
    unfold erc1400ComplianceFragment, jurisdictionFragment, jurisdictionInit.
    cbn [Metadata.jurisdictionRestrictions].
    rewrite !lines_fourth.
    exists (erc1400Skeleton (TokenForm.name (tokenForm st))
              (TokenForm.symbol (tokenForm st))
              (TokenForm.totalSupply (tokenForm st))
              (TokenForm.decimals (tokenForm st)) ++
            linesBefore
              [EmptyString; "    // Compliance Controls";
               "    mapping(address => bool) private _whitelisted;"]).
    destruct (JS.truthyArray _ && _); eexists;
      split; repeat rewrite string_app_assoc; reflexivity. }
  destruct (String.eqb_spec (TokenForm.standard (tokenForm st)) "ERC-3525")
    as [H3525 | _]; [| reflexivity].
  cbn [orb andb].
  destruct (0 <? List.length _)%nat; [| reflexivity].
  unfold erc3525ComplianceFragment.
  rewrite !lines_fourth.
  exists (erc3525Skeleton Date_getTime (TokenForm.name (tokenForm st))
            (TokenForm.symbol (tokenForm st))
            (TokenForm.totalSupply (tokenForm st))
            (TokenForm.decimals (tokenForm st))
            (TokenForm.metadata (tokenForm st)) ++
          linesBefore
            [EmptyString; "    // Compliance Controls";
             "    mapping(address => bool) private _whitelisted;"]).
  eexists. split; repeat rewrite string_app_assoc; reflexivity.
Qed.

(** X24.  KYC is not lost by a change of standard: when the ERC-20 draft
    of a form has the KYC fragment, its ERC-1400 draft and its ERC-3525
    draft, after [handleStandardChange], have their compliance-controls
    fragment. *)
Theorem kyc_survives_a_change_of_standard (st : BuilderState) :
  In Erc20Kyc
    (includedFragmentIds
       (composeDraft Date_getTime
          (tokenForm (handleStandardChange "ERC-20" st)))) ->
  In Erc1400ComplianceControls
    (includedFragmentIds
       (composeDraft Date_getTime
          (tokenForm (handleStandardChange "ERC-1400" st)))) /\
  In Erc3525ComplianceControls
    (includedFragmentIds
       (composeDraft Date_getTime
          (tokenForm (handleStandardChange "ERC-3525" st)))).
Proof.
  unfold handleStandardChange, setTokenForm, withStandard, composeDraft,
    includedFragmentIds.
  cbn [tokenForm TokenForm.standard TokenForm.blocks TokenForm.metadata
       String.eqb Ascii.eqb Bool.eqb bodyFragments].
  intro Hkyc. rewrite map_app in Hkyc. apply in_app_or in Hkyc.
  assert (Hin : JS.includes
                  (Blocks.compliance (TokenForm.blocks (tokenForm st)))
                  "KYC" = true).
  { destruct (JS.includes _ "KYC"); [reflexivity |].
    destruct Hkyc as [[] | Hdiv].
    destruct (JS.includes _ "Dividends"); cbn in Hdiv;
      [destruct Hdiv as [H | []]; discriminate | contradiction]. }
  apply includes_In in Hin.
  assert (Hlen : (0 <? List.length
                         (Blocks.compliance (TokenForm.blocks (tokenForm st))))
                 %nat = true).
  { destruct (Blocks.compliance _); [contradiction | reflexivity]. }
  rewrite Hlen. cbn [fragmentIf map fst app]. split; now left.
Qed.

End Relevance.

(** ** One toggle, one name *)

Lemma includes_app (l l' : list string) (x : string) :
  JS.includes (l ++ l')%list x = JS.includes l x || JS.includes l' x.
Proof. unfold JS.includes. apply existsb_app. Qed.

Lemma includes_filter_other (l : list string) (x y : string) :
  x <> y ->
  JS.includes (filter (fun id => negb (String.eqb id y)) l) x
  = JS.includes l x.
Proof.
  intro Hne. unfold JS.includes.
  induction l as [| z l IH]; [reflexivity |].
  cbn [filter existsb].
  destruct (String.eqb_spec z y) as [-> | Hzy]; cbn [negb].
  - rewrite IH. destruct (String.eqb_spec x y); [contradiction | reflexivity].
  - cbn [existsb]. now rewrite IH.
Qed.

Lemma includes_filter_same (l : list string) (x : string) :
  JS.includes (filter (fun id => negb (String.eqb id x)) l) x = false.
Proof.
  unfold JS.includes.
  induction l as [| z l IH]; [reflexivity |].
  cbn [filter].
  destruct (String.eqb_spec z x) as [-> | Hzx]; cbn [negb]; [exact IH |].
  cbn [existsb]. rewrite IH.
  destruct (String.eqb_spec x z); [congruence | reflexivity].
Qed.

Lemma getBlocks_setBlocks_other (kind blockType : BlockType)
  (l : list string) (blocks : Blocks.t) :
  kind <> blockType ->
  getBlocks kind (setBlocks blockType l blocks) = getBlocks kind blocks.
Proof. destruct kind, blockType; intro H; try reflexivity; contradiction. Qed.

Lemma getBlocks_setBlocks_same (blockType : BlockType) (l : list string)
  (blocks : Blocks.t) :
  getBlocks blockType (setBlocks blockType l blocks) = l.
Proof. now destruct blockType. Qed.

Lemma BlockType_eq_dec (a b : BlockType) : {a = b} + {a <> b}.
Proof. decide equality. Qed.

(** X7.  [handleBlockToggle] flips the membership of the name it is given
    in the list of its kind, and nothing else: every other name, of any
    kind, is selected after the toggle exactly when it was before, and the
    rest of the form is kept. *)
Theorem handleBlockToggle_flips_one_name
  (blockType : BlockType) (blockId : string) (st : BuilderState) :
  let blocksOf := fun st => TokenForm.blocks (tokenForm st) in
  let st' := handleBlockToggle blockType blockId st in
  JS.includes (getBlocks blockType (blocksOf st')) blockId
  = negb (JS.includes (getBlocks blockType (blocksOf st)) blockId) /\
  (forall (kind : BlockType) (name : string),
     kind <> blockType \/ name <> blockId ->
     JS.includes (getBlocks kind (blocksOf st')) name
     = JS.includes (getBlocks kind (blocksOf st)) name) /\
  withBlocks (blocksOf st) (tokenForm st') = tokenForm st.
Proof.
  cbv zeta. unfold handleBlockToggle, setTokenForm. cbn [tokenForm].
  destruct (JS.includes
              (getBlocks blockType (TokenForm.blocks (tokenForm st))) blockId)
    eqn:Hin;
    unfold removeBlock, addBlock; cbn [withBlocks TokenForm.blocks].
  - split; [| split].
    + rewrite getBlocks_setBlocks_same. apply includes_filter_same.
    + intros kind name Hother.
      destruct (BlockType_eq_dec kind blockType) as [-> | Hkind].
      * rewrite getBlocks_setBlocks_same. apply includes_filter_other.
        destruct Hother as [H | H]; [contradiction | exact H].
      * now rewrite getBlocks_setBlocks_other.
    + now destruct (tokenForm st).
  - split; [| split].
    + rewrite getBlocks_setBlocks_same, includes_app, Hin.
      unfold JS.includes. cbn [existsb]. now rewrite String.eqb_refl.
    + intros kind name Hother.
      destruct (BlockType_eq_dec kind blockType) as [-> | Hkind].
      * rewrite getBlocks_setBlocks_same, includes_app.
        unfold JS.includes at 2. cbn [existsb].
        destruct (String.eqb_spec name blockId) as [-> | _].
        -- destruct Hother as [H | H]; contradiction.
        -- now rewrite !orb_false_r.
      * now rewrite getBlocks_setBlocks_other.
    + now destruct (tokenForm st).
Qed.

(** ** The region checkboxes *)

Section Regions.

Variable Date_getTime : string -> JS.number.

(** X10.  Checking a region that is not restricted appends it to the
    restricted regions, which brings the jurisdiction fragment into an
    ERC-1400 draft; unchecking it then gives the form back. *)
Theorem region_checkbox_round_trip (region : string) (st : BuilderState) :
  JS.includes (restrictionsOf st) region = false ->
  let checked := jurisdictionChecked region (JS.Checked true) st in
  restrictionsOf checked = (restrictionsOf st ++ [region])%list /\
  (TokenForm.standard (tokenForm st) = "ERC-1400" ->
   In Erc1400JurisdictionRestrictions
     (includedFragmentIds (composeDraft Date_getTime (tokenForm checked)))) /\
  tokenForm (jurisdictionChecked region (JS.Checked false) checked)
  = tokenForm st.
Proof.
  intro Hout. cbv zeta.
  assert (Hnotin : ~ In region (restrictionsOf st)).
  { intro Hin. apply includes_In in Hin. congruence. }
  unfold restrictionsOf in *.
  unfold jurisdictionChecked, setTokenForm, withMetadata,
    withJurisdictionRestrictions.
  cbn [JS.truthyChecked tokenForm TokenForm.metadata
       Metadata.jurisdictionRestrictions TokenForm.name TokenForm.symbol
       TokenForm.decimals TokenForm.standard TokenForm.totalSupply
       TokenForm.blocks Metadata.description Metadata.category
       Metadata.product Metadata.issuanceDate Metadata.maturityDate
       Metadata.tranches Metadata.whitelistEnabled Metadata.conversionRate].
  split; [reflexivity | split].
  - intro Hstd. unfold composeDraft.
    cbn [TokenForm.standard TokenForm.metadata TokenForm.blocks].
    rewrite Hstd. cbn [String.eqb Ascii.eqb Bool.eqb].
    unfold includedFragmentIds. cbn [bodyFragments].
    rewrite map_app. apply in_or_app. right.
    cbn [Metadata.jurisdictionRestrictions].
    rewrite length_app. cbn [List.length].
    replace (0 <?
             List.length
               (Metadata.jurisdictionRestrictions
                  (TokenForm.metadata (tokenForm st))) + 1)%nat
      with true.
    + now left.
    + symmetry. apply Nat.ltb_lt. lia.
  - rewrite filter_app, (filter_not_in _ _ Hnotin).
    cbn [filter]. rewrite String.eqb_refl. cbn [negb]. rewrite app_nil_r.
    destruct (tokenForm st) as [n s dec std ts b md]. now destruct md.
Qed.

End Regions.

Lemma NoDup_filter {A : Type} (f : A -> bool) (l : list A) :
  NoDup l -> NoDup (filter f l).
Proof.
  induction 1 as [| x l Hnotin Hnd IH]; cbn [filter]; [constructor |].
  destruct (f x); [| exact IH].
  constructor; [| exact IH]. intro Hin. apply filter_In in Hin. tauto.
Qed.

(** X25.  A region checkbox hands its handler the opposite of what it
    displays, which is whether the region is restricted.  On such a
    change, the restricted regions stay pairwise distinct and among the
    eight regions offered, so there are at most eight of them. *)
Theorem region_checkbox_keeps_regions_distinct
  (region : string) (checked : JS.CheckedState) (st : BuilderState) :
  In region REGIONS ->
  JS.truthyChecked checked = negb (JS.includes (restrictionsOf st) region) ->
  NoDup (restrictionsOf st) ->
  incl (restrictionsOf st) REGIONS ->
  let st' := jurisdictionChecked region checked st in
  NoDup (restrictionsOf st') /\
  incl (restrictionsOf st') REGIONS /\
  (List.length (restrictionsOf st') <= 8)%nat.
Proof.
  intros Hregion Hchecked Hnd Hincl. cbv zeta.
  assert (Hboth : NoDup (restrictionsOf (jurisdictionChecked region checked st))
                  /\ incl (restrictionsOf
                             (jurisdictionChecked region checked st)) REGIONS).
  { unfold jurisdictionChecked. rewrite Hchecked.
    destruct (JS.includes (restrictionsOf st) region) eqn:Hin; cbn [negb].
    - unfold restrictionsOf in *. unfold setTokenForm, withMetadata,
        withJurisdictionRestrictions.
      cbn [tokenForm TokenForm.metadata Metadata.jurisdictionRestrictions].
      split; [now apply NoDup_filter |].
      intros r Hr. apply filter_In in Hr. apply Hincl. tauto.
    - assert (Hnotin : ~ In region (restrictionsOf st)).
      { intro H. apply includes_In in H. congruence. }
      unfold restrictionsOf in *. unfold setTokenForm, withMetadata,
        withJurisdictionRestrictions.
      cbn [tokenForm TokenForm.metadata Metadata.jurisdictionRestrictions].
      split.
      + apply NoDup_app; [exact Hnd | repeat constructor; tauto |].
        intros r Hr [<- | []]. exact (Hnotin Hr).
      + intros r Hr. apply in_app_or in Hr. destruct Hr as [Hr | [<- | []]];
          [now apply Hincl | exact Hregion]. }
  destruct Hboth as [Hnd' Hincl'].
  split; [exact Hnd' | split; [exact Hincl' |]].
  change 8%nat with (List.length REGIONS).
  now apply NoDup_incl_length.
Qed.

(** ** Templates *)

(** X11.  Whatever the template, the form that [handleSelectTemplate]
    builds has no tranche, so that no summary is displayed, or the three
    default tranches: then their ids are 1, 2 and 3, their values add up
    to the total supply of 1,000,000, so that the summary is green, and
    the tranche table is among the displayed sections. *)
Theorem template_tranches_add_up
  (clock : Clock) (template : TokenTemplate.t) (st : BuilderState) :
  let form := tokenForm (handleSelectTemplate clock template st) in
  match trancheSummary form with
  | None => Metadata.tranches (TokenForm.metadata form) = []
  | Some summary =>
      label summary = MatchesTotalSupply /\
      className summary = "text-green-500" /\
      totalValue summary = JS.Number_ofZ 1000000 /\
      map Tranche.id (Metadata.tranches (TokenForm.metadata form))
      = map JS.Number_ofZ [1; 2; 3] /\
      structuredSectionsShown form = true
  end.
Proof.
  cbv zeta. unfold handleSelectTemplate, setActiveTab, setTokenForm.
  cbn [tokenForm]. unfold trancheSummary, structuredSectionsShown.
  cbn [TokenForm.metadata Metadata.tranches Metadata.product
       TokenForm.standard TokenForm.totalSupply].
  destruct (JS.stringIncludes (TokenTemplate.name template)
              "Structured Product") eqn:Hsp;
    [| destruct (JS.stringIncludes (TokenTemplate.name template)
                   "Credit Linked") eqn:Hcl ];
    cbn [orb List.length Nat.ltb Nat.leb];
    try reflexivity.
  - rewrite orb_true_r. repeat split; vm_compute; reflexivity.
  - rewrite orb_true_r. repeat split; vm_compute; reflexivity.
Qed.

Lemma filter_none {A : Type} (f : A -> bool) (l : list A) :
  (forall x, In x l -> f x = false) -> filter f l = [].
Proof.
  induction l as [| x l IH]; intro H; [reflexivity |].
  cbn [filter]. rewrite (H x (or_introl eq_refl)).
  apply IH. intros y Hy. apply H. now right.
Qed.

(** The template chosen for a product that has exactly one. *)
Ltac lone_template :=
  split; [reflexivity |]; eexists; split; [| split];
  [ | | reflexivity ]; [ | reflexivity ]; cbn; tauto.

(** X13.  [handleSelectProduct] records the product.  For Equity, Real
    Estate, Bonds and Funds, ETFs, ETPs, each with one template of that
    category, it goes on as [handleSelectTemplate] on that template; for
    any other product, Structured Products with its two templates
    included, it keeps the form and the tab. *)
Theorem handleSelectProduct_applies_a_lone_template
  (clock : Clock) (product : string) (st : BuilderState) :
  let st' := handleSelectProduct clock product st in
  selectedProduct st' = product /\
  if JS.includes ["Equity"; "Real Estate"; "Bonds"; "Funds, ETFs, ETPs"]
       product
  then
    exists template : TokenTemplate.t,
      In template TOKEN_TEMPLATES /\
      TokenTemplate.category template = product /\
      st' = handleSelectTemplate clock template
              (setSelectedProduct product st)
  else
    tokenForm st' = tokenForm st /\ activeTab st' = activeTab st.
Proof.
  cbv zeta.
  destruct (String.eqb_spec product "Equity") as [-> | H1];
    [lone_template |].
  destruct (String.eqb_spec product "Real Estate") as [-> | H2];
    [lone_template |].
  destruct (String.eqb_spec product "Bonds") as [-> | H3];
    [lone_template |].
  destruct (String.eqb_spec product "Funds, ETFs, ETPs") as [-> | H4];
    [lone_template |].
  assert (Hout : JS.includes
                   ["Equity"; "Real Estate"; "Bonds"; "Funds, ETFs, ETPs"]
                   product = false).
  { unfold JS.includes. cbn [existsb].
    apply String.eqb_neq in H1, H2, H3, H4. now rewrite H1, H2, H3, H4. }
  rewrite Hout.
  destruct (String.eqb_spec product "Structured Products") as [-> | H5];
    [repeat split; reflexivity |].
  unfold handleSelectProduct.
  rewrite filter_none; [repeat split; reflexivity |].
  intros template Hin. apply String.eqb_neq. intro Hcat.
  cbn in Hin. intuition (subst template; cbn in Hcat; congruence).
Qed.

Section TemplateAndSave.

Variable Date_getTime : string -> JS.number.

(** X12.  Right after [handleSelectTemplate], [saveToken] stops at the
    validation toast unless the template is named Credit Linked Note (and
    has a standard): that template alone comes with a name and a
    symbol. *)
Theorem saving_right_after_a_template
  (clock : Clock) (template : TokenTemplate.t) (st : BuilderState) :
  saveToken Date_getTime (handleSelectTemplate clock template st)
  = ValidationErrorToast
  <->
  TokenTemplate.name template <> "Credit Linked Note" \/
  TokenTemplate.standard template = EmptyString.
Proof.
  rewrite saveToken_validation.
  unfold handleSelectTemplate, setActiveTab, setTokenForm.
  cbn [tokenForm TokenForm.name TokenForm.symbol TokenForm.standard].
  destruct (String.eqb_spec (TokenTemplate.name template)
              "Credit Linked Note") as [Hname | Hname].
  - split.
    + intros [H | [H | H]]; [discriminate | discriminate | now right].
    + intros [H | H]; [contradiction | now right; right].
  - split; [now left | now left].
Qed.

End TemplateAndSave.

(** ** The tranche table *)

Lemma strictEquals_add_zero (x y : JS.number) :
  JS.strictEquals (JS.add x (JS.Number_ofZ 0)) y = JS.strictEquals x y.
Proof.
  change (JS.Number_ofZ 0) with (S754_zero false).
  destruct x as [[|] | [|] | | s m e]; destruct y as [[|] | [|] | | s' m' e'];
    reflexivity.
Qed.

Lemma withTranchesOf_same (form : TokenForm.t) :
  withTranchesOf (Metadata.tranches (TokenForm.metadata form)) form = form.
Proof. destruct form as [n s dec std ts b md]. now destruct md. Qed.

(** X15.  The Add Tranche button appends one initialization statement,
    with the new id, the name made of it, the value 0 and the rate 0, to
    the statements of the tranches present; it does not change the
    outcome of the tranche-sum check, nor any other field of the form. *)
Theorem addTranche_appends_an_empty_tranche (st : BuilderState) :
  let id := newId (tranchesOf st) in
  map trancheStatement (tranchesOf (addTranche st))
  = (map trancheStatement (tranchesOf st) ++
     [ ("        _createTranche(" ++ JS.Number_toString id ++ ", " ++ dq ++
        "Tranche " ++ JS.Number_toString id ++ dq ++ ", 0, 0);")%string ])%list
  /\
  trancheSumMatches (tokenForm (addTranche st))
  = trancheSumMatches (tokenForm st) /\
  withTranchesOf (tranchesOf st) (tokenForm (addTranche st)) = tokenForm st.
Proof.
  cbv zeta. unfold tranchesOf, addTranche, setTokenForm, withTranchesOf.
  cbn [tokenForm TokenForm.metadata Metadata.tranches TokenForm.totalSupply
       TokenForm.name TokenForm.symbol TokenForm.decimals TokenForm.standard
       TokenForm.blocks Metadata.description Metadata.category
       Metadata.product Metadata.issuanceDate Metadata.maturityDate
       Metadata.whitelistEnabled Metadata.jurisdictionRestrictions
       Metadata.conversionRate].
  split; [| split].
  - rewrite map_app. f_equal.
  - unfold trancheSumMatches.
    cbn [TokenForm.metadata Metadata.tranches TokenForm.totalSupply].
    unfold trancheTotal. rewrite fold_left_app.
    cbn [fold_left Tranche.value]. apply strictEquals_add_zero.
  - destruct (tokenForm st) as [n s dec std ts b md]. now destruct md.
Qed.

Lemma removeAt_last {A : Type} (l : list A) (x : A) :
  removeAt (List.length l) (l ++ [x])%list = l.
Proof.
  induction l as [| y l IH]; [reflexivity |].
  cbn [List.length app removeAt]. now rewrite IH.
Qed.

(** X26.  Deleting the row that Add Tranche has just appended gives the
    form back, and with it the id: the next Add Tranche allocates the
    same id, and builds the same tranche, once more. *)
Theorem added_tranche_can_be_deleted (st : BuilderState) :
  let st' := deleteTranche (List.length (tranchesOf st)) (addTranche st) in
  tokenForm st' = tokenForm st /\
  tokenForm (addTranche st') = tokenForm (addTranche st).
Proof.
  cbv zeta.
  assert (Hback : tokenForm
                    (deleteTranche (List.length (tranchesOf st))
                       (addTranche st)) = tokenForm st).
  { unfold deleteTranche, addTranche, tranchesOf, setTokenForm,
      withTranchesOf.
    cbn [tokenForm TokenForm.metadata Metadata.tranches TokenForm.name
         TokenForm.symbol TokenForm.decimals TokenForm.standard
         TokenForm.totalSupply TokenForm.blocks Metadata.description
         Metadata.category Metadata.product Metadata.issuanceDate
         Metadata.maturityDate Metadata.whitelistEnabled
         Metadata.jurisdictionRestrictions Metadata.conversionRate].
    rewrite removeAt_last.
    destruct (tokenForm st) as [n s dec std ts b md]. now destruct md. }
  split; [exact Hback |].
  unfold addTranche at 1 3. unfold setTokenForm. cbn [tokenForm].
  now rewrite Hback.
Qed.

Lemma updateAt_None {A : Type} (index : nat) (f : A -> A) (l : list A) :
  updateAt index f l = None <-> (List.length l <= index)%nat.
Proof.
  revert index. induction l as [| x l IH]; intro index; cbn [updateAt].
  - cbn. split; [lia | reflexivity].
  - destruct index as [| index]; cbn [List.length].
    + split; [discriminate | lia].
    + specialize (IH index). destruct (updateAt index f l); cbn [option_map].
      * split; [discriminate |]. intro H. apply le_S_n in H.
        apply IH in H. discriminate.
      * split; [| reflexivity]. intros _. apply le_n_S. now apply IH.
Qed.

Lemma updateAt_Some {A : Type} (index : nat) (f : A -> A) (l l' : list A) :
  updateAt index f l = Some l' ->
  (index < List.length l)%nat /\
  nth_error l' index = option_map f (nth_error l index) /\
  (forall j : nat, j <> index -> nth_error l' j = nth_error l j).
Proof.
  revert index l'. induction l as [| x l IH]; intros index l' H;
    cbn [updateAt] in H; [discriminate |].
  destruct index as [| index].
  - injection H as <-. cbn [List.length nth_error option_map].
    split; [lia | split; [reflexivity |]].
    intros [| j] Hj; [contradiction | reflexivity].
  - destruct (updateAt index f l) as [l0 |] eqn:Hl0; [| discriminate].
    injection H as <-. destruct (IH index l0 Hl0) as (Hlt & Hat & Hother).
    cbn [List.length nth_error]. split; [lia | split; [exact Hat |]].
    intros [| j] Hj; [reflexivity |]. cbn [nth_error]. apply Hother. lia.
Qed.

Lemma updateAt_map {A B : Type} (g : A -> B) (index : nat) (f : A -> A)
  (l l' : list A) :
  (forall x, g (f x) = g x) ->
  updateAt index f l = Some l' -> map g l' = map g l.
Proof.
  intro Hg. revert index l'. induction l as [| x l IH]; intros index l' H;
    cbn [updateAt] in H; [discriminate |].
  destruct index as [| index].
  - injection H as <-. cbn [map]. now rewrite Hg.
  - destruct (updateAt index f l) as [l0 |] eqn:Hl0; [| discriminate].
    injection H as <-. cbn [map]. f_equal. exact (IH index l0 Hl0).
Qed.

Lemma updateAt_Forall {A : Type} (P : A -> Prop) (index : nat) (f : A -> A)
  (l l' : list A) :
  (forall x, P x -> P (f x)) ->
  updateAt index f l = Some l' -> Forall P l -> Forall P l'.
Proof.
  intro Hf. revert index l'.
  induction l as [| x l IH]; intros index l' H Hall;
    cbn [updateAt] in H; [discriminate |].
  inversion Hall as [| ? ? Hx Hrest]; subst.
  destruct index as [| index].
  - injection H as <-. constructor; [now apply Hf | exact Hrest].
  - destruct (updateAt index f l) as [l0 |] eqn:Hl0; [| discriminate].
    injection H as <-. constructor; [exact Hx |].
    exact (IH index l0 Hl0 Hrest).
Qed.

Lemma editTranche_rowEdited (index : nat) (f : Tranche.t -> Tranche.t)
  (st : BuilderState) :
  (forall t, Tranche.id (f t) = Tranche.id t) ->
  rowEdited index f st (editTranche index f st).
Proof.
  intro Hid. unfold rowEdited, editTranche, tranchesOf.
  destruct (updateAt index f
              (Metadata.tranches (TokenForm.metadata (tokenForm st))))
    as [updated |] eqn:Hupd.
  - unfold setTokenForm. cbn [tokenForm].
    change (Metadata.tranches
              (TokenForm.metadata (withTranchesOf updated (tokenForm st))))
      with updated.
    destruct (updateAt_Some _ _ _ _ Hupd) as (Hlt & Hat & Hother).
    repeat split; try assumption.
    + eapply updateAt_map; [exact Hid | exact Hupd].
    + change (withTranchesOf
                (Metadata.tranches (TokenForm.metadata (tokenForm st)))
                (withTranchesOf updated (tokenForm st)))
        with (withTranchesOf
                (Metadata.tranches (TokenForm.metadata (tokenForm st)))
                (tokenForm st)).
      apply withTranchesOf_same.
  - now apply updateAt_None in Hupd.
Qed.

Lemma orZero_stored (x : JS.number) : storedNumber (JS.orZero x).
Proof.
  unfold JS.orZero, storedNumber.
  destruct x as [[|] | [|] | | s m e]; cbn; split; discriminate.
Qed.

Section Cells.

Variable parseInt : string -> JS.number.
Variable parseFloat : string -> JS.number.

(** X16.  The three inputs of a row of the tranche table write the typed
    name, [parseInt(value) || 0] as the value and [parseFloat(value) || 0]
    as the rate of that row, and touch nothing else: the other rows, the
    ids, the order of the rows and the rest of the form are kept.  With
    an index that is not a row, the handler throws. *)
Theorem tranche_cells_edit_one_row
  (index : nat) (value : string) (st : BuilderState) :
  rowEdited index (withTrancheName value) st
    (trancheNameInput index value st) /\
  rowEdited index (withTrancheValue (JS.orZero (parseInt value))) st
    (trancheValueInput parseInt index value st) /\
  rowEdited index (withTrancheInterestRate (JS.orZero (parseFloat value))) st
    (trancheInterestRateInput parseFloat index value st).
Proof.
  repeat split; apply editTranche_rowEdited; reflexivity.
Qed.

End Cells.

(** ** Sessions *)

Lemma idsWithin_mono (bound bound' : Z) (tranches : list Tranche.t) :
  bound <= bound' -> idsWithin bound tranches -> idsWithin bound' tranches.
Proof.
  intros Hle (ids & Hids & Hnd & Hall). exists ids.
  split; [exact Hids | split; [exact Hnd |]].
  eapply Forall_impl; [| exact Hall]. cbn beta. intros z Hz. lia.
Qed.

Lemma idsWithin_same_ids (bound : Z) (tranches tranches' : list Tranche.t) :
  map Tranche.id tranches' = map Tranche.id tranches ->
  idsWithin bound tranches -> idsWithin bound tranches'.
Proof.
  intros Heq (ids & Hids & Hrest). exists ids. now rewrite Heq.
Qed.

Lemma idsWithin_nil (bound : Z) : idsWithin bound [].
Proof. exists []. repeat split; constructor. Qed.

Lemma idsWithin_removeAt (bound : Z) (index : nat)
  (tranches : list Tranche.t) :
  idsWithin bound tranches -> idsWithin bound (removeAt index tranches).
Proof.
  intros (ids & Hids & Hnd & Hall). exists (removeAt index ids).
  split; [| split].
  - now rewrite !map_removeAt, Hids.
  - now apply NoDup_removeAt.
  - rewrite Forall_forall in *. intros z Hz. apply Hall.
    eapply In_removeAt, Hz.
Qed.

Lemma newId_integers (tranches : list Tranche.t) (ids : list Z) :
  map Tranche.id tranches = map JS.Number_ofZ ids ->
  Forall (fun z => 0 <= z < 2 ^ 53 - 1) ids ->
  newId tranches = JS.Number_ofZ (integerMax ids + 1).
Proof.
  intros Hids Hall.
  assert (Hall' : Forall (fun z => 0 <= z <= 2 ^ 53 - 2) ids).
  { eapply Forall_impl; [| exact Hall]. cbn beta. intros z Hz. lia. }
  destruct (integerMax_bounds ids 0 (2 ^ 53 - 2) ltac:(cbn; lia) Hall')
    as (Hmax & _).
  fold (integerMax ids) in Hmax.
  unfold newId. destruct tranches as [| t tranches].
  - destruct ids; [reflexivity | discriminate].
  - cbn [List.length Nat.ltb Nat.leb]. rewrite Hids, Math_max_ofZ.
    + apply add_ofZ; lia.
    + destruct ids; [discriminate | congruence].
    + eapply Forall_impl; [| exact Hall]. cbn beta. intros z Hz. lia.
Qed.

Lemma idsWithin_addTranche (bound : Z) (st : BuilderState) :
  0 <= bound -> bound + 1 < 2 ^ 53 ->
  idsWithin bound (tranchesOf st) ->
  idsWithin (bound + 1) (tranchesOf (addTranche st)).
Proof.
  intros Hpos Hbound (ids & Hids & Hnd & Hall).
  assert (Hall0 : Forall (fun z => 0 <= z <= bound) ids).
  { eapply Forall_impl; [| exact Hall]. cbn beta. intros z Hz. lia. }
  destruct (integerMax_bounds ids 0 bound Hpos Hall0) as (Hmax & Hle).
  fold (integerMax ids) in Hmax, Hle.
  exists (ids ++ [integerMax ids + 1])%list. split; [| split].
  - unfold tranchesOf in *. unfold addTranche, setTokenForm, withTranchesOf.
    cbn [tokenForm TokenForm.metadata Metadata.tranches].
    rewrite !map_app, Hids. f_equal. cbn [map Tranche.id]. f_equal.
    apply newId_integers; [exact Hids |].
    eapply Forall_impl; [| exact Hall]. cbn beta. intros z Hz. lia.
  - apply NoDup_app; [exact Hnd | repeat constructor; tauto |].
    intros z Hz [<- | []]. rewrite Forall_forall in Hle.
    apply Hle in Hz. lia.
  - apply Forall_app. split.
    + eapply Forall_impl; [| exact Hall]. cbn beta. intros z Hz. lia.
    + repeat constructor; lia.
Qed.

Lemma idsWithin_handleSelectTemplate
  (bound : Z) (clock : Clock) (template : TokenTemplate.t)
  (st : BuilderState) :
  3 <= bound ->
  idsWithin bound (tranchesOf (handleSelectTemplate clock template st)).
Proof.
  intro Hb. unfold tranchesOf, handleSelectTemplate, setActiveTab,
    setTokenForm.
  cbn [tokenForm TokenForm.metadata Metadata.tranches].
  destruct (_ || _); [| apply idsWithin_nil].
  exists [1; 2; 3]. split; [reflexivity | split].
  - repeat constructor; cbn; lia.
  - repeat constructor; lia.
Qed.

Lemma handleSelectProduct_cases
  (clock : Clock) (product : string) (st : BuilderState) :
  handleSelectProduct clock product st = setSelectedProduct product st \/
  exists template,
    handleSelectProduct clock product st
    = handleSelectTemplate clock template (setSelectedProduct product st).
Proof.
  unfold handleSelectProduct.
  destruct (_ =? 1)%nat; [| now left].
  destruct (filter _ _) as [| template rest]; [now left |].
  right. now exists template.
Qed.

Lemma NoDup_map_ofZ (bound : Z) (ids : list Z) :
  bound < 2 ^ 53 -> NoDup ids -> Forall (fun z => 1 <= z <= bound) ids ->
  NoDup (map JS.Number_ofZ ids).
Proof.
  intros Hb Hnd Hall. induction Hnd as [| z ids Hnotin Hnd IH].
  - constructor.
  - inversion Hall as [| ? ? Hz Hrest]; subst. cbn [map].
    constructor; [| now apply IH].
    intro Hin. apply in_map_iff in Hin. destruct Hin as (z' & Heq & Hz').
    rewrite Forall_forall in Hrest. specialize (Hrest z' Hz').
    apply Number_ofZ_inj in Heq; [congruence | lia | lia].
Qed.

Lemma Forall_removeAt {A : Type} (P : A -> Prop) (index : nat) (l : list A) :
  Forall P l -> Forall P (removeAt index l).
Proof.
  rewrite !Forall_forall. intros H x Hx. apply H. eapply In_removeAt, Hx.
Qed.

Lemma ofZ_stored (z : Z) : 0 <= z < 2 ^ 53 -> storedNumber (JS.Number_ofZ z).
Proof.
  intro Hz. split.
  - intro H. pose proof (ofZ_not_NaN z Hz) as Hn. rewrite H in Hn.
    discriminate.
  - now apply ofZ_not_negative_zero.
Qed.

Lemma literals_stored :
  storedNumber (JS.Number_ofZ 1000000) /\ storedNumber (JS.Number_ofZ 0) /\
  storedNumber (JS.Number_ofZ 100).
Proof. repeat split; apply ofZ_stored; cbn; lia. Qed.

Section Sessions.

Variable Date_getTime : string -> JS.number.
Variable parseInt : string -> JS.number.
Variable parseFloat : string -> JS.number.

Lemma editTranche_orUnchanged_ids (index : nat) (f : Tranche.t -> Tranche.t)
  (st : BuilderState) :
  (forall t, Tranche.id (f t) = Tranche.id t) ->
  map Tranche.id (tranchesOf (orUnchanged st (editTranche index f st)))
  = map Tranche.id (tranchesOf st).
Proof.
  intro Hid. pose proof (editTranche_rowEdited index f st Hid) as H.
  unfold rowEdited in H. destruct (editTranche index f st); cbn [orUnchanged].
  - tauto.
  - reflexivity.
Qed.

Lemma handle_idsWithin (bound : Z) (st : BuilderState) (event : Event) :
  3 <= bound -> bound + 1 < 2 ^ 53 ->
  idsWithin bound (tranchesOf st) ->
  idsWithin (bound + 1) (tranchesOf (handle parseInt parseFloat st event)).
Proof.
  intros Hb Hbound Hinv.
  assert (Hkeep : idsWithin (bound + 1) (tranchesOf st)).
  { eapply idsWithin_mono; [| exact Hinv]. lia. }
  destruct event; cbn [handle];
    lazymatch goal with
    | |- context [handleCreateToken] => apply idsWithin_nil
    | |- context [handleSelectProduct] =>
        destruct (handleSelectProduct_cases clock product st)
          as [-> | [t ->]];
        [exact Hkeep | apply idsWithin_handleSelectTemplate; lia]
    | |- context [handleSelectTemplate] =>
        apply idsWithin_handleSelectTemplate; lia
    | |- context [handleInputChange] => destruct field; exact Hkeep
    | |- context [addTranche] =>
        apply idsWithin_addTranche; [lia | exact Hbound | exact Hinv]
    | |- context [orUnchanged] =>
        eapply idsWithin_same_ids; [| exact Hkeep];
        now apply editTranche_orUnchanged_ids
    | |- context [deleteTranche] => now apply idsWithin_removeAt
    | |- context [jurisdictionChecked] =>
        unfold jurisdictionChecked; destruct (JS.truthyChecked checked);
        exact Hkeep
    | |- context [handleBlockToggle] =>
        unfold handleBlockToggle, setTokenForm, tranchesOf; cbn [tokenForm];
        destruct (JS.includes _ _); exact Hkeep
    | |- _ => exact Hkeep
    end.
Qed.

(** X17.  Tranche ids stay pairwise distinct along a session.  From a
    state whose ids are pairwise distinct integers between 1 and [bound]
    (no tranche at all, for instance), every sequence of events of the
    templates tab and of the builder tab ends in a state whose ids are
    pairwise distinct integers again, none larger than the larger of
    [bound] and 3 plus the number of events, as long as that stays below
    2^53. *)
Theorem tranche_ids_stay_distinct
  (events : list Event) (st : BuilderState) (bound : Z) :
  idsWithin bound (tranchesOf st) ->
  Z.max bound 3 + Z.of_nat (List.length events) < 2 ^ 53 ->
  let st' := session parseInt parseFloat events st in
  idsWithin (Z.max bound 3 + Z.of_nat (List.length events)) (tranchesOf st')
  /\ NoDup (map Tranche.id (tranchesOf st')).
Proof.
  intros Hinv Hbound. cbv zeta.
  assert (Hmain :
            idsWithin (Z.max bound 3 + Z.of_nat (List.length events))
              (tranchesOf (session parseInt parseFloat events st))).
  { apply (idsWithin_mono bound (Z.max bound 3)) in Hinv; [| lia].
    assert (H3 : 3 <= Z.max bound 3) by lia.
    revert Hinv Hbound H3. generalize (Z.max bound 3). clear bound.
    revert st. induction events as [| event events IH];
      intros st bound Hinv Hbound H3.
    - cbn. now rewrite Z.add_0_r.
    - cbn [session fold_left List.length] in *.
      rewrite Nat2Z.inj_succ in *.
      replace (bound + Z.succ (Z.of_nat (List.length events)))
        with (bound + 1 + Z.of_nat (List.length events)) by lia.
      apply IH; [| lia | lia].
      apply handle_idsWithin; [exact H3 | lia | exact Hinv]. }
  split; [exact Hmain |].
  destruct Hmain as (ids & Hids & Hnd & Hall). rewrite Hids.
  eapply NoDup_map_ofZ; [exact Hbound | exact Hnd | exact Hall].
Qed.

Lemma editTranche_orUnchanged_stored (index : nat)
  (f : Tranche.t -> Tranche.t) (st : BuilderState) :
  (forall t,
     storedNumber (Tranche.value t) /\ storedNumber (Tranche.interestRate t) ->
     storedNumber (Tranche.value (f t)) /\
     storedNumber (Tranche.interestRate (f t))) ->
  numbersStored (tokenForm st) ->
  numbersStored (tokenForm (orUnchanged st (editTranche index f st))).
Proof.
  intros Hf (Hts & Hcr & Hall). unfold editTranche.
  destruct (updateAt index f _) as [updated |] eqn:Hupd; cbn [orUnchanged].
  - unfold numbersStored, setTokenForm, withTranchesOf.
    cbn [tokenForm TokenForm.totalSupply TokenForm.metadata
         Metadata.conversionRate Metadata.tranches].
    split; [exact Hts | split; [exact Hcr |]].
    eapply updateAt_Forall; [exact Hf | exact Hupd | exact Hall].
  - exact (conj Hts (conj Hcr Hall)).
Qed.

Lemma handleSelectTemplate_numbersStored
  (clock : Clock) (template : TokenTemplate.t) (st : BuilderState) :
  numbersStored (tokenForm (handleSelectTemplate clock template st)).
Proof.
  pose proof literals_stored as (Hmillion & Hzero & Hhundred).
  unfold numbersStored, handleSelectTemplate, setActiveTab, setTokenForm.
  cbn [tokenForm TokenForm.totalSupply TokenForm.metadata
       Metadata.conversionRate Metadata.tranches].
  split; [exact Hmillion | split; [exact Hhundred |]].
  destruct (_ || _); [| constructor].
  repeat (apply Forall_cons; [split |]); try apply Forall_nil;
    cbn [Tranche.value Tranche.interestRate]; apply ofZ_stored; cbn; lia.
Qed.

Lemma handle_numbersStored (st : BuilderState) (event : Event) :
  numbersStored (tokenForm st) ->
  numbersStored (tokenForm (handle parseInt parseFloat st event)).
Proof.
  intros Hinv. pose proof Hinv as (Hts & Hcr & Hall).
  pose proof literals_stored as (Hmillion & Hzero & Hhundred).
  destruct event; cbn [handle];
    lazymatch goal with
    | |- context [handleCreateToken] =>
        exact (conj Hmillion (conj Hzero (Forall_nil _)))
    | |- context [handleSelectProduct] =>
        destruct (handleSelectProduct_cases clock product st)
          as [-> | [t ->]];
        [exact Hinv | apply handleSelectTemplate_numbersStored]
    | |- context [handleSelectTemplate] =>
        apply handleSelectTemplate_numbersStored
    | |- context [handleInputChange] => destruct field; exact Hinv
    | |- context [totalSupplyInput] =>
        split; [apply orZero_stored | split; assumption]
    | |- context [conversionRateInput] =>
        split; [exact Hts | split; [apply orZero_stored | exact Hall]]
    | |- context [addTranche] =>
        split; [exact Hts | split; [exact Hcr |]];
        unfold addTranche, setTokenForm, withTranchesOf;
        cbn [tokenForm TokenForm.metadata Metadata.tranches];
        apply Forall_app; split; [exact Hall |];
        constructor; [split; exact Hzero | constructor]
    | |- context [trancheNameInput] =>
        apply editTranche_orUnchanged_stored; [| exact Hinv];
        intros t Ht; exact Ht
    | |- context [trancheValueInput] =>
        apply editTranche_orUnchanged_stored; [| exact Hinv];
        intros t [_ Hr]; split; [apply orZero_stored | exact Hr]
    | |- context [trancheInterestRateInput] =>
        apply editTranche_orUnchanged_stored; [| exact Hinv];
        intros t [Hv _]; split; [exact Hv | apply orZero_stored]
    | |- context [deleteTranche] =>
        split; [exact Hts | split; [exact Hcr |]];
        unfold deleteTranche, setTokenForm, withTranchesOf;
        cbn [tokenForm TokenForm.metadata Metadata.tranches];
        now apply Forall_removeAt
    | |- context [jurisdictionChecked] =>
        unfold jurisdictionChecked; destruct (JS.truthyChecked checked);
        exact Hinv
    | |- context [handleBlockToggle] =>
        unfold handleBlockToggle, setTokenForm; cbn [tokenForm];
        destruct (JS.includes _ _); exact Hinv
    | |- _ => exact Hinv
    end.
Qed.

(** X18.  The numbers that the inputs write are numbers.  From a form
    whose total supply, conversion rate, tranche values and tranche rates
    are neither NaN nor the negative zero, every session ends in such a
    form, whatever is typed and whatever [parseInt] and [parseFloat] make
    of it: [|| 0] turns NaN and both zeros into 0. *)
Theorem inputs_store_numbers (events : list Event) (st : BuilderState) :
  numbersStored (tokenForm st) ->
  numbersStored (tokenForm (session parseInt parseFloat events st)).
Proof.
  revert st. induction events as [| event events IH]; intros st Hinv.
  - exact Hinv.
  - cbn [session fold_left]. apply IH. now apply handle_numbersStored.
Qed.





(** X21.  The Conversion Rate input stores [parseInt(value) || 0], and
    the ERC-3525 template prints [conversionRate || 100]: the rate in the
    text is never 0 and never NaN.  An input that [parseInt] reads as 0 or
    as NaN leaves 0 in the form and 100 in the text. *)
Theorem conversion_rate_zero_renders_as_100
  (value : string) (st : BuilderState) :
  let metadata' :=
    TokenForm.metadata (tokenForm (conversionRateInput parseInt value st)) in
  JS.truthyNumber (conversionRateOr100 metadata') = true /\
  (JS.truthyNumber (parseInt value) = true ->
   Metadata.conversionRate metadata' = parseInt value /\
   conversionRateOr100 metadata' = parseInt value) /\
  (JS.truthyNumber (parseInt value) = false ->
   Metadata.conversionRate metadata' = JS.Number_ofZ 0 /\
   conversionRateOr100 metadata' = JS.Number_ofZ 100 /\
   In "    uint256 private _conversionRate = 100;"
     (erc3525Prologue Date_getTime (TokenForm.name (tokenForm st))
        (TokenForm.symbol (tokenForm st))
        (TokenForm.totalSupply (tokenForm st))
        (TokenForm.decimals (tokenForm st)) metadata')).
Proof.
  cbv zeta. unfold conversionRateInput, setTokenForm, withMetadata,
    withConversionRate, conversionRateOr100, JS.orZero.
  cbn [tokenForm TokenForm.metadata Metadata.conversionRate].
  destruct (JS.truthyNumber (parseInt value)) eqn:Htruthy.
  - cbv iota. rewrite Htruthy.
    split; [exact Htruthy | split; [now split | discriminate]].
  - change (JS.truthyNumber (JS.Number_ofZ 0)) with false. cbv iota.
    split; [reflexivity | split; [discriminate |]].
    intros _. split; [reflexivity | split; [reflexivity |]].
    unfold erc3525Prologue, conversionRateOr100.
    cbn [Metadata.conversionRate].
    change (JS.truthyNumber (JS.Number_ofZ 0)) with false. cbv iota.
    change (JS.Number_toString (JS.Number_ofZ 100)) with "100".
    do 37 right. left. reflexivity.
Qed.

(** X27.  The issuance date is not validated.  The Issuance Date input
    stores what it is given; the ERC-3525 template prints
    [block.timestamp] for the empty string, and for a non-empty string
    that the engine does not read as a date it prints NaN. *)
Theorem issuance_date_is_not_validated (value : string) (st : BuilderState) :
  let form := tokenForm (issuanceDateInput value st) in
  let prologue :=
    erc3525Prologue Date_getTime (TokenForm.name form) (TokenForm.symbol form)
      (TokenForm.totalSupply form) (TokenForm.decimals form)
      (TokenForm.metadata form) in
  (value = EmptyString ->
   In "    uint256 private _issuanceDate = block.timestamp;" prologue) /\
  (value <> EmptyString -> Date_getTime value = JS.NaN ->
   In "    uint256 private _issuanceDate = NaN;" prologue).
Proof.
  cbv zeta. unfold issuanceDateInput, setTokenForm, withMetadata,
    withIssuanceDate, erc3525Prologue, epochSecondsOr.
  cbn [tokenForm TokenForm.name TokenForm.symbol TokenForm.decimals
       TokenForm.totalSupply TokenForm.metadata Metadata.issuanceDate
       Metadata.maturityDate].
  split.
  - intros ->. cbn [JS.truthyString]. do 33 right. left. reflexivity.
  - intros Hne Hnan. destruct value as [| c value]; [contradiction |].
    cbn [JS.truthyString]. rewrite Hnan.
    do 33 right. left. reflexivity.
Qed.

(** X28.  A saved token comes back without its total supply.  The row
    that holds the columns written by [saveToken], taken from the list
    with [handleSelectToken], gives a form with the name, symbol,
    decimals, standard, blocks and metadata of the form that was saved,
    and without [totalSupply]; rendering the tranche summary on it throws
    exactly when the summary was displayed for the form that was
    saved. *)
Theorem saved_token_comes_back_without_total_supply
  (st st0 : BuilderState) (id project_id status : string)
  (columns : TokenColumns) :
  saveToken Date_getTime st = InsertToken project_id columns \/
  saveToken Date_getTime st = UpdateToken id columns ->
  let form := tokenForm st in
  let token := storedRow id project_id status columns in
  let st' := fst (handleSelectToken token st0) in
  let held := snd (handleSelectToken token st0) in
  selectedToken st' = Some token /\
  activeTab st' = "builder" /\
  held = WithoutTotalSupply
           {| SelectedForm.name := TokenForm.name form;
              SelectedForm.symbol := TokenForm.symbol form;
              SelectedForm.decimals := TokenForm.decimals form;
              SelectedForm.standard := TokenForm.standard form;
              SelectedForm.blocks := TokenForm.blocks form;
              SelectedForm.metadata := TokenForm.metadata form |} /\
  (renderTrancheSummary held = SummaryThrows <->
   exists summary,
     renderTrancheSummary (Complete form) = SummaryRendered summary).
Proof.
  intros Hsaved. cbv zeta.
  assert (Hcolumns :
            col_name columns = TokenForm.name (tokenForm st) /\
            col_symbol columns = TokenForm.symbol (tokenForm st) /\
            col_decimals columns = TokenForm.decimals (tokenForm st) /\
            col_standard columns = TokenForm.standard (tokenForm st) /\
            col_blocks columns = TokenForm.blocks (tokenForm st) /\
            col_metadata columns = TokenForm.metadata (tokenForm st)).
  { unfold saveToken in Hsaved.
    destruct (negb _ || negb _ || negb _);
      [destruct Hsaved; discriminate |].
    destruct (generateContractPreview Date_getTime st);
      [| destruct Hsaved; discriminate].
    destruct (selectedToken st);
      destruct Hsaved as [H | H]; try discriminate;
      injection H as <- <-; repeat split. }
  destruct Hcolumns as (Hn & Hs & Hd & Hstd & Hb & Hm).
  unfold handleSelectToken, storedRow. cbn [fst snd].
  cbn [Token.name Token.symbol Token.decimals Token.standard Token.blocks
       Token.metadata].
  rewrite Hn, Hs, Hd, Hstd, Hb, Hm.
  split; [reflexivity | split; [reflexivity | split; [reflexivity |]]].
  unfold renderTrancheSummary, structuredSectionsShown, trancheSummary.
  cbn [SelectedForm.standard SelectedForm.metadata].
  destruct (_ || _ || _).
  - destruct (0 <? List.length _)%nat.
    + split; [intros _; eexists; reflexivity | reflexivity].
    + split; [discriminate | intros [summary H]; discriminate].
  - split; [discriminate | intros [summary H]; discriminate].
Qed.

End Sessions.

(** ** Badges *)

(** X19.  On a token card the [+more] badge is missing exactly when the
    badges shown are all the building blocks of the token. *)
Theorem token_card_more_iff_hidden (token : Token.t) :
  tokenCardMore token = false <->
  tokenCardBadges token = allBlocks (Token.blocks token).
Proof.
  unfold tokenCardMore, tokenCardBadges, allBlocks.
  destruct (Token.blocks token) as [c f g].
  cbn [Blocks.compliance Blocks.features Blocks.governance].
  split.
  - intro H. apply orb_false_iff in H. destruct H as [Hf Hg].
    apply Nat.ltb_ge in Hf, Hg.
    destruct g as [| x g]; [| cbn in Hg; lia].
    rewrite app_nil_r. f_equal.
    destruct f as [| a [| b [| c' f]]]; try reflexivity. cbn in Hf. lia.
  - intro H. apply app_inv_head in H.
    assert (Hlen : List.length (firstn 2 f)
                   = (List.length f + List.length g)%nat).
    { rewrite H. apply length_app. }
    rewrite length_firstn in Hlen.
    apply orb_false_iff. split; apply Nat.ltb_ge; lia.
Qed.

(** X20.  On a template card the [+more] badge, shown for more than four
    default blocks, is shown only when some block has no badge. *)
Theorem template_card_more_implies_hidden (template : TokenTemplate.t) :
  templateCardMore template = true ->
  (List.length (templateCardBadges template)
   < List.length (allBlocks (TokenTemplate.defaultBlocks template)))%nat.
Proof.
  unfold templateCardMore, templateCardBadges, allBlocks.
  destruct (TokenTemplate.defaultBlocks template) as [c f g].
  cbn [Blocks.compliance Blocks.features Blocks.governance].
  intro H. apply Nat.ltb_lt in H.
  rewrite !length_app, !length_firstn. lia.
Qed.

(** * Closed examples

    The examples are run on the reference engine. *)

(** The ids of a concrete tranche list are pairwise distinct. *)
Ltac distinct_ids :=
  vm_compute; repeat constructor; cbn [In]; intuition discriminate.

(** The first id of a concrete tranche list occurs again next. *)
Ltac repeated_id :=
  let H := fresh "H" in
  let Hnotin := fresh "Hnotin" in
  intro H; vm_compute in H; inversion H as [| ? ? Hnotin ?];
  apply Hnotin; left; reflexivity.

(** C1, counterexample.  "ERC-9999" is outside the list of standards, and
    the call does not fail with UnsupportedStandardKind: it returns the
    empty string. *)
Lemma unknown_standard_is_not_rejected :
  ~ In (TokenForm.standard (tokenForm state_erc9999))
       (map fst TOKEN_STANDARDS) /\
  generateContractPreview ReferenceEngine.Date_getTime state_erc9999
  = JS.Normal EmptyString /\
  generateContractPreview ReferenceEngine.Date_getTime state_erc9999
  <> JS.Throw JS.UnsupportedStandardKind.
Proof.
  split; [| split].
  - cbn. intuition discriminate.
  - reflexivity.
  - discriminate.
Qed.

(** C1, witness: the standard "ERC-9999". *)
Lemma unknown_standard_empty_preview_witness :
  ~ In (TokenForm.standard (tokenForm state_erc9999))
       (map fst TOKEN_STANDARDS) /\
  generateContractPreview ReferenceEngine.Date_getTime state_erc9999
  = JS.Normal EmptyString.
Proof.
  assert (H : ~ In (TokenForm.standard (tokenForm state_erc9999))
                   (map fst TOKEN_STANDARDS))
    by (cbn; intuition discriminate).
  exact (conj H
           (proj1 (unknown_standard_empty_preview
                     ReferenceEngine.Date_getTime state_erc9999 H))).
Defined.

(** C10, witness: the standard "ERC-721". *)
Lemma listed_standard_without_template_witness :
  TokenForm.standard (tokenForm state_erc721) = "ERC-721" /\
  generateContractPreview ReferenceEngine.Date_getTime state_erc721
  = JS.Normal EmptyString.
Proof.
  split; [reflexivity |].
  apply (listed_standard_without_template
           ReferenceEngine.Date_getTime state_erc721).
  left. reflexivity.
Defined.

(** C2, counterexample.  Two tranches with id 2: the call does not fail
    with DuplicateTrancheIdError, and both statements are rendered. *)
Lemma duplicate_ids_are_not_rejected :
  ~ NoDup (map Tranche.id
             (Metadata.tranches
                (TokenForm.metadata (tokenForm state_duplicate_ids)))) /\
  generateContractPreview ReferenceEngine.Date_getTime state_duplicate_ids
  <> JS.Throw JS.DuplicateTrancheIdError /\
  map trancheStatement
    (Metadata.tranches (TokenForm.metadata (tokenForm state_duplicate_ids)))
  = [ "        _createTranche(2, " ++ dq ++ "A" ++ dq ++ ", 600000, 300);";
      "        _createTranche(2, " ++ dq ++ "B" ++ dq ++ ", 400000, 500);" ].
Proof.
  split; [| split].
  - repeated_id.
  - discriminate.
  - vm_compute. reflexivity.
Qed.

(** C2, witness: the same two tranches. *)
Lemma duplicate_tranche_ids_are_rendered_witness :
  TokenForm.standard (tokenForm state_duplicate_ids) = "ERC-3525" /\
  ~ NoDup (map Tranche.id
             (Metadata.tranches
                (TokenForm.metadata (tokenForm state_duplicate_ids)))) /\
  List.length
    (map trancheStatement
       (Metadata.tranches
          (TokenForm.metadata (tokenForm state_duplicate_ids)))) =
  List.length
    (Metadata.tranches (TokenForm.metadata (tokenForm state_duplicate_ids))).
Proof.
  assert (H : ~ NoDup (map Tranche.id
                         (Metadata.tranches
                            (TokenForm.metadata
                               (tokenForm state_duplicate_ids))))).
  { repeated_id. }
  exact (conj eq_refl
           (conj H
              (proj2 (duplicate_tranche_ids_are_rendered
                        ReferenceEngine.Date_getTime state_duplicate_ids
                        eq_refl H)))).
Defined.

(** C3, witness: the initial form, seen from two different tabs. *)
Lemma generation_is_deterministic_witness :
  tokenForm (stateWith "tokens" initialForm)
  = tokenForm (stateWith "builder" initialForm) /\
  generateContractPreview ReferenceEngine.Date_getTime
    (stateWith "tokens" initialForm) =
  generateContractPreview ReferenceEngine.Date_getTime
    (stateWith "builder" initialForm).
Proof.
  split; [reflexivity |].
  apply (generation_is_deterministic ReferenceEngine.Date_getTime
           (stateWith "tokens" initialForm)
           (stateWith "builder" initialForm)).
  reflexivity.
Defined.

(** C4, counterexample.  An ERC-1400 form with the three block lists empty
    and one restricted jurisdiction: the jurisdiction fragment is included,
    so the text is more than header and footer. *)
Lemma empty_blocks_with_jurisdiction_fragment :
  TokenForm.blocks (tokenForm state_erc1400_jurisdiction) = noBlocks /\
  includedFragmentIds
    (composeDraft ReferenceEngine.Date_getTime
       (tokenForm state_erc1400_jurisdiction))
  = [Erc1400JurisdictionRestrictions] /\
  generateContractPreview ReferenceEngine.Date_getTime
    state_erc1400_jurisdiction
  <> JS.Normal
       (headerText
          (composeDraft ReferenceEngine.Date_getTime
             (tokenForm state_erc1400_jurisdiction)) ++
        footerText
          (composeDraft ReferenceEngine.Date_getTime
             (tokenForm state_erc1400_jurisdiction))).
Proof.
  split; [reflexivity |]. split; [reflexivity |].
  intro H. vm_compute in H. discriminate H.
Qed.

(** C4, witness: a plain ERC-20 form. *)
Lemma empty_blocks_skeleton_only_witness :
  Blocks.compliance (TokenForm.blocks (tokenForm state_erc20_plain)) = [] /\
  bodyFragments
    (composeDraft ReferenceEngine.Date_getTime (tokenForm state_erc20_plain))
  = [].
Proof.
  split; [reflexivity |].
  apply (empty_blocks_skeleton_only ReferenceEngine.Date_getTime
           state_erc20_plain); reflexivity.
Defined.

(** The sum check on the default tranches, 700000 + 200000 + 100000,
    against a total supply of 1000000, and on 700000 + 200000. *)
Example tranche_sum_matches_example :
  trancheSumMatches (creditLinkedNote [senior; mezzanine; junior]) = true.
Proof. vm_compute. reflexivity. Qed.

Example tranche_sum_differs_example :
  trancheSumMatches (creditLinkedNote [senior; mezzanine]) = false /\
  exists text,
    generateContractPreview ReferenceEngine.Date_getTime
      (stateWith "builder" (creditLinkedNote [senior; mezzanine]))
    = JS.Normal text.
Proof.
  split; [vm_compute; reflexivity |].
  apply generateContractPreview_returns.
Qed.

(** C7, counterexample.  The tranches with ids 1, 2, 3 given in the order
    3, 1, 2: the ids are distinct and the statements come out in the order
    3, 1, 2 of the list, not in the order 1, 2, 3. *)
Lemma tranche_statements_keep_input_order :
  NoDup (map Tranche.id
           (Metadata.tranches
              (TokenForm.metadata (tokenForm state_tranches_312)))) /\
  map trancheStatement
    (Metadata.tranches (TokenForm.metadata (tokenForm state_tranches_312)))
  = [ "        _createTranche(3, " ++ dq ++ "Junior (CCC)" ++ dq ++
      ", 100000, 800);";
      "        _createTranche(1, " ++ dq ++ "Senior (AAA)" ++ dq ++
      ", 700000, 300);";
      "        _createTranche(2, " ++ dq ++ "Mezzanine (BBB)" ++ dq ++
      ", 200000, 500);" ] /\
  generateContractPreview ReferenceEngine.Date_getTime state_tranches_312
  <> generateContractPreview ReferenceEngine.Date_getTime state_tranches_123.
Proof.
  split; [| split].
  - distinct_ids.
  - vm_compute. reflexivity.
  - intro H. vm_compute in H. discriminate H.
Qed.

(** C7, witness: the same three tranches. *)
Lemma tranche_statements_follow_list_order_witness :
  TokenForm.standard (tokenForm state_tranches_312) = "ERC-3525" /\
  NoDup (map Tranche.id
           (Metadata.tranches
              (TokenForm.metadata (tokenForm state_tranches_312)))) /\
  generateContractPreview ReferenceEngine.Date_getTime state_tranches_312 =
  JS.Normal
    (textBeforeTranches ReferenceEngine.Date_getTime
       (tokenForm state_tranches_312) ++
     JS.join nl
       (map trancheStatement
          (Metadata.tranches
             (TokenForm.metadata (tokenForm state_tranches_312)))) ++
     textAfterTranches (tokenForm state_tranches_312)).
Proof.
  assert (H : NoDup (map Tranche.id
                       (Metadata.tranches
                          (TokenForm.metadata
                             (tokenForm state_tranches_312))))).
  { distinct_ids. }
  exact (conj eq_refl
           (conj H
              (proj1 (tranche_statements_follow_list_order
                        ReferenceEngine.Date_getTime state_tranches_312
                        eq_refl H)))).
Defined.



(** C9, counterexample.  A hyphen and an exclamation mark are not
    identifier characters, and they stay in the contract name. *)
Lemma contract_name_keeps_other_characters :
  contractName "Note-2025 !" = "Note-2025!" /\
  forallString isIdentifierChar (contractName "Note-2025 !") = false.
Proof.
  split; vm_compute; reflexivity.
Qed.

(** X1, witness: the senior tranche at 3 percent. *)
Lemma whole_percent_basis_points_witness :
  Tranche.interestRate senior = JS.Number_ofZ 3 /\
  basisPointsArgument senior = JS.Number_ofZ (3 * 100).
Proof.
  split; [reflexivity |].
  apply (whole_percent_basis_points senior 3); easy.
Defined.

(** X2, witness: the plain ERC-20 form, no token selected. *)
Lemma saveToken_stores_the_preview_witness :
  TokenForm.name (tokenForm state_erc20_plain) <> EmptyString /\
  exists columns,
    saveToken ReferenceEngine.Date_getTime state_erc20_plain
    = InsertToken "project-1" columns.
Proof.
  assert (Hn : TokenForm.name (tokenForm state_erc20_plain) <> EmptyString)
    by discriminate.
  split; [exact Hn |].
  destruct (saveToken_stores_the_preview ReferenceEngine.Date_getTime
              state_erc20_plain Hn ltac:(discriminate) ltac:(discriminate))
    as (columns & _ & _ & _ & E).
  exists columns. exact E.
Defined.

(** X3, witness: KYC on the plain ERC-20 form. *)
Lemma handleBlockToggle_twice_witness :
  JS.includes
    (getBlocks Compliance (TokenForm.blocks (tokenForm state_erc20_plain)))
    "KYC" = false /\
  tokenForm
    (handleBlockToggle Compliance "KYC"
       (handleBlockToggle Compliance "KYC" state_erc20_plain))
  = tokenForm state_erc20_plain.
Proof.
  split; [reflexivity |].
  apply (handleBlockToggle_twice Compliance "KYC" state_erc20_plain).
  reflexivity.
Defined.

(** X4, witness: after the tranches 1, 2, 3 comes the id 4. *)
Lemma addTranche_allocates_a_fresh_id_witness :
  map Tranche.id
    (Metadata.tranches (TokenForm.metadata (tokenForm state_tranches_123)))
  = map JS.Number_ofZ [1; 2; 3] /\
  map Tranche.id
    (Metadata.tranches
       (TokenForm.metadata (tokenForm (addTranche state_tranches_123))))
  = map JS.Number_ofZ ([1; 2; 3] ++ [integerMax [1; 2; 3] + 1]).
Proof.
  split; [reflexivity |].
  apply (addTranche_allocates_a_fresh_id state_tranches_123 [1; 2; 3]).
  - reflexivity.
  - repeat constructor; easy.
Defined.

(** X6, witness: the blocks of the Credit Linked Note replaced by others
    with KYC, without Dividends. *)
Lemma preview_reads_three_facts_of_the_blocks_witness :
  TokenForm.blocks (tokenForm state_tranches_123) <> otherBlocks /\
  generateContractPreview ReferenceEngine.Date_getTime
    (setTokenForm (withBlocks otherBlocks) state_tranches_123)
  = generateContractPreview ReferenceEngine.Date_getTime state_tranches_123.
Proof.
  split; [discriminate |].
  apply (preview_reads_three_facts_of_the_blocks
           ReferenceEngine.Date_getTime state_tranches_123 otherBlocks).
  - reflexivity.
  - reflexivity.
  - split; discriminate.
Defined.

(** X8, witness: the product Structured Products under ERC-20.  The
    tranche table is displayed, and what it holds does not reach the
    text. *)
Lemma metadata_outside_erc3525_witness :
  TokenForm.standard (tokenForm state_custom_structured) = "ERC-20" /\
  structuredSectionsShown (tokenForm state_custom_structured) = true /\
  generateContractPreview ReferenceEngine.Date_getTime
    (setTokenForm
       (withMetadata
          (fun _ => withTranches [senior; mezzanine; junior]
                      ("2025-01-01", "2030-01-01") 100))
       state_custom_structured)
  = generateContractPreview ReferenceEngine.Date_getTime
      state_custom_structured.
Proof.
  split; [reflexivity | split; [reflexivity |]].
  apply (metadata_outside_erc3525 ReferenceEngine.Date_getTime
           state_custom_structured).
  - discriminate.
  - discriminate.
Defined.

(** X9, witness: the Credit Linked Note, an ERC-3525 form.  The region
    checkboxes are displayed, and checking US does not change the text. *)
Lemma regions_outside_erc1400_witness :
  complianceSettingsShown (tokenForm state_tranches_123) = true /\
  restrictionsOf
    (jurisdictionChecked "US" (JS.Checked true) state_tranches_123) = ["US"] /\
  generateContractPreview ReferenceEngine.Date_getTime
    (jurisdictionChecked "US" (JS.Checked true) state_tranches_123)
  = generateContractPreview ReferenceEngine.Date_getTime state_tranches_123.
Proof.
  split; [reflexivity | split; [reflexivity |]].
  apply (regions_outside_erc1400 ReferenceEngine.Date_getTime "US"
           (JS.Checked true) state_tranches_123).
  discriminate.
Defined.

(** X10, witness: US on an ERC-1400 form without restricted region. *)
Lemma region_checkbox_round_trip_witness :
  JS.includes (restrictionsOf state_erc1400_plain) "US" = false /\
  In Erc1400JurisdictionRestrictions
    (includedFragmentIds
       (composeDraft ReferenceEngine.Date_getTime
          (tokenForm
             (jurisdictionChecked "US" (JS.Checked true)
                state_erc1400_plain)))) /\
  tokenForm
    (jurisdictionChecked "US" (JS.Checked false)
       (jurisdictionChecked "US" (JS.Checked true) state_erc1400_plain))
  = tokenForm state_erc1400_plain.
Proof.
  assert (H : JS.includes (restrictionsOf state_erc1400_plain) "US" = false)
    by reflexivity.
  pose proof (region_checkbox_round_trip ReferenceEngine.Date_getTime "US"
                state_erc1400_plain H) as (_ & Hfragment & Hback).
  exact (conj H (conj (Hfragment eq_refl) Hback)).
Defined.

(** The session of the examples ends with the ids 1, 3, 4 and 5, and with
    these statements in the text. *)
Example session_ids :
  map Tranche.id
    (tranchesOf
       (session ReferenceEngine.parseInt ReferenceEngine.parseFloat
          exampleSession state_new_token))
  = map JS.Number_ofZ [1; 3; 4; 5].
Proof. vm_compute. reflexivity. Qed.

Example session_statements :
  trancheInit
    (TokenForm.metadata
       (tokenForm
          (session ReferenceEngine.parseInt ReferenceEngine.parseFloat
             exampleSession state_new_token)))
  = lines
      [ "        _createTranche(1, " ++ dq ++ "Senior (AAA)" ++ dq ++
          ", 650000, 300);";
        "        _createTranche(3, " ++ dq ++ "Junior (CCC)" ++ dq ++
          ", 100000, 800);";
        "        _createTranche(4, " ++ dq ++ "Equity" ++ dq ++
          ", 50000, 1250);";
        "        _createTranche(5, " ++ dq ++ "Tranche 5" ++ dq ++
          ", 0, 0);" ].
Proof. vm_compute. reflexivity. Qed.

(** X17, witness: the session of the examples, from the New Token
    button. *)
Lemma tranche_ids_stay_distinct_witness :
  idsWithin 0 (tranchesOf state_new_token) /\
  NoDup
    (map Tranche.id
       (tranchesOf
          (session ReferenceEngine.parseInt ReferenceEngine.parseFloat
             exampleSession state_new_token))).
Proof.
  assert (H : idsWithin 0 (tranchesOf state_new_token))
    by apply idsWithin_nil.
  assert (Hbound : Z.max 0 3 + Z.of_nat (List.length exampleSession) < 2 ^ 53)
    by reflexivity.
  exact (conj H
           (proj2 (tranche_ids_stay_distinct ReferenceEngine.parseInt
                     ReferenceEngine.parseFloat exampleSession
                     state_new_token 0 H Hbound))).
Defined.

(** The inputs of the session that are no numbers leave 0. *)
Example session_numbers :
  let form :=
    tokenForm
      (session ReferenceEngine.parseInt ReferenceEngine.parseFloat
         exampleSession state_new_token) in
  TokenForm.totalSupply form = JS.Number_ofZ 0 /\
  Metadata.conversionRate (TokenForm.metadata form) = JS.Number_ofZ 0.
Proof. vm_compute. split; reflexivity. Qed.

(** X18, witness: the session of the examples. *)
Lemma inputs_store_numbers_witness :
  numbersStored (tokenForm state_new_token) /\
  numbersStored
    (tokenForm
       (session ReferenceEngine.parseInt ReferenceEngine.parseFloat
          exampleSession state_new_token)).
Proof.
  assert (H : numbersStored (tokenForm state_new_token)).
  { pose proof literals_stored as (Hmillion & Hzero & _).
    exact (conj Hmillion (conj Hzero (Forall_nil _))). }
  exact (conj H
           (inputs_store_numbers ReferenceEngine.parseInt
              ReferenceEngine.parseFloat exampleSession state_new_token H)).
Defined.

(** X20, witness: the Equity Token, with seven default blocks and four
    badges. *)
Lemma template_card_more_implies_hidden_witness :
  templateCardMore equityToken = true /\
  (List.length (templateCardBadges equityToken)
   < List.length (allBlocks (TokenTemplate.defaultBlocks equityToken)))%nat.
Proof.
  assert (H : templateCardMore equityToken = true) by reflexivity.
  exact (conj H (template_card_more_implies_hidden equityToken H)).
Defined.

(** A template card without [+more] although a block has no badge: three
    compliance blocks and one feature. *)
Example template_card_without_more :
  let template :=
    {| TokenTemplate.name := "Custom"; TokenTemplate.description := "Custom";
       TokenTemplate.category := "Equity";
       TokenTemplate.standard := "ERC-1400";
       TokenTemplate.defaultBlocks :=
         {| Blocks.compliance := ["KYC"; "AML"; "Maximum Investors"];
            Blocks.features := ["Voting"]; Blocks.governance := [] |} |} in
  templateCardMore template = false /\
  templateCardBadges template = ["KYC"; "AML"; "Voting"].
Proof. split; reflexivity. Qed.

(** The Fund Token, the built-in template of standard ERC-4626, leads to
    the placeholder; choosing its product is enough. *)
Example fund_token_preview :
  previewPane ReferenceEngine.Date_getTime
    (handleSelectProduct referenceClock "Funds, ETFs, ETPs" state_new_token)
  = JS.Normal "// No preview available".
Proof. reflexivity. Qed.

(** X24, witness: the blocks of the Credit Linked Note, with KYC. *)
Lemma kyc_survives_a_change_of_standard_witness :
  In Erc20Kyc
    (includedFragmentIds
       (composeDraft ReferenceEngine.Date_getTime
          (tokenForm (handleStandardChange "ERC-20" state_tranches_123)))) /\
  In Erc1400ComplianceControls
    (includedFragmentIds
       (composeDraft ReferenceEngine.Date_getTime
          (tokenForm (handleStandardChange "ERC-1400" state_tranches_123)))).
Proof.
  assert (H : In Erc20Kyc
                (includedFragmentIds
                   (composeDraft ReferenceEngine.Date_getTime
                      (tokenForm
                         (handleStandardChange "ERC-20"
                            state_tranches_123))))).
  { left. reflexivity. }
  exact (conj H
           (proj1 (kyc_survives_a_change_of_standard
                     ReferenceEngine.Date_getTime state_tranches_123 H))).
Defined.

(** X25, witness: the state after the session of the examples, where US
    is restricted; its checkbox, displayed checked, is unchecked. *)
Lemma region_checkbox_keeps_regions_distinct_witness :
  restrictionsOf
    (session ReferenceEngine.parseInt ReferenceEngine.parseFloat
       exampleSession state_new_token) = ["US"] /\
  NoDup
    (restrictionsOf
       (jurisdictionChecked "US" (JS.Checked false)
          (session ReferenceEngine.parseInt ReferenceEngine.parseFloat
             exampleSession state_new_token))).
Proof.
  split; [reflexivity |].
  apply (region_checkbox_keeps_regions_distinct "US" (JS.Checked false)
           (session ReferenceEngine.parseInt ReferenceEngine.parseFloat
              exampleSession state_new_token)).
  - left. reflexivity.
  - reflexivity.
  - repeat constructor. intros [].
  - intros r [<- | []]. left. reflexivity.
Defined.

(** Every built-in template belongs to a product that the templates tab
    offers, and its standard is one of the list of standards. *)
Example templates_are_offered :
  Forall
    (fun template =>
       In (TokenTemplate.category template)
          (List.concat (map snd PRODUCT_CATEGORIES)) /\
       In (TokenTemplate.standard template) (map fst TOKEN_STANDARDS))
    TOKEN_TEMPLATES.
Proof.
  repeat (apply Forall_cons; [split; cbn; tauto |]). apply Forall_nil.
Qed.

(** A string that is no date, typed as the issuance date of the Credit
    Linked Note. *)
Example issuance_date_soon :
  let form := tokenForm (issuanceDateInput "soon" state_tranches_123) in
  In "    uint256 private _issuanceDate = NaN;"
    (erc3525Prologue ReferenceEngine.Date_getTime (TokenForm.name form)
       (TokenForm.symbol form) (TokenForm.totalSupply form)
       (TokenForm.decimals form) (TokenForm.metadata form)).
Proof. cbv zeta. do 33 right. left. reflexivity. Qed.

(** C5, counterexample.  Two tranches of 2^53 and 1 against a total supply
    of 2^53: the sum of the values, 2^53 + 1, differs from the supply,
    and the summary is green with the label of a match, the binary64 sum
    being 2^53. *)
Lemma tranche_sum_check_rounds :
  map Tranche.value
    (Metadata.tranches (TokenForm.metadata (tokenForm state_rounded_sum)))
  = map JS.Number_ofZ [2 ^ 53; 1] /\
  TokenForm.totalSupply (tokenForm state_rounded_sum)
  = JS.Number_ofZ (2 ^ 53) /\
  integerSum [2 ^ 53; 1] <> 2 ^ 53 /\
  trancheSumMatches (tokenForm state_rounded_sum) = true /\
  renderTrancheSummary (Complete (tokenForm state_rounded_sum))
  = SummaryRendered
      {| totalValue := JS.Number_ofZ (2 ^ 53);
         className := "text-green-500";
         label := MatchesTotalSupply |}.
Proof.
  split; [reflexivity | split; [reflexivity | split]].
  - cbn. lia.
  - split; vm_compute; reflexivity.
Qed.

(** The summary of the sum check of the specification: 1,000,000 against
    a total supply of 1,000,000 is a match, 900,000 is not, and neither
    throws. *)
Example tranche_summary_rendered :
  renderTrancheSummary (Complete (creditLinkedNote [senior; mezzanine; junior]))
  = SummaryRendered
      {| totalValue := JS.Number_ofZ 1000000;
         className := "text-green-500"; label := MatchesTotalSupply |} /\
  renderTrancheSummary (Complete (creditLinkedNote [senior; mezzanine]))
  = SummaryRendered
      {| totalValue := JS.Number_ofZ 900000;
         className := "text-red-500";
         label := DoesntMatchTotalSupply (JS.Number_ofZ 1000000) |}.
Proof. split; vm_compute; reflexivity. Qed.

(** X28, witness: the Credit Linked Note with its three default tranches,
    saved and taken back from the list. *)
Lemma saved_token_comes_back_without_total_supply_witness :
  saveToken ReferenceEngine.Date_getTime state_tranches_123
  = InsertToken "project-1" savedCreditLinkedNote /\
  renderTrancheSummary
    (Complete (tokenForm state_tranches_123))
  = SummaryRendered
      {| totalValue := JS.Number_ofZ 1000000;
         className := "text-green-500"; label := MatchesTotalSupply |} /\
  renderTrancheSummary
    (snd (handleSelectToken
            (storedRow "token-1" "project-1" "DRAFT" savedCreditLinkedNote)
            state_new_token))
  = SummaryThrows.
Proof.
  assert (H : saveToken ReferenceEngine.Date_getTime state_tranches_123
              = InsertToken "project-1" savedCreditLinkedNote)
    by (vm_compute; reflexivity).
  split; [exact H | split; [vm_compute; reflexivity |]].
  apply (saved_token_comes_back_without_total_supply
           ReferenceEngine.Date_getTime state_tranches_123 state_new_token
           "token-1" "project-1" "DRAFT" savedCreditLinkedNote (or_introl H)).
  eexists. vm_compute. reflexivity.
Defined.

(** A token named, saved with success and renamed: the next save is an
    update of the row that the store returned. *)
Example second_save_is_an_update :
  let data :=
    storedRow "token-1" "project-1" "DRAFT" savedCreditLinkedNote in
  exists columns,
    saveToken ReferenceEngine.Date_getTime
      (sessionWithSaves ReferenceEngine.Date_getTime ReferenceEngine.parseInt
         ReferenceEngine.parseFloat
         [ Ui (TextInput NameField "Note"); Ui (TextInput SymbolField "NT");
           SaveButton (StoreSuccess data);
           Ui (TextInput NameField "Note 2") ]
         state_new_token)
    = UpdateToken "token-1" columns.
Proof. cbv zeta. eexists. vm_compute. reflexivity. Qed.
